(** * Bilman deployment helper: project analyzer and fix engine

    A shallow embedding of [src/project_analyzer.py] (class
    [ProjectAnalyzer]) and [src/fix_engine.py] (class [FixEngine]).

    Conventions of the embedding.

    - A Python [str] is a [string]; one [ascii] stands for one code point
      below 256.  The content of a file is the text that [f.read()] returns.
    - The project directory is a tree of [File] and [Dir] nodes.  A
      directory lists its entries in the order in which the operating system
      enumerates them.  Opening a directory for reading or writing raises;
      other I/O failures (permissions, undecodable bytes) are outside the
      model.
    - The methods of [FixEngine] thread the tree and the list
      [fixes_applied]; a Python exception keeps every effect that happened
      before it, so the monad hands back the state also when it raises.
    - [json.load], [json.dump], [os.path.relpath] with respect to the working
      directory, and the existence of paths that leave the project tree belong
      to the platform and are fields of the class [Platform].
    - In the literals of this file the character [~], which occurs nowhere in
      the two sources, stands for the double quote; [Str.q] puts the double
      quote back. *)

From Stdlib Require Import String Ascii List Bool Arith NArith Lia.
Import ListNotations.

#[local] Set Warnings "-register-all".

Local Open Scope list_scope.
Local Open Scope string_scope.

(** ** Text primitives (the [str] methods the two classes call) *)

Module Str.

Definition dquote : ascii := "034".

(** [~] becomes the double quote. *)
Fixpoint q (s : string) : string :=
  match s with
  | EmptyString => EmptyString
  | String c s' => String (if Ascii.eqb c "~" then dquote else c) (q s')
  end.

(** [s.startswith(p)] *)
Fixpoint starts_with (p s : string) : bool :=
  match p with
  | EmptyString => true
  | String a p' =>
      match s with
      | EmptyString => false
      | String b s' => Ascii.eqb a b && starts_with p' s'
      end
  end.

(** [p in s] for two strings *)
Fixpoint contains (p s : string) : bool :=
  starts_with p s
  || match s with
     | EmptyString => false
     | String _ s' => contains p s'
     end.

(** [s.endswith(p)] *)
Fixpoint ends_with (p s : string) : bool :=
  String.eqb p s
  || match s with
     | EmptyString => false
     | String _ s' => ends_with p s'
     end.

(** [any(s.endswith(p) for p in ps)], also [s.endswith(tuple(ps))] *)
Definition ends_with_any (ps : list string) (s : string) : bool :=
  existsb (fun p => ends_with p s) ps.

Definition code (c : ascii) : N := N_of_ascii c.

Definition in_range (lo hi : N) (c : ascii) : bool :=
  (lo <=? code c)%N && (code c <=? hi)%N.

(** [str.lower] on code points below 256: A-Z and the accented capitals
    U+00C0..U+00DE (without the multiplication sign U+00D7) move up by 32. *)
Definition lower_char (c : ascii) : ascii :=
  if in_range 65 90 c
     || (in_range 192 222 c && negb (code c =? 215)%N)
  then ascii_of_N (code c + 32)
  else c.

Fixpoint lower (s : string) : string :=
  match s with
  | EmptyString => EmptyString
  | String c s' => String (lower_char c) (lower s')
  end.

(** [s.replace(old, new)] for a non-empty [old]: left to right, occurrences
    that do not overlap. *)
Fixpoint replace_go (skip : nat) (old new s : string) : string :=
  match s with
  | EmptyString => EmptyString
  | String c s' =>
      match skip with
      | S k => replace_go k old new s'
      | O =>
          if starts_with old s
          then new ++ replace_go (String.length old - 1) old new s'
          else String c (replace_go 0 old new s')
      end
  end.

Definition replace (old new s : string) : string := replace_go 0 old new s.

(** [s[:n]] *)
Fixpoint take (n : nat) (s : string) : string :=
  match n, s with
  | S k, String c s' => String c (take k s')
  | _, _ => EmptyString
  end.

(** [sep.join(l)] *)
Fixpoint join (sep : string) (l : list string) : string :=
  match l with
  | [] => EmptyString
  | [x] => x
  | x :: rest => x ++ sep ++ join sep rest
  end.

(** [s.split(/)]: the components between slashes *)
Fixpoint split_slash_go (cur : string) (s : string) : list string :=
  match s with
  | EmptyString => [cur]
  | String c s' =>
      if Ascii.eqb c "/" then cur :: split_slash_go EmptyString s'
      else split_slash_go (cur ++ String c EmptyString) s'
  end.

Definition split_slash (s : string) : list string :=
  split_slash_go EmptyString s.

(** number of bytes of the UTF-8 encoding *)
Fixpoint byte_length (s : string) : N :=
  match s with
  | EmptyString => 0%N
  | String c s' => ((if (code c <? 128)%N then 1 else 2) + byte_length s')%N
  end.

(** [x in l] for a list of strings *)
Definition mem (x : string) (l : list string) : bool :=
  existsb (String.eqb x) l.

(** [int(s)] for a run of the digits 0-9 *)
Fixpoint int_go (acc : N) (s : string) : N :=
  match s with
  | EmptyString => acc
  | String c s' => int_go (10 * acc + (code c - 48))%N s'
  end.

Definition int (s : string) : N := int_go 0 s.

End Str.

(** ** The regular expressions of the two classes

    Every pattern in the sources is a sequence of literals, character
    classes under a greedy star or plus, optional classes, and (in the port
    probe) one lazy dot-star.  In each of them the class under a repetition
    is disjoint from what may follow it, so the first attempt of Python's
    backtracking matcher is the only one that can succeed, and a pattern is
    a left-to-right scanner.  A scanner takes the text at the current
    position and returns what is left after the match. *)

Module Re.

(** the class of white space on code points below 256 *)
Definition is_space (c : ascii) : bool :=
  Str.in_range 9 13 c || Str.in_range 28 32 c
  || (Str.code c =? 133)%N || (Str.code c =? 160)%N.

(** the class of decimal digits on code points below 256 *)
Definition is_digit (c : ascii) : bool := Str.in_range 48 57 c.

(** the class of the two quote characters *)
Definition is_quote (c : ascii) : bool :=
  Ascii.eqb c Str.dquote || Ascii.eqb c "'".

(** the class [=:] *)
Definition is_assign (c : ascii) : bool :=
  Ascii.eqb c "=" || Ascii.eqb c ":".

(** ASCII case folding, which is what [re.IGNORECASE] amounts to for the
    letters of the patterns on code points below 256. *)
Definition fold_case (c : ascii) : ascii :=
  if Str.in_range 65 90 c then ascii_of_N (Str.code c + 32) else c.

(** a literal *)
Fixpoint lit (p s : string) : option string :=
  match p with
  | EmptyString => Some s
  | String a p' =>
      match s with
      | EmptyString => None
      | String b s' => if Ascii.eqb a b then lit p' s' else None
      end
  end.

(** a literal under [re.IGNORECASE] *)
Fixpoint lit_ci (p s : string) : option string :=
  match p with
  | EmptyString => Some s
  | String a p' =>
      match s with
      | EmptyString => None
      | String b s' =>
          if Ascii.eqb (fold_case a) (fold_case b) then lit_ci p' s' else None
      end
  end.

(** a class under a greedy star *)
Fixpoint star (cls : ascii -> bool) (s : string) : string :=
  match s with
  | EmptyString => EmptyString
  | String c s' => if cls c then star cls s' else s
  end.

(** the longest run of a class: the run and the rest *)
Fixpoint run (cls : ascii -> bool) (s : string) : string * string :=
  match s with
  | EmptyString => (EmptyString, EmptyString)
  | String c s' =>
      if cls c then let (r, rest) := run cls s' in (String c r, rest)
      else (EmptyString, s)
  end.

(** a class under a greedy plus, in a group *)
Definition plus (cls : ascii -> bool) (s : string) : option (string * string) :=
  match run cls s with
  | (EmptyString, _) => None
  | (r, rest) => Some (r, rest)
  end.

(** one character of a class *)
Definition one (cls : ascii -> bool) (s : string) : option string :=
  match s with
  | EmptyString => None
  | String c s' => if cls c then Some s' else None
  end.

(** an optional character of a class, greedy *)
Definition opt (cls : ascii -> bool) (s : string) : string :=
  match s with
  | EmptyString => EmptyString
  | String c s' => if cls c then s' else s
  end.

Definition and_then {A B} (o : option A) (k : A -> option B) : option B :=
  match o with
  | Some a => k a
  | None => None
  end.

(** The text a scanner consumed: [m.group(0)]. *)
Definition matched (s rest : string) : string :=
  Str.take (String.length s - String.length rest) s.

Section Scan.
(** A matcher gives, at a position, the replacement text and the rest. *)
Variable m : string -> option (string * string).

(** [re.search(pattern, s)] as a truth value *)
Fixpoint search (s : string) : bool :=
  match m s with
  | Some _ => true
  | None =>
      match s with
      | EmptyString => false
      | String _ s' => search s'
      end
  end.

(** [re.sub(pattern, repl, s)]: the leftmost match is replaced and the
    scan goes on behind it.  [skip] counts the characters of the last
    match that are still to be passed over.  No pattern of the sources
    matches the empty string. *)
Fixpoint sub_go (skip : nat) (s : string) : string :=
  match s with
  | EmptyString => EmptyString
  | String c s' =>
      match skip with
      | S k => sub_go k s'
      | O =>
          match m s with
          | Some (r, rest) =>
              r ++ sub_go (String.length s' - String.length rest) s'
          | None => String c (sub_go 0 s')
          end
      end
  end.

Definition sub (s : string) : string := sub_go 0 s.

(** [re.findall(pattern, s)] for a pattern with one group: the matcher's
    first component is the group. *)
Fixpoint findall_go (skip : nat) (s : string) : list string :=
  match s with
  | EmptyString => []
  | String c s' =>
      match skip with
      | S k => findall_go k s'
      | O =>
          match m s with
          | Some (g, rest) =>
              g :: findall_go (String.length s' - String.length rest) s'
          | None => findall_go 0 s'
          end
      end
  end.

Definition findall (s : string) : list string := findall_go 0 s.
End Scan.

(** *** The patterns of [_fix_nodejs_main_file] *)

(** the template [.listen(process.env.PORT || \1, "0.0.0.0")] *)
Definition listen_repl (port : string) : string :=
  ".listen(process.env.PORT || " ++ port ++ Str.q ", ~0.0.0.0~)".

(** [\.listen\(\s*(\d+)\s*\)] *)
Definition listen_bare (s : string) : option (string * string) :=
  and_then (lit ".listen(" s) (fun r1 =>
  and_then (plus is_digit (star is_space r1)) (fun '(d, r2) =>
  and_then (lit ")" (star is_space r2)) (fun r3 =>
  Some (listen_repl d, r3)))).

(** [\.listen\(\s*process\.env\.PORT\s*\|\|\s*(\d+)\s*\)] *)
Definition listen_env (s : string) : option (string * string) :=
  and_then (lit ".listen(" s) (fun r1 =>
  and_then (lit "process.env.PORT" (star is_space r1)) (fun r2 =>
  and_then (lit "||" (star is_space r2)) (fun r3 =>
  and_then (plus is_digit (star is_space r3)) (fun '(d, r4) =>
  and_then (lit ")" (star is_space r4)) (fun r5 =>
  Some (listen_repl d, r5)))))).

(** *** The patterns of [_fix_python_main_file] *)

Definition flask_run_repl : string :=
  Str.q "app.run(host=~0.0.0.0~, port=int(os.environ.get(~PORT~, 5000)))".

Definition flask_debug_repl : string :=
  Str.q "app.run(host=~0.0.0.0~, port=int(os.environ.get(~PORT~, 5000)), debug=False)".

(** [app\.run\(\)] *)
Definition flask_run (s : string) : option (string * string) :=
  and_then (lit "app.run()" s) (fun r => Some (flask_run_repl, r)).

(** [app\.run\(debug=True\)] *)
Definition flask_debug (s : string) : option (string * string) :=
  and_then (lit "app.run(debug=True)" s) (fun r => Some (flask_debug_repl, r)).

(** [app\.run\(host=['"]localhost['"]\)] *)
Definition flask_localhost (s : string) : option (string * string) :=
  and_then (lit "app.run(host=" s) (fun r1 =>
  and_then (one is_quote r1) (fun r2 =>
  and_then (lit "localhost" r2) (fun r3 =>
  and_then (one is_quote r3) (fun r4 =>
  and_then (lit ")" r4) (fun r5 =>
  Some (flask_run_repl, r5)))))).

Definition uvicorn_repl : string :=
  Str.q "uvicorn.run(app, host=~0.0.0.0~, port=int(os.environ.get(~PORT~, 8000)))".

(** [uvicorn\.run\([^)]*\)] *)
Definition uvicorn_run (s : string) : option (string * string) :=
  and_then (lit "uvicorn.run(" s) (fun r1 =>
  and_then (lit ")" (star (fun c => negb (Ascii.eqb c ")")) r1)) (fun r2 =>
  Some (uvicorn_repl, r2))).

(** *** The patterns of [_fix_file_bindings] *)

(** [kw\s*[=:]\s*["']?old["']?] under [re.IGNORECASE], where [old] is
    [re.escape(old_pattern)], a literal; the rest after the match. *)
Definition host_context_end (kw old s : string) : option string :=
  and_then (lit_ci kw s) (fun r1 =>
  and_then (one is_assign (star is_space r1)) (fun r2 =>
  and_then (lit_ci old (opt is_quote (star is_space r2))) (fun r3 =>
  Some (opt is_quote r3)))).

(** The same with the replacement
    [lambda m: m.group(0).replace(old_pattern, new_pattern)]. *)
Definition host_context (kw old new s : string) : option (string * string) :=
  and_then (host_context_end kw old s) (fun rest =>
  Some (Str.replace old new (matched s rest), rest)).

(** *** The patterns of [_detect_port_config] *)

(** The lazy dot-star and the group [(\d+)]: the first digit that no
    newline separates from the keyword starts the group. *)
Fixpoint lazy_digits (s : string) : option (string * string) :=
  match s with
  | EmptyString => None
  | String c s' =>
      if is_digit c then Some (run is_digit s)
      else if Ascii.eqb c "010" then None
      else lazy_digits s'
  end.

(** [kw.*?(\d+)] under [re.IGNORECASE] *)
Definition port_hint (kw s : string) : option (string * string) :=
  and_then (lit_ci kw s) lazy_digits.

End Re.

(** ** JSON values as Python objects *)

Module Json.

(** What [json.load] builds: [None], [bool], numbers (kept as their text),
    [str], [list] and [dict].  A [dict] keeps its keys in insertion order. *)
Inductive json : Type :=
| JNull
| JBool (b : bool)
| JNum (repr : string)
| JStr (s : string)
| JArr (items : list json)
| JObj (members : list (string * json)).

(** the value at a key of a [dict] *)
Fixpoint find (k : string) (ms : list (string * json)) : option json :=
  match ms with
  | [] => None
  | (k', v) :: rest => if String.eqb k' k then Some v else find k rest
  end.

(** [d[k] = v] on the members of a [dict]: an existing key keeps its place,
    a new key goes last. *)
Fixpoint store (k : string) (v : json) (ms : list (string * json))
  : list (string * json) :=
  match ms with
  | [] => [(k, v)]
  | (k', v') :: rest =>
      if String.eqb k' k then (k', v) :: rest else (k', v') :: store k v rest
  end.

Definition is_str (k : string) (v : json) : bool :=
  match v with
  | JStr s => String.eqb s k
  | _ => false
  end.

(** [k in v] for a string [k]; [None] when Python raises [TypeError]. *)
Definition py_in (k : string) (v : json) : option bool :=
  match v with
  | JObj ms => Some (match find k ms with Some _ => true | None => false end)
  | JArr items => Some (existsb (is_str k) items)
  | JStr s => Some (Str.contains k s)
  | _ => None
  end.

(** [v[k]] for a string [k]; [None] when Python raises. *)
Definition py_getitem (k : string) (v : json) : option json :=
  match v with
  | JObj ms => find k ms
  | _ => None
  end.

(** [v[k] = x] for a string [k]; [None] when Python raises. *)
Definition py_setitem (k : string) (x : json) (v : json) : option json :=
  match v with
  | JObj ms => Some (JObj (store k x ms))
  | _ => None
  end.

(** [v.get(k, default)]; [None] when [v] has no method [get]. *)
Definition py_get (k : string) (default : json) (v : json) : option json :=
  match v with
  | JObj ms => Some (match find k ms with Some x => x | None => default end)
  | _ => None
  end.

(** The keys that [{**v}] unpacks; [None] when [v] is not a mapping. *)
Definition py_keys (v : json) : option (list string) :=
  match v with
  | JObj ms => Some (map fst ms)
  | _ => None
  end.

End Json.

Import Json.

(** ** The platform *)

Class Platform : Type := {
  (** [json.load(f)] on the text of [f]; [None] when it raises *)
  json_load : string -> option json;
  (** the text that [json.dump(obj, f, indent=2)] writes *)
  json_dump : json -> string;
  (** [os.path.exists(os.path.join(project_dir, p))] for a path [p] that is
      absolute or has a component [..] *)
  outside_exists : string -> string -> bool;
  (** [os.path.relpath(path)], relative to the working directory *)
  relpath_cwd : string -> string
}.

(** ** The project tree *)

Module FS.

(** A regular file with the text it reads as and its size in bytes
    ([os.path.getsize]), or a directory with its entries in listing order. *)
Inductive node : Type :=
| File (content : string) (size : N)
| Dir (entries : list (string * node)).

(** a path below the project directory, one component per level *)
Definition path : Type := list string.

Fixpoint lookup (name : string) (es : list (string * node)) : option node :=
  match es with
  | [] => None
  | (n, x) :: rest => if String.eqb n name then Some x else lookup name rest
  end.

Definition child (name : string) (n : node) : option node :=
  match n with
  | Dir es => lookup name es
  | File _ _ => None
  end.

Fixpoint node_at (p : path) (n : node) : option node :=
  match p with
  | [] => Some n
  | d :: p' =>
      match child d n with
      | Some x => node_at p' x
      | None => None
      end
  end.

(** [os.path.exists] below the project directory *)
Definition exists_at (p : path) (n : node) : bool :=
  match node_at p n with
  | Some _ => true
  | None => false
  end.

(** [os.path.isfile] *)
Definition is_file (x : node) : bool :=
  match x with
  | File _ _ => true
  | Dir _ => false
  end.

(** [open(path, 'r')] and [f.read()]; [None] when it raises. *)
Definition read_at (p : path) (n : node) : option string :=
  match node_at p n with
  | Some (File c _) => Some c
  | _ => None
  end.

(** [os.path.getsize]; [None] when it raises [OSError]. *)
Definition size_at (p : path) (n : node) : option N :=
  match node_at p n with
  | Some (File _ sz) => Some sz
  | _ => None
  end.

Definition fresh_file (content : string) : node :=
  File content (Str.byte_length content).

Fixpoint update_entry (name : string) (f : option node -> option node)
    (es : list (string * node)) : option (list (string * node)) :=
  match es with
  | [] =>
      match f None with
      | Some x => Some [(name, x)]
      | None => None
      end
  | (n, x) :: rest =>
      if String.eqb n name
      then match f (Some x) with
           | Some x' => Some ((n, x') :: rest)
           | None => None
           end
      else match update_entry name f rest with
           | Some rest' => Some ((n, x) :: rest')
           | None => None
           end
  end.

(** [open(path, 'w')] and [f.write(content)]: a regular file is
    overwritten, a missing file is created at the end of its directory's
    listing, and the call raises ([None]) when the path names a directory or
    its parent is not a directory. *)
Fixpoint write_at (p : path) (content : string) (n : node) : option node :=
  match p with
  | [] =>
      match n with
      | File _ _ => Some (fresh_file content)
      | Dir _ => None
      end
  | d :: p' =>
      match n with
      | File _ _ => None
      | Dir es =>
          match
            update_entry d
              (fun o =>
                 match o with
                 | Some x => write_at p' content x
                 | None =>
                     match p' with
                     | [] => Some (fresh_file content)
                     | _ :: _ => None
                     end
                 end) es
          with
          | Some es' => Some (Dir es')
          | None => None
          end
      end
  end.

(** the names of the sub-directories and of the other entries of a listing *)
Fixpoint dirnames (es : list (string * node)) : list string :=
  match es with
  | [] => []
  | (n, Dir _) :: rest => n :: dirnames rest
  | (_, File _ _) :: rest => dirnames rest
  end.

Fixpoint filenames (es : list (string * node)) : list string :=
  match es with
  | [] => []
  | (n, File _ _) :: rest => n :: filenames rest
  | (_, Dir _) :: rest => filenames rest
  end.

(** [os.walk(top)], top down, with the filter that the loop body applies to
    [dirs] in place: one triple (directory, kept sub-directories, files) per
    directory visited.  A [top] that is no directory yields nothing. *)
Fixpoint walk (keep : string -> bool) (here : path) (n : node)
  : list (path * list string * list string) :=
  match n with
  | File _ _ => []
  | Dir es =>
      (here, filter keep (dirnames es), filenames es)
      :: (fix below (l : list (string * node)) :=
            match l with
            | [] => []
            | (name, x) :: rest =>
                match x with
                | Dir _ =>
                    if keep name
                    then walk keep (here ++ [name])%list x ++ below rest
                    else below rest
                | File _ _ => below rest
                end
            end)%list es
  end.

(** the files of a walk, each with its path, in the order of the loops
    [for root, dirs, files in os.walk(..): for file in files:] *)
Definition walk_files (keep : string -> bool) (n : node) : list (path * string) :=
  flat_map (fun '(here, _, files) => map (fun f => (here, f)) files)
           (walk keep [] n).

(** [os.path.join(a, b)] *)
Definition path_join (a b : string) : string :=
  if Str.starts_with "/" b then b
  else if String.eqb a "" || Str.ends_with "/" a then a ++ b
  else a ++ "/" ++ b.

(** [os.path.join(project_dir, *p)] *)
Definition full_path (project_dir : string) (p : path) : string :=
  fold_left path_join p project_dir.

(** [os.path.relpath(os.path.join(root, file), project_dir)] for a file
    that a walk of [project_dir] reached *)
Definition rel (p : path) : string := Str.join "/" p.

(** [os.path.basename] *)
Fixpoint basename_go (cur s : string) : string :=
  match s with
  | EmptyString => cur
  | String c s' =>
      if Ascii.eqb c "/" then basename_go EmptyString s'
      else basename_go (cur ++ String c EmptyString) s'
  end.

Definition basename (s : string) : string := basename_go EmptyString s.

(** Resolution of [os.path.join(project_dir, p)] inside the tree for a
    relative [p] without [..]: empty components and [.] stay where they
    are, but nothing may follow a regular file. *)
Fixpoint resolve (comps : list string) (n : node) : bool :=
  match comps with
  | [] => true
  | c :: rest =>
      match n with
      | File _ _ => false
      | Dir es =>
          if String.eqb c "" || String.eqb c "." then resolve rest n
          else match lookup c es with
               | Some x => resolve rest x
               | None => false
               end
      end
  end.

(** [os.path.exists(os.path.join(project_dir, p))] for an arbitrary string *)
Definition exists_str `{Platform} (project_dir p : string) (n : node) : bool :=
  let comps := Str.split_slash p in
  if Str.starts_with "/" p || Str.mem ".." comps
  then outside_exists project_dir p
  else resolve comps n.

End FS.

Import FS.

(** ** [ProjectAnalyzer] *)

Module Analyzer.

(** The report of [analyze], with the entries that the fix engine or the
    analyzer itself reads back: [project_type], the file inventory of
    [structure], the environment files and the port hints of
    [configuration], and [potential_issues]. *)
Record project_type : Type := {
  primary : string;
  technologies : list string;
  frameworks : list string
}.

Record structure : Type := {
  total_files : nat;
  total_directories : nat;
  important_files : list string;
  directories : list string
}.

Record configuration : Type := {
  environment_files : list string;
  port_configuration : option (list N)
}.

Record issue : Type := {
  type : string;
  severity : string;
  description : string
}.

Record analysis : Type := {
  project_path : string;
  project_type_of : project_type;
  structure_of : structure;
  configuration_of : configuration;
  potential_issues : list issue
}.

(** *** [_detect_project_type] *)

(** [x in dependencies] for the merged dictionary of [dependencies] and
    [devDependencies]: membership among its keys. *)
Definition node_frameworks (deps : list string) : list string :=
  ((if Str.mem "express" deps then ["express"] else [])
   ++ (if Str.mem "react" deps then ["react"] else [])
   ++ (if Str.mem "vue" deps then ["vue"] else [])
   ++ (if Str.mem "angular" deps then ["angular"] else [])
   ++ (if Str.mem "next" deps || Str.mem "nextjs" deps then ["nextjs"] else []))%list.

(** The keys of [{**package_data.get(dependencies, {}),
    **package_data.get(devDependencies, {})}]; [None] when the expression
    raises. *)
Definition dependency_keys (package_data : json) : option (list string) :=
  match py_get "dependencies" (JObj []) package_data with
  | None => None
  | Some d =>
      match py_keys d with
      | None => None
      | Some kd =>
          match py_get "devDependencies" (JObj []) package_data with
          | None => None
          | Some dd =>
              match py_keys dd with
              | None => None
              | Some kdd => Some (kd ++ kdd)%list
              end
          end
      end
  end.

(** The [try] block over [package.json]: any exception leaves the
    framework list as it was. *)
Definition package_frameworks `{Platform} (root : node) : list string :=
  match read_at ["package.json"] root with
  | None => []
  | Some text =>
      match json_load text with
      | None => []
      | Some package_data =>
          match dependency_keys package_data with
          | None => []
          | Some deps => node_frameworks deps
          end
      end
  end.

(** [x in requirements] for the lower-cased text of [requirements.txt] *)
Definition python_frameworks (requirements : string) : list string :=
  ((if Str.contains "django" requirements then ["django"] else [])
   ++ (if Str.contains "flask" requirements then ["flask"] else [])
   ++ (if Str.contains "fastapi" requirements then ["fastapi"] else [])
   ++ (if Str.contains "streamlit" requirements then ["streamlit"] else []))%list.

Definition requirements_frameworks (root : node) : list string :=
  if exists_at ["requirements.txt"] root
  then match read_at ["requirements.txt"] root with
       | Some text => python_frameworks (Str.lower text)
       | None => []
       end
  else [].

(** [any(f.endswith(ext) for f in os.listdir(project_dir)
         if os.path.isfile(os.path.join(project_dir, f)))] *)
Definition loose_file (ext : string) (es : list (string * node)) : bool :=
  existsb (fun '(name, x) => is_file (x : node) && Str.ends_with ext name) es.

Definition has_node (root : node) : bool := exists_at ["package.json"] root.

Definition has_python (root : node) : bool :=
  exists_at ["requirements.txt"] root
  || exists_at ["setup.py"] root
  || exists_at ["pyproject.toml"] root.

Definition has_php (es : list (string * node)) : bool :=
  exists_at ["composer.json"] (Dir es) || loose_file ".php" es.

Definition has_go (root : node) : bool :=
  exists_at ["go.mod"] root || exists_at ["go.sum"] root.

Definition has_ruby (root : node) : bool := exists_at ["Gemfile"] root.

Definition has_static (es : list (string * node)) : bool := loose_file ".html" es.

(** [if project_type[primary] == unknown: project_type[primary] = stack] *)
Definition claim_primary (stack : string) (current : string) : string :=
  if String.eqb current "unknown" then stack else current.

(** The six checks in the order of the source; each one that fires adds its
    technology and takes [primary] only while it is still [unknown].  The
    method needs [os.listdir(project_dir)]: on anything but a directory it
    raises ([None]). *)
Definition detect_project_type `{Platform} (root : node) : option project_type :=
  match root with
  | File _ _ => None
  | Dir es =>
      let p0 := "unknown" in
      let t0 := [] in
      let f0 := [] in
      let '(p1, t1, f1) :=
        if has_node root
        then ("nodejs", t0 ++ ["javascript"], f0 ++ package_frameworks root)
        else (p0, t0, f0) in
      let '(p2, t2, f2) :=
        if has_python root
        then (claim_primary "python" p1, t1 ++ ["python"],
              f1 ++ requirements_frameworks root)
        else (p1, t1, f1) in
      let '(p3, t3) :=
        if has_php es then (claim_primary "php" p2, t2 ++ ["php"]) else (p2, t2) in
      let '(p4, t4) :=
        if has_go root then (claim_primary "go" p3, t3 ++ ["go"]) else (p3, t3) in
      let '(p5, t5) :=
        if has_ruby root then (claim_primary "ruby" p4, t4 ++ ["ruby"]) else (p4, t4) in
      let '(p6, t6) :=
        if has_static es then (claim_primary "static" p5, t5 ++ ["html"]) else (p5, t5) in
      Some {| primary := p6; technologies := t6; frameworks := f2 |}
  end%list.

(** *** [_analyze_structure] (without the histogram of suffixes) *)

Definition important_names : list string :=
  [ "README.md"; "readme.md"; "README.txt";
    "package.json"; "requirements.txt"; "setup.py";
    "Dockerfile"; "docker-compose.yml";
    "Makefile"; "makefile";
    ".env"; ".env.example";
    "config.json"; "config.yml"; "config.yaml";
    "app.py"; "main.py"; "index.js"; "server.js";
    "index.html"; "index.php" ].

(** [not d.startswith(.) and d not in [node_modules, __pycache__, vendor]] *)
Definition structure_keeps (d : string) : bool :=
  negb (Str.starts_with "." d)
  && negb (Str.mem d ["node_modules"; "__pycache__"; "vendor"]).

(** [file.startswith(.) and file not in [.env, .env.example]]: skipped *)
Definition hidden_file (f : string) : bool :=
  Str.starts_with "." f && negb (Str.mem f [".env"; ".env.example"]).

Definition analyze_structure (root : node) : structure :=
  let visits := walk structure_keeps [] root in
  let counted :=
    flat_map (fun '(here, _, files) =>
                map (fun f => (here, f)) (filter (fun f => negb (hidden_file f)) files))
             visits in
  {| total_files := List.length counted;
     total_directories :=
       list_sum (map (fun '(_, dirs, _) => List.length (dirs : list string)) visits);
     important_files :=
       map (fun '(here, f) => rel (here ++ [f]))
           (filter (fun '(_, f) => Str.mem f important_names) counted);
     directories :=
       map (fun '(here, _, _) => rel here)
           (filter (fun '(here, _, _) =>
                      match (here : path) with [] => false | _ :: _ => true end)
                   visits) |}%list.

(** *** [_analyze_configuration]: the environment files *)

(** [file.startswith(.env) or environment in file.lower()] *)
Definition is_environment_file (f : string) : bool :=
  Str.starts_with ".env" f || Str.contains "environment" (Str.lower f).

Definition find_environment_files (root : node) : list string :=
  map (fun '(here, f) => rel (here ++ [f])%list)
      (filter (fun '(_, f) => is_environment_file f) (walk_files (fun _ => true) root)).

(** *** [_detect_port_config] *)

Definition port_main_files : list string :=
  ["app.py"; "main.py"; "server.js"; "index.js"; "app.js"].

(** The four patterns; under [re.IGNORECASE] the first two are the same. *)
Definition port_keywords : list string := ["port"; "PORT"; "listen"; "server"].

(** [1000 <= port <= 65535] *)
Definition valid_port (p : N) : bool := (1000 <=? p)%N && (p <=? 65535)%N.

(** the ports that one file contributes, pattern by pattern *)
Definition ports_of_content (content : string) : list N :=
  flat_map (fun kw =>
              filter valid_port (map Str.int (Re.findall (Re.port_hint kw) content)))
           port_keywords.

Definition ports_of_file (root : node) (f : string) : list N :=
  if exists_at [f] root
  then match read_at [f] root with
       | Some content => ports_of_content content
       | None => []
       end
  else [].

(** [list(set(l))]: every value once.  Python leaves the order of the
    result open; here it is the order of the first occurrences. *)
Fixpoint dedup (l : list N) : list N :=
  match l with
  | [] => []
  | x :: rest =>
      x :: filter (fun y => negb (N.eqb x y)) (dedup rest)
  end.

Definition detect_port_config (root : node) : option (list N) :=
  match flat_map (ports_of_file root) port_main_files with
  | [] => None
  | detected_ports => Some (dedup detected_ports)
  end.

Definition analyze_configuration (root : node) : configuration :=
  {| environment_files := find_environment_files root;
     port_configuration := detect_port_config root |}.

(** *** [_identify_potential_issues] *)

Definition hardcoded_patterns : list (string * string) :=
  [ ("localhost", "Hardcoded localhost references found");
    ("127.0.0.1", "Hardcoded local IP addresses found");
    ("password", "Potential hardcoded passwords found");
    ("secret", "Potential hardcoded secrets found") ].

(** the first pattern that occurs in the lower-cased content *)
Fixpoint first_hardcoded (content : string) (ps : list (string * string))
  : option string :=
  match ps with
  | [] => None
  | (pattern, descr) :: rest =>
      if Str.contains pattern content then Some descr
      else first_hardcoded content rest
  end.

Definition hardcoded_issue (root : node) (pf : path * string) : list issue :=
  let '(here, f) := pf in
  if Str.ends_with_any [".py"; ".js"; ".json"; ".yml"; ".yaml"] f
  then match read_at (here ++ [f])%list root with
       | None => []
       | Some content =>
           match first_hardcoded (Str.lower content) hardcoded_patterns with
           | Some descr =>
               [ {| type := "hardcoded_config";
                    severity := "medium";
                    description := descr ++ " in " ++ rel (here ++ [f])%list |} ]
           | None => []
           end
       end
  else [].

(** [100 * 1024 * 1024] *)
Definition large_threshold : N := 104857600.

Definition is_large (root : node) (pf : path * string) : bool :=
  let '(here, f) := pf in
  match size_at (here ++ [f])%list root with
  | Some sz => (large_threshold <? sz)%N
  | None => false
  end.

(** The method reads [self.analysis_result], which [analyze] assigns only
    after this method has returned: [previous] is the report of the run
    before, and [None] stands for the empty dictionary of a new analyzer. *)
Definition previous_primary (previous : option analysis) : option string :=
  match previous with
  | Some a => Some (primary (project_type_of a))
  | None => None
  end.

Definition previous_important_files (previous : option analysis) : list string :=
  match previous with
  | Some a => important_files (structure_of a)
  | None => []
  end.

Definition manifest_issues (previous : option analysis) : list issue :=
  let files := previous_important_files previous in
  match previous_primary previous with
  | Some p =>
      if String.eqb p "nodejs"
      then if negb (Str.mem "package.json" (map basename files))
           then [ {| type := "missing_file";
                     severity := "high";
                     description := "Missing package.json file for Node.js project" |} ]
           else []
      else if String.eqb p "python"
      then if negb (existsb (Str.contains "requirements.txt") files)
              && negb (existsb (Str.contains "setup.py") files)
           then [ {| type := "missing_file";
                     severity := "medium";
                     description :=
                       "Missing requirements.txt or setup.py for Python project" |} ]
           else []
      else []
  | None => []
  end.

Definition env_issues (previous : option analysis) : list issue :=
  match filter (Str.contains ".env") (previous_important_files previous) with
  | [] => [ {| type := "missing_env";
               severity := "low";
               description := "No environment configuration files found" |} ]
  | _ :: _ => []
  end.

Definition large_file_issues (root : node) : list issue :=
  match filter (is_large root) (walk_files (fun _ => true) root) with
  | [] => []
  | large_files =>
      [ {| type := "large_files";
           severity := "medium";
           description :=
             "Large files found that may cause deployment issues: "
             ++ Str.join ", "
                  (map (fun '(here, f) => rel (here ++ [f])%list)
                       (firstn 5 large_files)) |} ]
  end.

Definition identify_potential_issues (previous : option analysis) (root : node)
  : list issue :=
  (manifest_issues previous
   ++ flat_map (hardcoded_issue root) (walk_files (fun _ => true) root)
   ++ env_issues previous
   ++ large_file_issues root)%list.

(** *** [analyze] *)

Inductive outcome (A : Type) : Type :=
| Returns (a : A)
| Raises.
Arguments Returns {A} a.
Arguments Raises {A}.

(** [analyze(project_dir)].  [at_path] is what [project_dir] names: nothing,
    or a node.  [previous] is [self.analysis_result] before the call.  The
    result is what the call returns ([None] for the empty dictionary) and
    [self.analysis_result] after it. *)
Definition analyze `{Platform} (project_dir : string) (at_path : option node)
    (previous : option analysis)
  : outcome (option analysis) * option analysis :=
  match at_path with
  | None => (Returns None, previous)
  | Some root =>
      match detect_project_type root with
      | None => (Raises, previous)
      | Some pt =>
          let a :=
            {| project_path := project_dir;
               project_type_of := pt;
               structure_of := analyze_structure root;
               configuration_of := analyze_configuration root;
               potential_issues := identify_potential_issues previous root |} in
          (Returns (Some a), Some a)
      end
  end.

End Analyzer.

(** ** The texts that the fix engine writes *)

Module Text.

(** the listener that [_fix_nodejs_main_file] appends *)
Definition node_listen_block : string := Eval vm_compute in Str.q
"

// Added by deployment fix
const PORT = process.env.PORT || 3000;
app.listen(PORT, ~0.0.0.0~, () => {
  console.log(`Server running on port ${PORT}`);
});
".

(** the start-up code that [_fix_python_main_file] appends *)
Definition python_main_block : string := Eval vm_compute in Str.q
"

# Added by deployment fix
if __name__ == ~__main__~:
    import os
    port = int(os.environ.get(~PORT~, 8000))
    print(f~Starting server on port {port}~)
".

(** [htaccess_content] of [_fix_php_issues] *)
Definition htaccess_content : string := Eval vm_compute in Str.q
"# Added by deployment fix
RewriteEngine On
RewriteCond %{REQUEST_FILENAME} !-d
RewriteCond %{REQUEST_FILENAME} !-f
RewriteRule ^(.+)$ index.php [QSA,L]
".

(** [env_content] of [_fix_environment_config] *)
Definition env_content : string := Eval vm_compute in Str.q
"# Environment Configuration - Added by deployment fix
NODE_ENV=production
DEBUG=false
PORT=8000
HOST=0.0.0.0
".

(** [guide_content] of [_fix_hardcoded_configs], before the list of issues *)
Definition guide_head : string := Eval vm_compute in Str.q
"# Deployment Configuration Notes

## Hardcoded Values Detected
The following files contain hardcoded values that should be moved to environment variables:

".

(** [guide_content] of [_fix_hardcoded_configs], after the list of issues *)
Definition guide_tail : string := Eval vm_compute in Str.q
"
## Recommended Actions
1. Move hardcoded values to environment variables
2. Use process.env.VARIABLE_NAME (Node.js) or os.environ.get('VARIABLE_NAME') (Python)
3. Update configuration files to use environment variables

## Environment Variables to Set
- DATABASE_URL
- SECRET_KEY
- API_KEYS
- PORT
- HOST
".

(** [start_content] of [_create_nodejs_startup] *)
Definition node_start_content : string := Eval vm_compute in Str.q
"#!/bin/bash
# Node.js Application Startup Script - Added by deployment fix

echo ~Starting Node.js application...~

# Install dependencies if node_modules doesn't exist
if [ ! -d ~node_modules~ ]; then
    echo ~Installing dependencies...~
    npm install
fi

# Start the application
echo ~Starting server...~
npm start
".

(** [start_content] of [_create_python_startup] for Django *)
Definition django_start_content : string := Eval vm_compute in Str.q
"#!/bin/bash
# Django Application Startup Script - Added by deployment fix

echo ~Starting Django application...~

# Install dependencies
if [ -f ~requirements.txt~ ]; then
    echo ~Installing dependencies...~
    pip install -r requirements.txt
fi

# Run migrations
echo ~Running migrations...~
python manage.py migrate --noinput

# Collect static files
echo ~Collecting static files...~
python manage.py collectstatic --noinput

# Start the server
echo ~Starting server...~
python manage.py runserver 0.0.0.0:8000
".

(** [start_content] of [_create_python_startup] for Flask *)
Definition flask_start_content : string := Eval vm_compute in Str.q
"#!/bin/bash
# Flask Application Startup Script - Added by deployment fix

echo ~Starting Flask application...~

# Install dependencies
if [ -f ~requirements.txt~ ]; then
    echo ~Installing dependencies...~
    pip install -r requirements.txt
fi

# Start the application
echo ~Starting server...~
python app.py
".

(** [start_content] of [_create_python_startup] otherwise *)
Definition python_start_content : string := Eval vm_compute in Str.q
"#!/bin/bash
# Python Application Startup Script - Added by deployment fix

echo ~Starting Python application...~

# Install dependencies
if [ -f ~requirements.txt~ ]; then
    echo ~Installing dependencies...~
    pip install -r requirements.txt
fi

# Find and start main application
if [ -f ~main.py~ ]; then
    python main.py
elif [ -f ~app.py~ ]; then
    python app.py
elif [ -f ~server.py~ ]; then
    python server.py
else
    echo ~No main application file found~
    exit 1
fi
".

(** [run_content] of [_create_python_run_script] *)
Definition run_content : string := Eval vm_compute in Str.q
"#!/usr/bin/env python3
# Basic run script - Added by deployment fix

import os
import sys
from pathlib import Path

def find_main_module():
    ~~~Find the main application module~~~
    candidates = ['app.py', 'main.py', 'server.py', 'wsgi.py']
    
    for candidate in candidates:
        if Path(candidate).exists():
            return candidate.replace('.py', '')
    
    return None

def main():
    ~~~Main entry point~~~
    print(~Starting application...~)
    
    # Set environment variables
    os.environ.setdefault('HOST', '0.0.0.0')
    os.environ.setdefault('PORT', '8000')
    
    # Try to find and import main module
    main_module = find_main_module()
    if main_module:
        try:
            __import__(main_module)
            print(f~Started {main_module}~)
        except Exception as e:
            print(f~Failed to start {main_module}: {e}~)
            sys.exit(1)
    else:
        print(~No main application module found~)
        sys.exit(1)

if __name__ == ~__main__~:
    main()
".

End Text.

(** ** [FixEngine] *)

Module Engine.

Import Analyzer.

(** The state that the methods thread: the project tree and
    [self.fixes_applied]. *)
Record engine : Type := {
  tree : node;
  fixes_applied : list string
}.

(** [FixEngine()]: the constructor sets [self.fixes_applied = []]. *)
Definition init (root : node) : engine :=
  {| tree := root; fixes_applied := [] |}.

(** A method body: it returns or raises, and hands back the state. *)
Definition M (A : Type) : Type := engine -> outcome A * engine.

Definition ret {A} (a : A) : M A := fun s => (Returns a, s).

Definition raise {A} : M A := fun s => (Raises, s).

Definition bind {A B} (m : M A) (k : A -> M B) : M B :=
  fun s =>
    match m s with
    | (Returns a, s') => k a s'
    | (Raises, s') => (Raises, s')
    end.

Declare Scope engine_scope.
Delimit Scope engine_scope with engine.
Notation "x <- m ;; k" := (bind m (fun x => k))
  (at level 61, m at next level, right associativity) : engine_scope.
Notation "m ;; k" := (bind m (fun _ => k))
  (at level 61, right associativity) : engine_scope.
Local Open Scope engine_scope.

(** [try: m except Exception: log the error] *)
Definition attempt (m : M unit) : M unit :=
  fun s => (Returns tt, snd (m s)).

(** a Python expression that raises when it has no value *)
Definition value_of {A} (o : option A) : M A :=
  match o with
  | Some a => ret a
  | None => raise
  end.

(** [self.fixes_applied.append(msg)] *)
Definition log (msg : string) : M unit :=
  fun s =>
    (Returns tt,
     {| tree := tree s; fixes_applied := (fixes_applied s ++ [msg])%list |}).

(** [os.path.exists(os.path.join(project_dir, name))] *)
Definition exists_ (p : path) : M bool :=
  fun s => (Returns (exists_at p (tree s)), s).

(** [with open(path, 'r') as f: content = f.read()] *)
Definition read (p : path) : M string :=
  fun s =>
    match read_at p (tree s) with
    | Some c => (Returns c, s)
    | None => (Raises, s)
    end.

(** [with open(path, 'w') as f: f.write(content)] *)
Definition write (p : path) (content : string) : M unit :=
  fun s =>
    match write_at p content (tree s) with
    | Some t => (Returns tt, {| tree := t; fixes_applied := fixes_applied s |})
    | None => (Raises, s)
    end.

(** [for x in l: body(x)] *)
Fixpoint for_each {A} (l : list A) (body : A -> M unit) : M unit :=
  match l with
  | [] => ret tt
  | x :: rest => body x ;; for_each rest body
  end.

(** the first name of a list that exists in the project directory *)
Fixpoint first_existing (names : list string) (root : node) : option string :=
  match names with
  | [] => None
  | n :: rest => if exists_at [n] root then Some n else first_existing rest root
  end.

(** The reads of the report, each with the default of its [get]. *)
Definition report_primary (analysis : option analysis) : string :=
  match analysis with
  | Some a => primary (project_type_of a)
  | None => "unknown"
  end.

Definition report_frameworks (analysis : option analysis) : list string :=
  match analysis with
  | Some a => frameworks (project_type_of a)
  | None => []
  end.

Definition report_environment_files (analysis : option analysis) : list string :=
  match analysis with
  | Some a => environment_files (configuration_of a)
  | None => []
  end.

Definition report_issues (analysis : option analysis) : list issue :=
  match analysis with
  | Some a => potential_issues a
  | None => []
  end.

(** *** [_fix_nodejs_main_file] *)

(** the loop over [port_patterns]: the first pattern found is substituted,
    and the loop breaks *)
Definition rewrite_listen (content : string) : string :=
  if Re.search Re.listen_bare content then Re.sub Re.listen_bare content
  else if Re.search Re.listen_env content then Re.sub Re.listen_env content
  else content.

(** [.listen( not in content and createServer in content] *)
Definition needs_listener (content : string) : bool :=
  negb (Str.contains ".listen(" content) && Str.contains "createServer" content.

Definition fix_nodejs_main_file (project_dir main_file : string) : M unit :=
  attempt (
    original_content <- read [main_file] ;;
    let content := rewrite_listen original_content in
    content <-
      (if needs_listener content
       then log "Added proper port binding to Node.js app" ;;
            ret (content ++ Text.node_listen_block)
       else ret content) ;;
    if negb (String.eqb content original_content)
    then write [main_file] content ;;
         log ("Fixed port binding in " ++ basename (path_join project_dir main_file))
    else ret tt).

(** *** [_fix_nodejs_issues] *)

(** The file that the start script names: [main_file] when it exists, else
    the first of the common entry points that exists, else [main_file]
    all the same. *)
Definition start_entry `{Platform} (project_dir main_file : string) (root : node)
  : string :=
  if exists_str project_dir main_file root then main_file
  else match first_existing ["app.js"; "server.js"; "main.js"; "index.js"] root with
       | Some entry => entry
       | None => main_file
       end.

(** The body of the [try] block over [package.json]. *)
Definition fix_package_json `{Platform} (project_dir : string) : M unit :=
  text <- read ["package.json"] ;;
  package_data <- value_of (json_load text) ;;
  has_scripts <- value_of (py_in "scripts" package_data) ;;
  package_data <-
    (if has_scripts then ret package_data
     else value_of (py_setitem "scripts" (JObj []) package_data)) ;;
  scripts <- value_of (py_getitem "scripts" package_data) ;;
  has_start <- value_of (py_in "start" scripts) ;;
  package_data <-
    (if has_start then ret package_data
     else
       main <- value_of (py_get "main" (JStr "index.js") package_data) ;;
       main_file <- value_of (match main with JStr s => Some s | _ => None end) ;;
       main_file <-
         (fun s => (Returns (start_entry project_dir main_file (tree s)), s)) ;;
       scripts <- value_of (py_setitem "start" (JStr ("node " ++ main_file)) scripts) ;;
       package_data <- value_of (py_setitem "scripts" scripts package_data) ;;
       log "Added start script to package.json" ;;
       ret package_data) ;;
  write ["package.json"] (json_dump package_data).

Definition fix_nodejs_issues `{Platform} (project_dir : string) : M unit :=
  package_json <- exists_ ["package.json"] ;;
  (if package_json then attempt (fix_package_json project_dir) else ret tt) ;;
  fun s =>
    match first_existing ["app.js"; "server.js"; "index.js"; "main.js"] (tree s) with
    | Some main_file => fix_nodejs_main_file project_dir main_file s
    | None => (Returns tt, s)
    end.

(** *** [_fix_django_settings] *)

Definition fix_django_settings : M unit :=
  attempt (
    original_content <- read ["settings.py"] ;;
    let content := original_content in
    content <-
      (if Str.contains "ALLOWED_HOSTS = []" content
       then log "Fixed Django ALLOWED_HOSTS setting" ;;
            ret (Str.replace "ALLOWED_HOSTS = []"
                   (Str.q "ALLOWED_HOSTS = [~*~]  # Fixed for deployment") content)
       else ret content) ;;
    content <-
      (if Str.contains "DEBUG = True" content
       then log "Fixed Django DEBUG setting for production" ;;
            let content :=
              Str.replace "DEBUG = True"
                (Str.q "DEBUG = os.environ.get(~DEBUG~, ~False~).lower() == ~true~")
                content in
            ret (if negb (Str.contains "import os" content)
                 then "import os" ++ String "010" content
                 else content)
       else ret content) ;;
    if negb (String.eqb content original_content)
    then write ["settings.py"] content
    else ret tt).

(** *** [_fix_python_main_file] *)

(** [os.environ.get("PORT" in content and import os not in content] *)
Definition needs_os_import (content : string) : bool :=
  Str.contains (Str.q "os.environ.get(~PORT~") content
  && negb (Str.contains "import os" content).

(** the loop over [run_patterns] for Flask: the content after it, and
    whether a pattern was found *)
Definition rewrite_flask_run (content : string) : string * bool :=
  if Re.search Re.flask_run content then (Re.sub Re.flask_run content, true)
  else if Re.search Re.flask_debug content then (Re.sub Re.flask_debug content, true)
  else if Re.search Re.flask_localhost content
       then (Re.sub Re.flask_localhost content, true)
  else (content, false).

(** the guard of the generic start-up block *)
Definition needs_main_block (content : string) : bool :=
  Str.contains (Str.q "__name__ == ~__main__~") content
  && negb (Str.contains "app.run(" content)
  && negb (Str.contains "uvicorn.run(" content)
  && negb (Str.contains ".serve_forever()" content).

Definition fix_python_main_file (main_file : string)
    (analysis : option analysis) : M unit :=
  attempt (
    original_content <- read [main_file] ;;
    let content := original_content in
    let frameworks := report_frameworks analysis in
    content <-
      (if Str.mem "flask" frameworks then
         let '(content, found) := rewrite_flask_run content in
         (if found then log "Fixed Flask app.run() for deployment" else ret tt) ;;
         if needs_os_import content
         then log "Added os import for PORT environment variable" ;;
              ret ("import os" ++ String "010" content)
         else ret content
       else if Str.mem "django" frameworks then
         settings <- exists_ ["settings.py"] ;;
         (if settings then fix_django_settings else ret tt) ;;
         ret content
       else if Str.mem "fastapi" frameworks then
         content <-
           (if Str.contains "uvicorn.run(" content
               && Re.search Re.uvicorn_run content
            then log "Fixed FastAPI uvicorn configuration" ;;
                 ret (Re.sub Re.uvicorn_run content)
            else ret content) ;;
         ret (if needs_os_import content
              then "import os" ++ String "010" content
              else content)
       else ret content) ;;
    content <-
      (if needs_main_block content
       then log "Added basic server startup code" ;;
            ret (content ++ Text.python_main_block)
       else ret content) ;;
    if negb (String.eqb content original_content)
    then write [main_file] content
    else ret tt).

(** *** [_create_python_run_script] and [_fix_python_issues] *)

Definition create_python_run_script : M unit :=
  write ["run.py"] Text.run_content ;;
  log "Created Python run script".

Definition python_main_files : list string :=
  ["app.py"; "main.py"; "server.py"; "run.py"].

Definition fix_python_issues (analysis : option analysis) : M unit :=
  for_each python_main_files (fun main_file =>
    present <- exists_ [main_file] ;;
    if present then fix_python_main_file main_file analysis else ret tt) ;;
  fun s =>
    if negb (existsb (fun f => exists_at [f] (tree s)) python_main_files)
    then create_python_run_script s
    else (Returns tt, s).

(** *** [_fix_php_issues] *)

Definition fix_php_issues : M unit :=
  present <- exists_ [".htaccess"] ;;
  if negb present
  then write [".htaccess"] Text.htaccess_content ;;
       log "Created .htaccess file for PHP application"
  else ret tt.

(** *** [_fix_file_bindings] and [_fix_port_binding] *)

Definition problematic_patterns : list (string * string) :=
  [("localhost", "0.0.0.0"); ("127.0.0.1", "0.0.0.0")].

Definition host_keywords : list string := ["host"; "bind"; "listen"].

(** [if re.search(context, content, re.IGNORECASE): content = re.sub(...)] *)
Definition rebind (old new : string) (content kw : string) : string :=
  if Re.search (Re.host_context kw old new) content
  then Re.sub (Re.host_context kw old new) content
  else content.

(** the two nested loops of [_fix_file_bindings] over the content *)
Definition fix_bindings (content : string) : string :=
  fold_left (fun content '(old, new) => fold_left (rebind old new) host_keywords content)
            problematic_patterns content.

Definition fix_file_bindings `{Platform} (project_dir : string) (p : path) : M unit :=
  attempt (
    original_content <- read p ;;
    let content := fix_bindings original_content in
    if negb (String.eqb content original_content)
    then write p content ;;
         log ("Fixed host binding in " ++ relpath_cwd (full_path project_dir p))
    else ret tt).

(** [d not in [node_modules, __pycache__, .git]] *)
Definition binding_keeps (d : string) : bool :=
  negb (Str.mem d ["node_modules"; "__pycache__"; ".git"]).

Definition binding_extensions : list string := [".py"; ".js"; ".php"; ".rb"; ".go"].

(** The rewrites change no listing, so the walk is the walk of the tree as
    the method finds it. *)
Definition fix_port_binding `{Platform} (project_dir : string) : M unit :=
  fun s =>
    for_each (walk_files binding_keeps (tree s)) (fun '(here, file) =>
      if Str.ends_with_any binding_extensions file
      then attempt (fix_file_bindings project_dir (here ++ [file])%list)
      else ret tt) s.

(** *** [_fix_environment_config] *)

Definition fix_environment_config (analysis : option analysis) : M unit :=
  match report_environment_files analysis with
  | [] =>
      write [".env"] Text.env_content ;;
      log "Created .env file with deployment configuration"
  | _ :: _ => ret tt
  end.

(** *** [_fix_hardcoded_configs] *)

Definition hardcoded_issues (analysis : option analysis) : list issue :=
  filter (fun i => String.eqb (type i) "hardcoded_config") (report_issues analysis).

Definition guide_content (issues : list issue) : string :=
  Text.guide_head
  ++ String.concat ""
       (map (fun i => "- " ++ description i ++ String "010" EmptyString) issues)
  ++ Text.guide_tail.

Definition fix_hardcoded_configs (analysis : option analysis) : M unit :=
  match hardcoded_issues analysis with
  | [] => ret tt
  | issues =>
      write ["DEPLOYMENT_NOTES.md"] (guide_content issues) ;;
      log "Created deployment configuration guide"
  end.

(** *** [_create_startup_script] *)

(** [os.chmod] changes no content and has no counterpart in the tree. *)
Definition create_nodejs_startup : M unit :=
  write ["start.sh"] Text.node_start_content ;;
  log "Created Node.js startup script".

Definition python_start_content (analysis : option analysis) : string :=
  let frameworks := report_frameworks analysis in
  if Str.mem "django" frameworks then Text.django_start_content
  else if Str.mem "flask" frameworks then Text.flask_start_content
  else Text.python_start_content.

Definition create_python_startup (analysis : option analysis) : M unit :=
  write ["start.sh"] (python_start_content analysis) ;;
  log "Created Python startup script".

Definition create_startup_script (analysis : option analysis) : M unit :=
  let project_type := report_primary analysis in
  if String.eqb project_type "nodejs" then create_nodejs_startup
  else if String.eqb project_type "python" then create_python_startup analysis
  else ret tt.

(** *** [apply_fixes] *)

Definition stack_fixes `{Platform} (project_dir : string)
    (analysis : option analysis) : M unit :=
  let project_type := report_primary analysis in
  if String.eqb project_type "nodejs" then fix_nodejs_issues project_dir
  else if String.eqb project_type "python" then fix_python_issues analysis
  else if String.eqb project_type "php" then fix_php_issues
  else ret tt.

(** the body of the [try] block *)
Definition apply_fixes_body `{Platform} (project_dir : string)
    (analysis : option analysis) : M bool :=
  stack_fixes project_dir analysis ;;
  fix_port_binding project_dir ;;
  fix_environment_config analysis ;;
  fix_hardcoded_configs analysis ;;
  create_startup_script analysis ;;
  fun s => (Returns (Nat.ltb 0 (List.length (fixes_applied s))), s).

(** [apply_fixes(project_dir, analysis)]: the returned value and the state
    after the call.  An exception that reaches the [except] clause makes the
    call return [False]. *)
Definition apply_fixes `{Platform} (project_dir : string)
    (analysis : option analysis) (s : engine) : bool * engine :=
  match apply_fixes_body project_dir analysis s with
  | (Returns b, s') => (b, s')
  | (Raises, s') => (false, s')
  end.

(** [get_fixes_applied()] *)
Definition get_fixes_applied (s : engine) : list string := fixes_applied s.

End Engine.

(** ** [ProjectAnalyzer]: the database probe and the recommendations *)

Module Probe.

Import Analyzer.

(** *** [_detect_database_config] *)

(** [db_indicators], in the order of the dictionary *)
Definition db_indicators : list (string * list string) :=
  [ ("mongodb", ["mongodb://"; "mongoose"; "mongo"]);
    ("postgresql", ["postgresql://"; "psycopg2"; "pg"]);
    ("mysql", ["mysql://"; "pymysql"; "mysql2"]);
    ("sqlite", ["sqlite"; ".db"; ".sqlite3"]);
    ("redis", ["redis://"; "redis"]) ].

Definition database_extensions : list string :=
  [".json"; ".yml"; ".yaml"; ".env"; ".py"; ".js"].

(** [any(indicator in content for indicator in indicators)] *)
Definition indicated (content : string) (indicators : list string) : bool :=
  existsb (fun indicator => Str.contains indicator content) indicators.

(** the loop over [db_indicators.items()] for one lower-cased content *)
Definition databases_in (content : string) (detected_dbs : list string)
  : list string :=
  fold_left (fun detected '(db_type, indicators) =>
               if indicated content indicators
               then if negb (Str.mem db_type detected)
                    then (detected ++ [db_type])%list
                    else detected
               else detected)
            db_indicators detected_dbs.

(** the body of the loop over the files of the walk *)
Definition probe_file (root : node) (detected_dbs : list string)
    (pf : path * string) : list string :=
  let '(here, f) := pf in
  if Str.ends_with_any database_extensions f
  then match read_at (here ++ [f])%list root with
       | Some content => databases_in (Str.lower content) detected_dbs
       | None => detected_dbs
       end
  else detected_dbs.

Definition detect_database_config (root : node) : option (list string) :=
  match fold_left (probe_file root) (walk_files (fun _ => true) root) [] with
  | [] => None
  | detected_dbs => Some detected_dbs
  end.

(** *** [_generate_recommendations] *)

(** [str(port)] for a port number is its decimal numeral. *)
Definition digit_of (n : N) : ascii := ascii_of_N (48 + n).

Fixpoint numeral_go (fuel : nat) (n : N) (acc : string) : string :=
  match fuel with
  | O => acc
  | S k =>
      let acc := String (digit_of (n mod 10)) acc in
      if (n <? 10)%N then acc else numeral_go k (n / 10)%N acc
  end.

Definition numeral (n : N) : string :=
  numeral_go (S (N.to_nat (N.log2 n))) n EmptyString.

Definition stack_recommendations (pt : project_type) : list string :=
  if String.eqb (primary pt) "nodejs" then
    "Consider using PM2 for process management in production"
    :: (if Str.mem "express" (frameworks pt)
        then ["Ensure Express app binds to 0.0.0.0 for external access"]
        else [])
  else if String.eqb (primary pt) "python" then
    "Consider using Gunicorn or uWSGI for production deployment"
    :: (if Str.mem "django" (frameworks pt)
        then ["Set DEBUG=False and configure ALLOWED_HOSTS for production"]
        else if Str.mem "flask" (frameworks pt)
        then ["Use a production WSGI server instead of Flask's development server"]
        else [])
  else [].

Definition issue_recommendation (i : issue) : list string :=
  if String.eqb (type i) "hardcoded_config"
  then ["Move hardcoded configurations to environment variables"]
  else if String.eqb (type i) "missing_env"
  then ["Create environment configuration files for different deployment stages"]
  else [].

Definition database_recommendation (database_config : option (list string))
  : list string :=
  match database_config with
  | Some ((_ :: _) as dbs) =>
      ["Ensure database services are available: " ++ Str.join ", " dbs]
  | _ => []
  end.

Definition port_recommendation (ports : option (list N)) : list string :=
  match ports with
  | Some ((_ :: _) as ports) =>
      ["Configure port binding for detected ports: "
       ++ Str.join ", " (map numeral ports)]
  | _ => []
  end.

Definition general_recommendations : list string :=
  [ "Add health check endpoints for monitoring";
    "Implement logging for debugging deployment issues";
    "Set up error handling for production environment";
    "Consider adding Docker support for consistent deployments" ].

(** The list that [_generate_recommendations] stores in the report [a],
    whose [database_config] is [database_config]. *)
Definition generate_recommendations (a : analysis)
    (database_config : option (list string)) : list string :=
  (stack_recommendations (project_type_of a)
   ++ flat_map issue_recommendation (potential_issues a)
   ++ database_recommendation database_config
   ++ port_recommendation (port_configuration (configuration_of a))
   ++ general_recommendations)%list.

End Probe.

(** * Properties *)

Import Analyzer.

(** ** A platform for the examples

    [sample_dump] prints as [json.dump(obj, f, indent=2)] does for the
    values below (plain strings; nested objects and arrays), and
    [sample_load] reads back the manifests of the examples. *)

Fixpoint spaces (n : nat) : string :=
  match n with
  | O => EmptyString
  | S k => String " " (spaces k)
  end.

Fixpoint sample_dump_at (indent : nat) (v : json) : string :=
  match v with
  | JNull => "null"
  | JBool true => "true"
  | JBool false => "false"
  | JNum r => r
  | JStr s => Str.q "~" ++ s ++ Str.q "~"
  | JArr [] => "[]"
  | JArr items =>
      "[" ++ String "010" ""
      ++ String.concat ("," ++ String "010" "")
           (map (fun x => spaces (indent + 2) ++ sample_dump_at (indent + 2) x) items)
      ++ String "010" "" ++ spaces indent ++ "]"
  | JObj [] => "{}"
  | JObj members =>
      "{" ++ String "010" ""
      ++ String.concat ("," ++ String "010" "")
           ((fix each (l : list (string * json)) : list string :=
               match l with
               | [] => []
               | (k, x) :: rest =>
                   (spaces (indent + 2) ++ Str.q "~" ++ k ++ Str.q "~: "
                    ++ sample_dump_at (indent + 2) x) :: each rest
               end) members)
      ++ String "010" "" ++ spaces indent ++ "}"
  end.

Definition sample_dump (v : json) : string := sample_dump_at 0 v.

(** [{"name": "demo", "version": "1.0.0"}] *)
Definition manifest_plain : json :=
  JObj [("name", JStr "demo"); ("version", JStr "1.0.0")].

(** [{"name": "demo", "scripts": {"start": "node app.js"}}] *)
Definition manifest_started : json :=
  JObj [("name", JStr "demo"); ("scripts", JObj [("start", JStr "node app.js")])].

(** [{"name": "shop", "dependencies": {"express-session": "^1.17.0"}}] *)
Definition manifest_session : json :=
  JObj [("name", JStr "shop");
        ("dependencies", JObj [("express-session", JStr "^1.17.0")])].

(** [{"dependencies": {"express": "^4.18.0", "next": "13.0.0"}}] *)
Definition manifest_express : json :=
  JObj [("dependencies", JObj [("express", JStr "^4.18.0"); ("next", JStr "13.0.0")])].

Definition sample_manifests : list json :=
  [manifest_plain; manifest_started; manifest_session; manifest_express].

Definition sample_load (text : string) : option json :=
  List.find (fun v => String.eqb (sample_dump v) text) sample_manifests.

#[local] Instance sample_platform : Platform := {|
  json_load := sample_load;
  json_dump := sample_dump;
  outside_exists := fun _ _ => false;
  relpath_cwd := fun p => p
|}.

Example sample_dump_started :
  sample_dump manifest_started
  = Str.q "{
  ~name~: ~demo~,
  ~scripts~: {
    ~start~: ~node app.js~
  }
}".
Proof. reflexivity. Qed.

Example ends_with_json_js : Str.ends_with ".js" "package.json" = false.
Proof. reflexivity. Qed.

Example sub_listen_bare_two_calls :
  Re.sub Re.listen_bare "app.listen( 3000 ); x.listen(80)"
  = Str.q "app.listen(process.env.PORT || 3000, ~0.0.0.0~); x.listen(process.env.PORT || 80, ~0.0.0.0~)".
Proof. reflexivity. Qed.

Example findall_port_hint :
  Re.findall (Re.port_hint "port")
    ("Port = 3000, port 80" ++ String "010" "port" ++ String "010" "8080 PORT8081x99999")
  = ["3000"; "80"; "8081"].
Proof. reflexivity. Qed.

(** ** Lists of strings *)

Lemma mem_In (x : string) (l : list string) : Str.mem x l = true <-> In x l.
Proof.
  unfold Str.mem. rewrite existsb_exists. split.
  - intros [y [Hy Heq]]. apply String.eqb_eq in Heq. now subst.
  - intros H. exists x. split; [assumption | apply String.eqb_refl].
Qed.

Lemma mem_false_not_In (x : string) (l : list string) :
  Str.mem x l = false <-> ~ In x l.
Proof.
  rewrite <- mem_In. destruct (Str.mem x l); split; congruence.
Qed.

(** ** The port probe (C9) *)

Section PortProbe.

Lemma dedup_In (x : N) (l : list N) : In x (dedup l) <-> In x l.
Proof.
  induction l as [|y l IH]; simpl; [tauto|].
  rewrite filter_In, IH. split.
  - intros [H | [H _]]; auto.
  - intros [H | H]; auto.
    destruct (N.eqb_spec y x) as [E | E]; [left; exact E | right].
    split; [exact H | reflexivity].
Qed.

Lemma dedup_NoDup (l : list N) : NoDup (dedup l).
Proof.
  induction l as [|y l IH]; simpl; constructor.
  - rewrite filter_In. intros [_ H].
    rewrite N.eqb_refl in H. discriminate.
  - now apply NoDup_filter.
Qed.

Lemma ports_of_content_valid (content : string) :
  Forall (fun p => valid_port p = true) (ports_of_content content).
Proof.
  unfold ports_of_content. apply Forall_flat_map, Forall_forall.
  intros kw _. apply Forall_forall. intros p Hp.
  apply filter_In in Hp. tauto.
Qed.

Lemma ports_of_file_valid (root : node) (f : string) :
  Forall (fun p => valid_port p = true) (ports_of_file root f).
Proof.
  unfold ports_of_file.
  destruct (exists_at [f] root); [|constructor].
  destruct (read_at [f] root); [apply ports_of_content_valid | constructor].
Qed.

Lemma valid_port_range (p : N) :
  valid_port p = true <-> (1000 <= p /\ p <= 65535)%N.
Proof.
  unfold valid_port. rewrite andb_true_iff, !N.leb_le. tauto.
Qed.

(** C9.  Whatever the tree, the port probe either reports nothing, and then
    none of the entry-point files contributed a hint, or it reports a
    non-empty list without repetition whose members all lie between 1000
    and 65535. *)
Theorem port_hints_in_range_and_distinct (root : node) :
  match detect_port_config root with
  | Some ports =>
      ports <> []
      /\ NoDup ports
      /\ Forall (fun p => (1000 <= p /\ p <= 65535)%N) ports
  | None => Forall (fun f => ports_of_file root f = []) port_main_files
  end.
Proof.
  unfold detect_port_config.
  assert (Hvalid : Forall (fun p => valid_port p = true)
                     (flat_map (ports_of_file root) port_main_files)).
  { apply Forall_flat_map, Forall_forall. intros f _. apply ports_of_file_valid. }
  destruct (flat_map (ports_of_file root) port_main_files) as [|p ps] eqn:E.
  - apply Forall_forall. intros f Hf.
    destruct (ports_of_file root f) as [|x xs] eqn:Ef; [reflexivity|].
    assert (Hin : In x (flat_map (ports_of_file root) port_main_files)).
    { apply in_flat_map. exists f. split; [exact Hf | rewrite Ef; now left]. }
    rewrite E in Hin. destruct Hin.
  - split; [simpl; discriminate|]. split; [apply dedup_NoDup|].
    apply Forall_forall. intros x Hx. apply (proj1 (dedup_In _ _)) in Hx.
    rewrite Forall_forall in Hvalid. apply valid_port_range, Hvalid, Hx.
Qed.

End PortProbe.

(** ** The stack classifier (C2) *)

Section Classifier.
Context `{Platform}.

(** C2.  On a directory the classifier returns, and its [primary] is the
    first stack, in the fixed order nodejs, python, php, go, ruby, static,
    whose manifest (or loose source file) is present, and [unknown] when
    there is none; [technologies] lists every matching stack in that same
    order.  So a tree with a package manifest is nodejs, a tree with a
    Python manifest and no package manifest is python, and [primary] is
    [unknown] exactly when nothing is recognized. *)
Theorem classify_first_manifest_wins (es : list (string * node)) :
  let root := Dir es in
  exists pt,
    detect_project_type root = Some pt
    /\ primary pt =
         (if has_node root then "nodejs"
          else if has_python root then "python"
          else if has_php es then "php"
          else if has_go root then "go"
          else if has_ruby root then "ruby"
          else if has_static es then "static"
          else "unknown")
    /\ technologies pt =
         ((if has_node root then ["javascript"] else [])
          ++ (if has_python root then ["python"] else [])
          ++ (if has_php es then ["php"] else [])
          ++ (if has_go root then ["go"] else [])
          ++ (if has_ruby root then ["ruby"] else [])
          ++ (if has_static es then ["html"] else []))%list
    /\ (has_node root = true -> primary pt = "nodejs")
    /\ (has_node root = false -> has_python root = true -> primary pt = "python")
    /\ (primary pt = "unknown"
        <-> has_node root = false /\ has_python root = false
            /\ has_php es = false /\ has_go root = false
            /\ has_ruby root = false /\ has_static es = false).
Proof.
  intros root. unfold detect_project_type. subst root.
  destruct (has_node (Dir es)), (has_python (Dir es)), (has_php es),
    (has_go (Dir es)), (has_ruby (Dir es)), (has_static es);
    cbn; eexists; (split; [reflexivity|]); cbn;
    repeat split; intros; try reflexivity; try discriminate;
    repeat match goal with H : _ /\ _ |- _ => destruct H end; discriminate.
Qed.

Example classify_node_only :
  option_map primary
    (detect_project_type (Dir [("package.json", fresh_file "not json")]))
  = Some "nodejs".
Proof. reflexivity. Qed.

Example classify_python_only :
  option_map primary (detect_project_type (Dir [("setup.py", fresh_file "")]))
  = Some "python".
Proof. reflexivity. Qed.

Example classify_empty :
  option_map primary (detect_project_type (Dir [])) = Some "unknown".
Proof. reflexivity. Qed.

Example classify_python_then_markup :
  detect_project_type
    (Dir [("index.html", fresh_file ""); ("pyproject.toml", fresh_file "")])
  = Some {| primary := "python"; technologies := ["python"; "html"];
            frameworks := [] |}.
Proof. reflexivity. Qed.

End Classifier.

(** ** The issue list (C3) *)

Section Issues.

Definition severities : list string := ["high"; "medium"; "low"].

(** the kinds as the data model of the specification names them *)
Definition specified_kinds : list string :=
  ["missing_manifest"; "hardcoded_config"; "missing_env"; "large_file"].

(** the kinds as the analyzer writes them *)
Definition emitted_kinds : list string :=
  ["missing_file"; "hardcoded_config"; "missing_env"; "large_files"].

Definition well_tagged (i : issue) : Prop :=
  In (severity i) severities /\ In (type i) emitted_kinds.

Ltac tagged :=
  repeat first [apply Forall_nil | apply Forall_cons];
  try (split; simpl; auto 8).

Lemma manifest_issues_tagged (previous : option analysis) :
  Forall well_tagged (manifest_issues previous).
Proof.
  unfold manifest_issues.
  destruct (previous_primary previous) as [p|]; [|constructor].
  destruct (String.eqb p "nodejs").
  - destruct (negb _); tagged.
  - destruct (String.eqb p "python"); [|constructor].
    destruct (_ && _); tagged.
Qed.

Lemma hardcoded_issue_tagged (root : node) (pf : path * string) :
  Forall well_tagged (hardcoded_issue root pf).
Proof.
  unfold hardcoded_issue. destruct pf as [here f].
  destruct (Str.ends_with_any _ f); [|constructor].
  destruct (read_at _ root); [|constructor].
  destruct (first_hardcoded _ _); tagged.
Qed.

Lemma env_issues_tagged (previous : option analysis) :
  Forall well_tagged (env_issues previous).
Proof.
  unfold env_issues. destruct (filter _ _); tagged.
Qed.

Lemma large_file_issues_tagged (root : node) :
  Forall well_tagged (large_file_issues root).
Proof.
  unfold large_file_issues. destruct (filter _ _); tagged.
Qed.

(** C3, as the code has it.  Whatever the tree and whatever report the
    analyzer holds from before, every issue has a severity among high,
    medium, low and a kind among missing_file, hardcoded_config,
    missing_env, large_files. *)
Theorem issues_severity_and_kind_closed (previous : option analysis) (root : node) :
  Forall (fun i => In (severity i) severities /\ In (type i) emitted_kinds)
         (identify_potential_issues previous root).
Proof.
  unfold identify_potential_issues.
  apply Forall_app; split; [|apply Forall_app; split; [|apply Forall_app; split]].
  - apply manifest_issues_tagged.
  - apply Forall_flat_map, Forall_forall. intros pf _. apply hardcoded_issue_tagged.
  - apply env_issues_tagged.
  - apply large_file_issues_tagged.
Qed.

(** one file of 100 MiB and one byte *)
Definition tree_with_large_file : node :=
  Dir [("dump.bin", File "" 104857601)].

(** C3 fails as stated: the issue for an oversized file has the kind
    [large_files], which is none of the four kinds of the data model. *)
Lemma issue_kind_outside_specified_set :
  exists i,
    In i (identify_potential_issues None tree_with_large_file)
    /\ type i = "large_files"
    /\ ~ In (type i) specified_kinds.
Proof.
  eexists. split; [right; left; reflexivity|]. split; [reflexivity|].
  cbn. intros [E|[E|[E|[E|[]]]]]; discriminate.
Qed.

End Issues.

(** ** Framework detection (C8) *)

Section Frameworks.
Context `{Platform}.

(** the dependency names that the manifest declares, when it can be read
    and parsed and both dependency tables are mappings *)
Definition manifest_dependencies (root : node) : option (list string) :=
  match read_at ["package.json"] root with
  | Some text =>
      match json_load text with
      | Some package_data => dependency_keys package_data
      | None => None
      end
  | None => None
  end.

Lemma package_frameworks_dependencies (root : node) :
  package_frameworks root =
  match manifest_dependencies root with
  | Some deps => node_frameworks deps
  | None => []
  end.
Proof.
  unfold package_frameworks, manifest_dependencies.
  destruct (read_at _ root); [|reflexivity].
  destruct (json_load _); reflexivity.
Qed.

Lemma node_frameworks_spec (deps : list string) :
  (In "express" (node_frameworks deps) <-> In "express" deps)
  /\ (In "react" (node_frameworks deps) <-> In "react" deps)
  /\ (In "vue" (node_frameworks deps) <-> In "vue" deps)
  /\ (In "angular" (node_frameworks deps) <-> In "angular" deps)
  /\ (In "nextjs" (node_frameworks deps) <-> In "next" deps \/ In "nextjs" deps)
  /\ ~ In "next" (node_frameworks deps).
Proof.
  rewrite <- !mem_In. unfold node_frameworks.
  destruct (Str.mem "express" deps), (Str.mem "react" deps), (Str.mem "vue" deps),
    (Str.mem "angular" deps), (Str.mem "next" deps), (Str.mem "nextjs" deps);
    cbn; repeat split; intros;
    repeat match goal with
           | H : _ \/ _ |- _ => destruct H
           | H : False |- _ => destruct H
           | H : _ = _ |- _ => discriminate H
           end; auto 10.
Qed.

Lemma python_frameworks_spec (requirements : string) :
  (In "django" (python_frameworks requirements)
   <-> Str.contains "django" requirements = true)
  /\ (In "flask" (python_frameworks requirements)
      <-> Str.contains "flask" requirements = true)
  /\ (In "fastapi" (python_frameworks requirements)
      <-> Str.contains "fastapi" requirements = true)
  /\ (In "streamlit" (python_frameworks requirements)
      <-> Str.contains "streamlit" requirements = true).
Proof.
  unfold python_frameworks.
  destruct (Str.contains "django" requirements),
    (Str.contains "flask" requirements),
    (Str.contains "fastapi" requirements),
    (Str.contains "streamlit" requirements);
    cbn; repeat split; intros;
    repeat match goal with
           | H : _ \/ _ |- _ => destruct H
           | H : False |- _ => destruct H
           | H : _ = _ |- _ => discriminate H
           end; auto 10.
Qed.

(** the lower-cased text of [requirements.txt], when the file can be read *)
Definition requirements_text (root : node) : option string :=
  if exists_at ["requirements.txt"] root
  then option_map Str.lower (read_at ["requirements.txt"] root)
  else None.

Lemma requirements_frameworks_text (root : node) :
  requirements_frameworks root =
  match requirements_text root with
  | Some text => python_frameworks text
  | None => []
  end.
Proof.
  unfold requirements_frameworks, requirements_text.
  destruct (exists_at _ root); [|reflexivity].
  destruct (read_at _ root); reflexivity.
Qed.

Lemma in_if_singleton (b : bool) (x f : string) :
  In f (if b then [x] else []) <-> b = true /\ x = f.
Proof.
  destruct b; cbn; [|intuition discriminate].
  split; [intros [E | []]; now split | intros [_ E]; now left].
Qed.

(** the names that the manifest can bring, each with its test *)
Lemma node_frameworks_In (deps : list string) (f : string) :
  In f (node_frameworks deps)
  <-> (f = "express" /\ In "express" deps)
      \/ (f = "react" /\ In "react" deps)
      \/ (f = "vue" /\ In "vue" deps)
      \/ (f = "angular" /\ In "angular" deps)
      \/ (f = "nextjs" /\ (In "next" deps \/ In "nextjs" deps)).
Proof.
  unfold node_frameworks. rewrite !in_app_iff, !in_if_singleton.
  rewrite orb_true_iff, !mem_In. intuition congruence.
Qed.

(** the names that the requirements can bring, each with its test *)
Lemma python_frameworks_In (text f : string) :
  In f (python_frameworks text)
  <-> (f = "django" /\ Str.contains "django" text = true)
      \/ (f = "flask" /\ Str.contains "flask" text = true)
      \/ (f = "fastapi" /\ Str.contains "fastapi" text = true)
      \/ (f = "streamlit" /\ Str.contains "streamlit" text = true).
Proof.
  unfold python_frameworks. rewrite !in_app_iff, !in_if_singleton.
  intuition congruence.
Qed.

Lemma manifest_frameworks_In (root : node) (f : string) :
  In f (if has_node root then package_frameworks root else [])
  <-> exists deps,
        manifest_dependencies root = Some deps /\ In f (node_frameworks deps).
Proof.
  rewrite package_frameworks_dependencies.
  assert (Hex : forall deps, manifest_dependencies root = Some deps ->
                             has_node root = true).
  { intros deps. unfold manifest_dependencies, has_node, exists_at, read_at.
    destruct (node_at ["package.json"] root); [reflexivity | discriminate]. }
  destruct (manifest_dependencies root) as [deps|].
  - rewrite (Hex deps eq_refl). split.
    + intros Hin. now exists deps.
    + now intros (deps' & [= <-] & Hin).
  - split.
    + destruct (has_node root); intros [].
    + intros (deps & [=] & _).
Qed.

Lemma requirements_frameworks_In (root : node) (f : string) :
  In f (if has_python root then requirements_frameworks root else [])
  <-> exists text,
        requirements_text root = Some text /\ In f (python_frameworks text).
Proof.
  rewrite requirements_frameworks_text.
  assert (Hex : forall text, requirements_text root = Some text ->
                             has_python root = true).
  { intros text. unfold requirements_text, has_python.
    destruct (exists_at ["requirements.txt"] root); [reflexivity | discriminate]. }
  destruct (requirements_text root) as [text|].
  - rewrite (Hex text eq_refl). split.
    + intros Hin. now exists text.
    + now intros (text' & [= <-] & Hin).
  - split.
    + destruct (has_python root); intros [].
    + intros (text & [=] & _).
Qed.

Lemma frameworks_of_directory (es : list (string * node)) :
  exists pt,
    detect_project_type (Dir es) = Some pt
    /\ frameworks pt =
         ((if has_node (Dir es) then package_frameworks (Dir es) else [])
          ++ (if has_python (Dir es) then requirements_frameworks (Dir es) else []))%list.
Proof.
  unfold detect_project_type.
  destruct (has_node (Dir es)), (has_python (Dir es)), (has_php es),
    (has_go (Dir es)), (has_ruby (Dir es)), (has_static es);
    cbn; eexists; (split; [reflexivity|]); cbn; rewrite ?app_nil_r; reflexivity.
Qed.

(** C8, as the code has it.  The frameworks of a directory are those of
    the package manifest, followed by those of the Python requirements.
    Express, react, vue and angular are in the reported list exactly when
    the manifest parses and the name is itself a key of [dependencies] or
    [devDependencies]; [nextjs] is in it exactly when [next] or [nextjs] is
    such a key.  Django, flask, fastapi and streamlit are in it exactly
    when [requirements.txt] can be read and the name occurs in its
    lower-cased text.  No other name is ever reported: [next] is not, and
    neither source brings a name of the other. *)
Theorem frameworks_by_key_and_by_substring (es : list (string * node)) :
  let root := Dir es in
  exists pt,
    detect_project_type root = Some pt
    /\ frameworks pt =
         ((if has_node root then package_frameworks root else [])
          ++ (if has_python root then requirements_frameworks root else []))%list
    /\ (forall f,
          In f ["express"; "react"; "vue"; "angular"] ->
          (In f (frameworks pt)
           <-> exists deps, manifest_dependencies root = Some deps /\ In f deps))
    /\ (In "nextjs" (frameworks pt)
        <-> exists deps,
              manifest_dependencies root = Some deps
              /\ (In "next" deps \/ In "nextjs" deps))
    /\ (forall f,
          In f ["django"; "flask"; "fastapi"; "streamlit"] ->
          (In f (frameworks pt)
           <-> exists text,
                 requirements_text root = Some text
                 /\ Str.contains f text = true))
    /\ (forall f,
          In f (frameworks pt) ->
          In f ["express"; "react"; "vue"; "angular"; "nextjs";
                "django"; "flask"; "fastapi"; "streamlit"]).
Proof.
  intros root. subst root.
  destruct (frameworks_of_directory es) as (pt & Ept & Ef).
  exists pt. split; [exact Ept|]. split; [exact Ef|].
  assert (Hin : forall f,
            In f (frameworks pt)
            <-> (exists deps,
                   manifest_dependencies (Dir es) = Some deps
                   /\ In f (node_frameworks deps))
                \/ (exists text,
                      requirements_text (Dir es) = Some text
                      /\ In f (python_frameworks text))).
  { intros f.
    now rewrite Ef, in_app_iff, manifest_frameworks_In, requirements_frameworks_In. }
  split; [|split; [|split]].
  - intros f Hf. rewrite Hin. split.
    + intros [(deps & Ed & Hd) | (text & Et & Ht)].
      * exists deps. split; [exact Ed|].
        apply node_frameworks_In in Hd.
        cbn in Hf. decompose [or] Hf; subst; try contradiction;
          decompose [or and] Hd; subst; try discriminate; assumption.
      * apply python_frameworks_In in Ht.
        cbn in Hf. decompose [or] Hf; subst; try contradiction;
          decompose [or and] Ht; discriminate.
    + intros (deps & Ed & Hd). left. exists deps. split; [exact Ed|].
      apply node_frameworks_In.
      cbn in Hf. decompose [or] Hf; subst; try contradiction; tauto.
  - rewrite Hin. split.
    + intros [(deps & Ed & Hd) | (text & Et & Ht)].
      * exists deps. split; [exact Ed|].
        apply node_frameworks_In in Hd.
        decompose [or and] Hd; try discriminate; tauto.
      * apply python_frameworks_In in Ht. decompose [or and] Ht; discriminate.
    + intros (deps & Ed & Hd). left. exists deps. split; [exact Ed|].
      apply node_frameworks_In. tauto.
  - intros f Hf. rewrite Hin. split.
    + intros [(deps & Ed & Hd) | (text & Et & Ht)].
      * apply node_frameworks_In in Hd.
        cbn in Hf. decompose [or] Hf; subst; try contradiction;
          decompose [or and] Hd; discriminate.
      * exists text. split; [exact Et|].
        apply python_frameworks_In in Ht.
        cbn in Hf. decompose [or] Hf; subst; try contradiction;
          decompose [or and] Ht; subst; try discriminate; assumption.
    + intros (text & Et & Ht). right. exists text. split; [exact Et|].
      apply python_frameworks_In.
      cbn in Hf. decompose [or] Hf; subst; try contradiction; tauto.
  - intros f Hf. apply Hin in Hf as [(deps & _ & Hd) | (text & _ & Ht)].
    + apply node_frameworks_In in Hd. cbn.
      decompose [or and] Hd; subst; tauto.
    + apply python_frameworks_In in Ht. cbn.
      decompose [or and] Ht; subst; tauto.
Qed.

End Frameworks.

(** a project whose only dependency is [express-session] *)
Definition tree_with_session_dependency : node :=
  Dir [("package.json", fresh_file (sample_dump manifest_session))].

(** C8 fails as stated for the package manifest: [express] is a substring
    of the declared dependency [express-session], and [express] is not
    reported. *)
Lemma substring_of_dependency_not_reported :
  manifest_dependencies tree_with_session_dependency = Some ["express-session"]
  /\ Str.contains "express" "express-session" = true
  /\ exists pt,
       detect_project_type tree_with_session_dependency = Some pt
       /\ primary pt = "nodejs"
       /\ ~ In "express" (frameworks pt).
Proof.
  split; [reflexivity|]. split; [reflexivity|].
  eexists. split; [reflexivity|]. split; [reflexivity|].
  cbn. tauto.
Qed.

Example express_and_next_reported :
  option_map frameworks
    (detect_project_type
       (Dir [("package.json", fresh_file (sample_dump manifest_express));
             ("requirements.txt", fresh_file "Django>=4.0")]))
  = Some ["express"; "nextjs"; "django"].
Proof. reflexivity. Qed.

(** ** The ledger only grows (C10) *)

Import Engine.
Local Open Scope engine_scope.

Section Ledger.
Context `{Platform}.

(** A method body that never removes an entry of [fixes_applied]. *)
Definition extends_ledger {A} (m : M A) : Prop :=
  forall s, exists new, fixes_applied (snd (m s)) = (fixes_applied s ++ new)%list.

Lemma extends_ret {A} (a : A) : extends_ledger (ret a).
Proof. intros s. exists []. cbn. now rewrite app_nil_r. Qed.

Lemma extends_raise {A} : extends_ledger (@raise A).
Proof. intros s. exists []. cbn. now rewrite app_nil_r. Qed.

Lemma extends_bind {A B} (m : M A) (k : A -> M B) :
  extends_ledger m -> (forall a, extends_ledger (k a)) -> extends_ledger (bind m k).
Proof.
  intros Hm Hk s. unfold bind. destruct (Hm s) as [n1 E1].
  destruct (m s) as [[a|] s1]; cbn in *.
  - destruct (Hk a s1) as [n2 E2]. exists (n1 ++ n2)%list.
    now rewrite E2, E1, app_assoc.
  - now exists n1.
Qed.

Lemma extends_attempt (m : M unit) : extends_ledger m -> extends_ledger (attempt m).
Proof. intros Hm s. exact (Hm s). Qed.

Lemma extends_value_of {A} (o : option A) : extends_ledger (value_of o).
Proof. destruct o; [apply extends_ret | apply extends_raise]. Qed.

Lemma extends_log (msg : string) : extends_ledger (log msg).
Proof. intros s. now exists [msg]. Qed.

Lemma extends_exists (p : path) : extends_ledger (exists_ p).
Proof. intros s. exists []. cbn. now rewrite app_nil_r. Qed.

Lemma extends_read (p : path) : extends_ledger (read p).
Proof.
  intros s. exists []. unfold read.
  destruct (read_at p (tree s)); cbn; now rewrite app_nil_r.
Qed.

Lemma extends_write (p : path) (c : string) : extends_ledger (write p c).
Proof.
  intros s. exists []. unfold write.
  destruct (write_at p c (tree s)); cbn; now rewrite app_nil_r.
Qed.

Lemma extends_if {A} (b : bool) (m1 m2 : M A) :
  extends_ledger m1 -> extends_ledger m2 -> extends_ledger (if b then m1 else m2).
Proof. now destruct b. Qed.

Lemma extends_for_each {A} (l : list A) (body : A -> M unit) :
  (forall x, extends_ledger (body x)) -> extends_ledger (for_each l body).
Proof.
  intros Hb. induction l as [|x l IH]; cbn.
  - apply extends_ret.
  - apply extends_bind; [apply Hb | intros _; exact IH].
Qed.

(** a body that first inspects the state *)
Lemma extends_inspect {A} (f : engine -> M A) :
  (forall s0, extends_ledger (f s0)) -> extends_ledger (fun s => f s s).
Proof. intros Hf s. exact (Hf s s). Qed.

Create HintDb ledger.
#[local] Hint Resolve extends_ret extends_raise extends_attempt extends_value_of
  extends_log extends_exists extends_read extends_write extends_for_each : ledger.

Ltac ledger :=
  repeat
    (intros;
     first
       [ solve [auto with ledger]
       | match goal with
         | |- extends_ledger (bind _ _) => apply extends_bind
         | |- extends_ledger (attempt _) => apply extends_attempt
         | |- extends_ledger (for_each _ _) => apply extends_for_each
         | |- extends_ledger (if ?b then _ else _) => destruct b
         | |- extends_ledger (match ?x with _ => _ end) => destruct x
         end ]).

Lemma extends_fix_nodejs_main_file (project_dir main_file : string) :
  extends_ledger (fix_nodejs_main_file project_dir main_file).
Proof. unfold fix_nodejs_main_file. ledger. Qed.

Lemma extends_fix_package_json (project_dir : string) :
  extends_ledger (fix_package_json project_dir).
Proof.
  unfold fix_package_json. ledger.
  intros s. exact (extends_ret _ s).
Qed.

Lemma extends_fix_nodejs_issues (project_dir : string) :
  extends_ledger (fix_nodejs_issues project_dir).
Proof.
  unfold fix_nodejs_issues. ledger.
  - apply extends_fix_package_json.
  - intros _ s. destruct (first_existing _ _);
      [apply extends_fix_nodejs_main_file | exact (extends_ret tt s)].
Qed.

Lemma extends_fix_django_settings : extends_ledger fix_django_settings.
Proof. unfold fix_django_settings. ledger. Qed.

Lemma extends_fix_python_main_file (main_file : string) (analysis : option analysis) :
  extends_ledger (fix_python_main_file main_file analysis).
Proof.
  unfold fix_python_main_file. ledger. apply extends_fix_django_settings.
Qed.

Lemma extends_create_python_run_script : extends_ledger create_python_run_script.
Proof. unfold create_python_run_script. ledger. Qed.

Lemma extends_fix_python_issues (analysis : option analysis) :
  extends_ledger (fix_python_issues analysis).
Proof.
  unfold fix_python_issues. ledger.
  - apply extends_fix_python_main_file.
  - intros _ s. destruct (negb _);
      [apply extends_create_python_run_script | exact (extends_ret tt s)].
Qed.

Lemma extends_fix_php_issues : extends_ledger fix_php_issues.
Proof. unfold fix_php_issues. ledger. Qed.

Lemma extends_fix_file_bindings (project_dir : string) (p : path) :
  extends_ledger (fix_file_bindings project_dir p).
Proof. unfold fix_file_bindings. ledger. Qed.

Lemma extends_fix_port_binding (project_dir : string) :
  extends_ledger (fix_port_binding project_dir).
Proof.
  unfold fix_port_binding. intros s.
  apply extends_for_each. intros [here file].
  destruct (Str.ends_with_any _ _); [|apply extends_ret].
  apply extends_attempt, extends_fix_file_bindings.
Qed.

Lemma extends_fix_environment_config (analysis : option analysis) :
  extends_ledger (fix_environment_config analysis).
Proof. unfold fix_environment_config. ledger. Qed.

Lemma extends_fix_hardcoded_configs (analysis : option analysis) :
  extends_ledger (fix_hardcoded_configs analysis).
Proof. unfold fix_hardcoded_configs. ledger. Qed.

Lemma extends_create_startup_script (analysis : option analysis) :
  extends_ledger (create_startup_script analysis).
Proof.
  unfold create_startup_script, create_nodejs_startup, create_python_startup.
  ledger.
Qed.

Lemma extends_stack_fixes (project_dir : string) (analysis : option analysis) :
  extends_ledger (stack_fixes project_dir analysis).
Proof.
  unfold stack_fixes. ledger.
  - apply extends_fix_nodejs_issues.
  - apply extends_fix_python_issues.
  - apply extends_fix_php_issues.
Qed.

Lemma extends_apply_fixes_body (project_dir : string) (analysis : option analysis) :
  extends_ledger (apply_fixes_body project_dir analysis).
Proof.
  unfold apply_fixes_body. ledger.
  - apply extends_stack_fixes.
  - apply extends_fix_port_binding.
  - apply extends_fix_environment_config.
  - apply extends_fix_hardcoded_configs.
  - apply extends_create_startup_script.
  - intros s. exists []. cbn. now rewrite app_nil_r.
Qed.

(** the call ran to the end of the [try] block *)
Definition completes (project_dir : string) (analysis : option analysis)
    (s : engine) : bool :=
  match fst (apply_fixes_body project_dir analysis s) with
  | Returns _ => true
  | Raises => false
  end.

(** C10, as the code has it.  A new engine starts with an empty ledger.
    A call of [apply_fixes] keeps every entry that the ledger held before
    it and only adds entries behind them.  When the ledger is not empty at
    the start of a call, the call returns [True] exactly when no exception
    reaches the [except] clause of [apply_fixes], whether or not the call
    added an entry itself; when an exception reaches it the call returns
    [False]. *)
Theorem ledger_accumulates_across_calls (project_dir : string)
    (analysis : option analysis) (s : engine) :
  (forall root, get_fixes_applied (init root) = [])
  /\ (exists new,
        get_fixes_applied (snd (apply_fixes project_dir analysis s))
        = (get_fixes_applied s ++ new)%list)
  /\ (get_fixes_applied s <> [] ->
      fst (apply_fixes project_dir analysis s) = completes project_dir analysis s)
  /\ (completes project_dir analysis s = false ->
      fst (apply_fixes project_dir analysis s) = false).
Proof.
  split; [reflexivity|].
  pose proof (extends_apply_fixes_body project_dir analysis s) as [new E].
  unfold apply_fixes, completes, get_fixes_applied in *.
  destruct (apply_fixes_body project_dir analysis s) as [[b|] s'] eqn:Eb; cbn in *.
  - split; [now exists new|]. split; [|discriminate].
    intros Hne. unfold apply_fixes_body in Eb.
    repeat match type of Eb with
           | bind ?m ?k ?s0 = _ =>
               unfold bind at 1 in Eb; destruct (m s0) as [[[]|] ?]; [|discriminate Eb]
           end.
    injection Eb as <- <-. rewrite E.
    destruct (fixes_applied s); [congruence | reflexivity].
  - split; [now exists new|]. split; reflexivity.
Qed.

End Ledger.

(** ** Files of the project directory under [open(path, 'w')] *)

Section TopLevelFiles.

Lemma update_entry_same (n : string) (f : option node -> option node)
    (es es' : list (string * node)) :
  update_entry n f es = Some es' -> lookup n es' = f (lookup n es).
Proof.
  revert es'. induction es as [|[m x] es IH]; intros es' E; cbn in *.
  - destruct (f None) eqn:Ef; [|discriminate]. injection E as <-.
    cbn. now rewrite String.eqb_refl.
  - destruct (String.eqb m n) eqn:Emn.
    + destruct (f (Some x)) eqn:Ef; [|discriminate]. injection E as <-.
      cbn. now rewrite Emn.
    + destruct (update_entry n f es) eqn:Eu; [|discriminate]. injection E as <-.
      cbn. rewrite Emn. now apply IH.
Qed.

Lemma update_entry_other (n m : string) (f : option node -> option node)
    (es es' : list (string * node)) :
  n <> m -> update_entry m f es = Some es' -> lookup n es' = lookup n es.
Proof.
  intros Hnm. revert es'. induction es as [|[k x] es IH]; intros es' E; cbn in *.
  - destruct (f None); [|discriminate]. injection E as <-. cbn.
    destruct (String.eqb_spec m n); [congruence | reflexivity].
  - destruct (String.eqb k m) eqn:Ekm.
    + destruct (f (Some x)); [|discriminate]. injection E as <-. cbn.
      apply String.eqb_eq in Ekm. subst k.
      destruct (String.eqb_spec m n); [congruence | reflexivity].
    + destruct (update_entry m f es) eqn:Eu; [|discriminate]. injection E as <-.
      cbn. destruct (String.eqb k n); [reflexivity | now apply IH].
Qed.

Lemma update_entry_fixed (n : string) (f : option node -> option node)
    (es : list (string * node)) (x : node) :
  lookup n es = Some x -> f (Some x) = Some x -> update_entry n f es = Some es.
Proof.
  intros Hl Hf. induction es as [|[m y] es IH]; cbn in *; [discriminate|].
  destruct (String.eqb m n).
  - injection Hl as ->. now rewrite Hf.
  - now rewrite IH.
Qed.

Lemma update_entry_some (n : string) (f : option node -> option node)
    (es es' : list (string * node)) :
  update_entry n f es = Some es' ->
  exists x, f (lookup n es) = Some x /\ lookup n es' = Some x.
Proof.
  revert es'. induction es as [|[m y] es IH]; intros es' E; cbn in *.
  - destruct (f None) as [x|] eqn:Ef; [|discriminate]. injection E as <-.
    exists x. cbn. now rewrite String.eqb_refl.
  - destruct (String.eqb m n) eqn:Emn.
    + destruct (f (Some y)) as [x|] eqn:Ef; [|discriminate]. injection E as <-.
      exists x. cbn. now rewrite Emn.
    + destruct (update_entry n f es) eqn:Eu; [|discriminate]. injection E as <-.
      cbn. rewrite Emn. now apply IH.
Qed.

(** After a write the file holds what was written. *)
Lemma write_at_same (n content : string) (t t' : node) :
  write_at [n] content t = Some t' ->
  node_at [n] t' = Some (fresh_file content).
Proof.
  destruct t as [|es]; cbn; [discriminate|].
  destruct (update_entry n _ es) as [es'|] eqn:E; [|discriminate].
  intros [= <-]. cbn. apply update_entry_some in E as (x & Ef & ->).
  destruct (lookup n es) as [[c sz|sub]|]; cbn in Ef; congruence.
Qed.

(** A write leaves every other entry of the project directory alone. *)
Lemma write_at_other (n : string) (p : path) (content : string) (t t' : node) :
  (forall rest, p <> n :: rest) ->
  write_at p content t = Some t' ->
  node_at [n] t' = node_at [n] t.
Proof.
  intros Hp. destruct p as [|d p']; destruct t as [c sz|es]; cbn;
    try discriminate.
  - now intros [= <-].
  - destruct (update_entry d _ es) as [es'|] eqn:E; [|discriminate].
    intros [= <-]. cbn.
    assert (Hnd : n <> d) by (intros ->; now apply (Hp p')).
    now rewrite (update_entry_other _ _ _ _ _ Hnd E).
Qed.

(** Nothing can be written below a regular file. *)
Lemma write_below_file (n : string) (p : path) (content c : string) (sz : N)
    (t : node) :
  node_at [n] t = Some (File c sz) -> p <> [] ->
  write_at (n :: p) content t = None.
Proof.
  intros Hl Hp. destruct p as [|d p']; [congruence|].
  destruct t as [|es]; [reflexivity|].
  cbn in Hl. destruct (lookup n es) as [x|] eqn:El; [|discriminate].
  injection Hl as ->. cbn [write_at].
  destruct (update_entry n _ es) as [es'|] eqn:E; [|reflexivity].
  apply update_entry_some in E as (x & Ef & _).
  rewrite El in Ef. discriminate.
Qed.

(** Writing what a file already holds changes nothing. *)
Lemma write_at_fixed (n content : string) (t : node) :
  node_at [n] t = Some (fresh_file content) ->
  write_at [n] content t = Some t.
Proof.
  destruct t as [|es]; cbn; [discriminate|].
  destruct (lookup n es) as [x|] eqn:El; [|discriminate]. intros [= ->].
  now rewrite (update_entry_fixed _ _ _ _ El).
Qed.

Lemma node_at_read (p : path) (t : node) (content : string) :
  node_at p t = Some (fresh_file content) -> read_at p t = Some content.
Proof. unfold read_at. now intros ->. Qed.

End TopLevelFiles.

(** ** The rules that overwrite a file (C1, C4) *)

Section OverwriteRules.

(** the last three rules of [apply_fixes], in its order *)
Definition overwrite_rules (analysis : option analysis) : M unit :=
  fix_environment_config analysis ;;
  fix_hardcoded_configs analysis ;;
  create_startup_script analysis.

Definition env_entries (analysis : option analysis) : list string :=
  match report_environment_files analysis with
  | [] => ["Created .env file with deployment configuration"]
  | _ :: _ => []
  end.

Definition guide_entries (analysis : option analysis) : list string :=
  match hardcoded_issues analysis with
  | [] => []
  | _ :: _ => ["Created deployment configuration guide"]
  end.

Definition startup_entries (analysis : option analysis) : list string :=
  if String.eqb (report_primary analysis) "nodejs"
  then ["Created Node.js startup script"]
  else if String.eqb (report_primary analysis) "python"
  then ["Created Python startup script"]
  else [].

(** the entries that the three rules add, as the report alone decides *)
Definition repeated_entries (analysis : option analysis) : list string :=
  (env_entries analysis ++ guide_entries analysis ++ startup_entries analysis)%list.

(** A rule of the shape [write; log]: when it returns, the file holds the
    text and the ledger has the entry; run again on that state, it returns
    with the same tree and logs the entry once more. *)
Lemma write_log_returns (n content msg : string) (s s1 : engine) :
  (write [n] content ;; log msg) s = (Returns tt, s1) ->
  node_at [n] (tree s1) = Some (fresh_file content)
  /\ fixes_applied s1 = (fixes_applied s ++ [msg])%list
  /\ (forall m, m <> n -> node_at [m] (tree s1) = node_at [m] (tree s)).
Proof.
  unfold bind, write, log.
  destruct (write_at [n] content (tree s)) as [t|] eqn:E; [|discriminate].
  intros [= <-]. cbn. split; [now apply write_at_same in E|].
  split; [reflexivity|]. intros m Hm.
  apply (write_at_other m [n] content (tree s) t); [|exact E].
  intros rest [= -> _]. now apply Hm.
Qed.

Lemma write_log_again (n content msg : string) (s : engine) :
  node_at [n] (tree s) = Some (fresh_file content) ->
  (write [n] content ;; log msg) s
  = (Returns tt, {| tree := tree s; fixes_applied := (fixes_applied s ++ [msg])%list |}).
Proof.
  intros Hn. unfold bind, write, log. now rewrite (write_at_fixed _ _ _ Hn).
Qed.

Lemma same_state (s : engine) :
  s = {| tree := tree s; fixes_applied := (fixes_applied s ++ [])%list |}.
Proof. destruct s. cbn. now rewrite app_nil_r. Qed.

(** what one of the three rules guarantees on return *)
Definition settles (rule : M unit) (n content : string) (entries : list string)
  : Prop :=
  (forall s s1,
     rule s = (Returns tt, s1) ->
     fixes_applied s1 = (fixes_applied s ++ entries)%list
     /\ (entries <> [] -> node_at [n] (tree s1) = Some (fresh_file content))
     /\ (forall m, m <> n -> node_at [m] (tree s1) = node_at [m] (tree s)))
  /\ (forall s,
        (entries <> [] -> node_at [n] (tree s) = Some (fresh_file content)) ->
        rule s = (Returns tt, {| tree := tree s;
                                  fixes_applied := (fixes_applied s ++ entries)%list |})).

Lemma settles_write_log (n content msg : string) :
  settles (write [n] content ;; log msg) n content [msg].
Proof.
  split.
  - intros s s1 E. apply write_log_returns in E. tauto.
  - intros s Hn. apply write_log_again, Hn. discriminate.
Qed.

Lemma settles_skip (n content : string) : settles (ret tt) n content [].
Proof.
  split.
  - intros s s1 [= <-]. rewrite app_nil_r. tauto.
  - intros s _. unfold ret. now rewrite <- same_state.
Qed.

Lemma settles_environment (analysis : option analysis) :
  settles (fix_environment_config analysis) ".env" Text.env_content
          (env_entries analysis).
Proof.
  unfold fix_environment_config, env_entries.
  destruct (report_environment_files analysis);
    [apply settles_write_log | apply settles_skip].
Qed.

Lemma settles_guide (analysis : option analysis) :
  settles (fix_hardcoded_configs analysis) "DEPLOYMENT_NOTES.md"
          (guide_content (hardcoded_issues analysis)) (guide_entries analysis).
Proof.
  unfold fix_hardcoded_configs, guide_entries.
  destruct (hardcoded_issues analysis);
    [apply settles_skip | apply settles_write_log].
Qed.

Definition startup_content (analysis : option analysis) : string :=
  if String.eqb (report_primary analysis) "nodejs" then Text.node_start_content
  else python_start_content analysis.

Lemma settles_startup (analysis : option analysis) :
  settles (create_startup_script analysis) "start.sh" (startup_content analysis)
          (startup_entries analysis).
Proof.
  unfold create_startup_script, startup_entries, startup_content,
    create_nodejs_startup, create_python_startup.
  destruct (String.eqb (report_primary analysis) "nodejs");
    [apply settles_write_log|].
  destruct (String.eqb (report_primary analysis) "python");
    [apply settles_write_log | apply settles_skip].
Qed.

Lemma bind_returns {A B} (m : M A) (k : A -> M B) (s s2 : engine) (b : B) :
  bind m k s = (Returns b, s2) ->
  exists a s1, m s = (Returns a, s1) /\ k a s1 = (Returns b, s2).
Proof.
  unfold bind. destruct (m s) as [[a|] s1]; [|discriminate].
  intros E. now exists a, s1.
Qed.

(** The three rules in a row: on return the ledger has grown by
    [repeated_entries], and a second run from the state reached returns
    with the same tree and adds [repeated_entries] again. *)
Lemma overwrite_rules_returns (analysis : option analysis) (s s3 : engine) :
  overwrite_rules analysis s = (Returns tt, s3) ->
  fixes_applied s3 = (fixes_applied s ++ repeated_entries analysis)%list
  /\ overwrite_rules analysis s3
     = (Returns tt,
        {| tree := tree s3;
           fixes_applied := (fixes_applied s3 ++ repeated_entries analysis)%list |}).
Proof.
  unfold overwrite_rules. intros E.
  apply bind_returns in E as ([] & s1 & E1 & E).
  apply bind_returns in E as ([] & s2 & E2 & E3).
  destruct (settles_environment analysis) as [Renv Aenv].
  destruct (settles_guide analysis) as [Rguide Aguide].
  destruct (settles_startup analysis) as [Rstart Astart].
  apply Renv in E1 as (L1 & F1 & O1).
  apply Rguide in E2 as (L2 & F2 & O2).
  apply Rstart in E3 as (L3 & F3 & O3).
  split.
  - unfold repeated_entries. now rewrite L3, L2, L1, <- !app_assoc.
  - unfold bind. rewrite Aenv.
    2:{ intros Hne. rewrite O3, O2 by discriminate. now apply F1. }
    rewrite Aguide.
    2:{ cbn [tree]. intros Hne. rewrite O3 by discriminate. now apply F2. }
    rewrite Astart by exact F3.
    cbn. unfold repeated_entries. now rewrite <- !app_assoc.
Qed.

End OverwriteRules.

Section SecondCall.
Context `{Platform}.

(** C1, as the code has it.  A second call does not end with an empty
    ledger.  Every call of [apply_fixes] that runs to the end of its [try]
    block, the first as well as any later one, ends by adding one entry
    for the environment file when the report lists none, one for the
    configuration guide when the report has a hardcoded_config issue, and
    one for the startup script when the report's primary stack is nodejs or
    python.  What repeats without change for these three rules is the
    tree: a second run with the same report returns, leaves the tree as the
    first run left it, and adds the same entries again. *)
Theorem second_call_repeats_overwrite_rules (project_dir : string)
    (analysis : option analysis) :
  (forall s b s',
     apply_fixes_body project_dir analysis s = (Returns b, s') ->
     exists earlier,
       fixes_applied s'
       = (fixes_applied s ++ earlier ++ repeated_entries analysis)%list)
  /\ (forall s s1,
        overwrite_rules analysis s = (Returns tt, s1) ->
        overwrite_rules analysis s1
        = (Returns tt,
           {| tree := tree s1;
              fixes_applied := (fixes_applied s1 ++ repeated_entries analysis)%list |})).
Proof.
  split.
  - intros s b s' E. unfold apply_fixes_body in E.
    apply bind_returns in E as ([] & sa & Ea & E).
    apply bind_returns in E as ([] & sb & Eb & E).
    pose proof (extends_stack_fixes project_dir analysis s) as [n1 L1].
    pose proof (extends_fix_port_binding project_dir sa) as [n2 L2].
    rewrite Ea in L1. rewrite Eb in L2. cbn in L1, L2.
    assert (Er : exists s3, overwrite_rules analysis sb = (Returns tt, s3)
                            /\ s' = s3).
    { unfold overwrite_rules.
      apply bind_returns in E as ([] & s1 & E1 & E).
      apply bind_returns in E as ([] & s2 & E2 & E).
      apply bind_returns in E as ([] & s3 & E3 & E).
      injection E as _ <-. exists s3. split; [|reflexivity].
      unfold bind. now rewrite E1, E2. }
    destruct Er as (s3 & Er & ->).
    apply overwrite_rules_returns in Er as [L3 _].
    exists (n1 ++ n2)%list. now rewrite L3, L2, L1, <- !app_assoc.
  - intros s s1 E. now apply overwrite_rules_returns in E.
Qed.

End SecondCall.

(** ** Substrings and substitution *)

Section Substrings.

Lemma append_nil_r (s : string) : s ++ "" = s.
Proof. induction s as [|c s IH]; cbn; [reflexivity | now rewrite IH]. Qed.

Lemma append_assoc (a b c : string) : (a ++ b) ++ c = a ++ b ++ c.
Proof. induction a as [|x a IH]; cbn; [reflexivity | now rewrite IH]. Qed.

Lemma length_append (a b : string) :
  String.length (a ++ b) = String.length a + String.length b.
Proof. induction a as [|x a IH]; cbn; [reflexivity | now rewrite IH]. Qed.

Lemma starts_with_app (p a b : string) :
  Str.starts_with p a = true -> Str.starts_with p (a ++ b) = true.
Proof.
  revert a. induction p as [|x p IH]; intros a; cbn; [reflexivity|].
  destruct a as [|y a]; cbn; [discriminate|].
  destruct (Ascii.eqb x y); cbn; [apply IH | discriminate].
Qed.

Lemma contains_app_l (p a b : string) :
  Str.contains p a = true -> Str.contains p (a ++ b) = true.
Proof.
  induction a as [|y a IH]; cbn.
  - rewrite orb_false_r. destruct p; cbn; [|discriminate].
    intros _. destruct b; reflexivity.
  - intros E. apply orb_true_iff in E as [E | E].
    + change (String y (a ++ b)) with (String y a ++ b).
      now rewrite (starts_with_app _ _ _ E).
    + rewrite (IH E). apply orb_true_r.
Qed.

Lemma contains_app_r (p a b : string) :
  Str.contains p b = true -> Str.contains p (a ++ b) = true.
Proof.
  intros E. induction a as [|y a IH]; cbn; [exact E|].
  rewrite IH. apply orb_true_r.
Qed.

Lemma contains_cons (p : string) (c : ascii) (s : string) :
  Str.contains p s = true -> Str.contains p (String c s) = true.
Proof. intros E. cbn. rewrite E. apply orb_true_r. Qed.

(** When the pattern is found, the result of the substitution contains a
    replacement. *)
Lemma sub_contains_replacement (m : string -> option (string * string))
    (p : string) :
  m "" = None ->
  (forall t r rest, m t = Some (r, rest) -> Str.contains p r = true) ->
  forall s, Re.search m s = true -> Str.contains p (Re.sub m s) = true.
Proof.
  intros Hnil Hm. unfold Re.sub. induction s as [|c s IH]; cbn.
  - rewrite Hnil. discriminate.
  - destruct (m (String c s)) as [[r rest]|] eqn:E.
    + intros _. apply contains_app_l. exact (Hm _ _ _ E).
    + intros Hs. apply contains_cons, IH, Hs.
Qed.

Lemma listen_bare_replacement (t r rest : string) :
  Re.listen_bare t = Some (r, rest) -> Str.contains ".listen(" r = true.
Proof.
  unfold Re.listen_bare, Re.and_then.
  destruct (Re.lit ".listen(" t); [|discriminate].
  destruct (Re.plus _ _) as [[d r2]|]; [|discriminate].
  destruct (Re.lit ")" _); [|discriminate].
  now intros [= <- _].
Qed.

Lemma listen_env_replacement (t r rest : string) :
  Re.listen_env t = Some (r, rest) -> Str.contains ".listen(" r = true.
Proof.
  unfold Re.listen_env, Re.and_then.
  destruct (Re.lit ".listen(" t); [|discriminate].
  destruct (Re.lit "process.env.PORT" _); [|discriminate].
  destruct (Re.lit "||" _); [|discriminate].
  destruct (Re.plus _ _) as [[d r2]|]; [|discriminate].
  destruct (Re.lit ")" _); [|discriminate].
  now intros [= <- _].
Qed.

(** The rewrite of the listen calls never removes the last listen call. *)
Lemma rewrite_listen_keeps_call (content : string) :
  Str.contains ".listen(" content = true ->
  Str.contains ".listen(" (rewrite_listen content) = true.
Proof.
  intros Hc. unfold rewrite_listen.
  destruct (Re.search Re.listen_bare content) eqn:E1.
  - apply (sub_contains_replacement _ _ eq_refl listen_bare_replacement _ E1).
  - destruct (Re.search Re.listen_env content) eqn:E2; [|exact Hc].
    apply (sub_contains_replacement _ _ eq_refl listen_env_replacement _ E2).
Qed.

End Substrings.

(** ** No sentinel is read (C4) *)

Section Sentinel.

Lemma update_entry_succeeds (n : string) (f : option node -> option node)
    (es : list (string * node)) (x : node) :
  f (lookup n es) = Some x -> exists es', update_entry n f es = Some es'.
Proof.
  induction es as [|[m y] es IH]; cbn; intros Hf.
  - rewrite Hf. now eexists.
  - destruct (String.eqb m n).
    + rewrite Hf. now eexists.
    + destruct (IH Hf) as [es' ->]. now eexists.
Qed.

Lemma write_over_file (n content c : string) (sz : N) (t : node) :
  node_at [n] t = Some (File c sz) ->
  exists t', write_at [n] content t = Some t'
             /\ node_at [n] t' = Some (fresh_file content).
Proof.
  intros Hn.
  assert (Hw : exists t', write_at [n] content t = Some t').
  { destruct t as [|es]; cbn in Hn; [discriminate|].
    destruct (lookup n es) as [x|] eqn:El; [|discriminate]. injection Hn as ->.
    change (write_at [n] content (Dir es))
      with (match update_entry n
                    (fun o => match o with
                              | Some x => write_at [] content x
                              | None => Some (fresh_file content)
                              end) es with
            | Some es' => Some (Dir es')
            | None => None
            end).
    edestruct update_entry_succeeds as [es' ->]; [|now eexists].
    rewrite El. reflexivity. }
  destruct Hw as [t' Hw]. exists t'. split; [exact Hw|].
  exact (write_at_same _ _ _ _ Hw).
Qed.

(** A rule [write; log] over an existing regular file: whatever the file
    held, it then holds the text of the rule, and the entry is logged. *)
Lemma write_log_over_file (n content msg c : string) (sz : N) (s : engine) :
  node_at [n] (tree s) = Some (File c sz) ->
  exists s',
    (write [n] content ;; log msg) s = (Returns tt, s')
    /\ read_at [n] (tree s') = Some content
    /\ fixes_applied s' = (fixes_applied s ++ [msg])%list.
Proof.
  intros Hn. destruct (write_over_file n content c sz _ Hn) as (t' & Ew & Hn').
  eexists. unfold bind, write, log. rewrite Ew. cbn.
  split; [reflexivity|]. split; [now apply node_at_read | reflexivity].
Qed.

(** C4, as the code has it.  No rule looks for a marker in the file it is
    about to write.  The environment-file rule and the configuration-guide
    rule are gated by the report alone: when the report lists an
    environment file (for the guide: no hardcoded_config issue) the rule
    leaves tree and ledger as they are; otherwise it overwrites an existing
    regular file, whatever it held, with its own text and logs its entry.
    The listener block of the Node.js entry file is guarded by the absence
    of a listen call, and the block brings one: after it has been appended,
    the guard is false for the next run. *)
Theorem block_rules_gated_by_report_not_by_marker (analysis : option analysis) :
  (report_environment_files analysis <> [] ->
   forall s, fix_environment_config analysis s = (Returns tt, s))
  /\ (report_environment_files analysis = [] ->
      forall s c sz,
        node_at [".env"] (tree s) = Some (File c sz) ->
        exists s',
          fix_environment_config analysis s = (Returns tt, s')
          /\ read_at [".env"] (tree s') = Some Text.env_content
          /\ fixes_applied s'
             = (fixes_applied s
                ++ ["Created .env file with deployment configuration"])%list)
  /\ (hardcoded_issues analysis = [] ->
      forall s, fix_hardcoded_configs analysis s = (Returns tt, s))
  /\ (hardcoded_issues analysis <> [] ->
      forall s c sz,
        node_at ["DEPLOYMENT_NOTES.md"] (tree s) = Some (File c sz) ->
        exists s',
          fix_hardcoded_configs analysis s = (Returns tt, s')
          /\ read_at ["DEPLOYMENT_NOTES.md"] (tree s')
             = Some (guide_content (hardcoded_issues analysis))
          /\ fixes_applied s'
             = (fixes_applied s ++ ["Created deployment configuration guide"])%list)
  /\ (forall content,
        needs_listener (rewrite_listen content) = true ->
        needs_listener
          (rewrite_listen (rewrite_listen content ++ Text.node_listen_block))
        = false).
Proof.
  repeat split.
  - unfold fix_environment_config.
    destruct (report_environment_files analysis); [congruence | reflexivity].
  - unfold fix_environment_config. intros -> s c sz Hn.
    exact (write_log_over_file _ _ _ c sz s Hn).
  - unfold fix_hardcoded_configs. now intros ->.
  - unfold fix_hardcoded_configs. intros Hne s c sz Hn.
    destruct (hardcoded_issues analysis) as [|i l]; [congruence|].
    exact (write_log_over_file _ _ _ c sz s Hn).
  - intros content _. unfold needs_listener at 1.
    rewrite rewrite_listen_keeps_call; [reflexivity|].
    apply contains_app_r. reflexivity.
Qed.

End Sentinel.

(** ** Runs on concrete projects *)

(** the report that a new analyzer returns for a project directory *)
Definition first_report `{Platform} (project_dir : string) (root : node)
  : option analysis :=
  match fst (analyze project_dir (Some root) None) with
  | Returns r => r
  | Raises => None
  end.

(** one call of [apply_fixes] on a new engine *)
Definition run_once `{Platform} (project_dir : string) (analysis : option analysis)
    (root : node) : bool * engine :=
  apply_fixes project_dir analysis (init root).

(** A Flask project: its requirements and its entry file. *)
Definition flask_project : node :=
  Dir [("requirements.txt", fresh_file "Flask==2.0");
       ("app.py", fresh_file (Str.q
"from flask import Flask
app = Flask(__name__)
if __name__ == ~__main__~:
    app.run()
"))].

(** C1 fails as stated.  On the Flask project the first call logs four
    fixes.  A second call on the resulting tree, on a new engine, logs two
    more with the report of the first call, and one more with a report
    taken anew from the fixed tree: the startup script is written and
    logged on every call. *)
Lemma second_call_ledger_not_empty :
  let report := first_report "/srv/app" flask_project in
  let first := run_once "/srv/app" report flask_project in
  let fixed := tree (snd first) in
  fixes_applied (snd first)
  = ["Fixed Flask app.run() for deployment";
     "Added os import for PORT environment variable";
     "Created .env file with deployment configuration";
     "Created Python startup script"]
  /\ fixes_applied (snd (run_once "/srv/app" report fixed))
     = ["Created .env file with deployment configuration";
        "Created Python startup script"]
  /\ fixes_applied (snd (run_once "/srv/app" (first_report "/srv/app" fixed) fixed))
     = ["Created Python startup script"]
  /\ tree (snd (run_once "/srv/app" report fixed)) = fixed.
Proof. vm_compute. repeat split. Qed.

(** A project with a secret in its source and the guide of an earlier run,
    to which a note was added by hand. *)
Definition noted_issue : issue :=
  {| type := "hardcoded_config";
     severity := "medium";
     description := "Potential hardcoded passwords found in app.js" |}.

Definition noted_guide : string :=
  guide_content [noted_issue] ++ "Reviewed by operations." ++ String "010" "".

Definition noted_project : node :=
  Dir [("app.js", fresh_file "const password = process.env.DB_PASS;");
       ("DEPLOYMENT_NOTES.md", fresh_file noted_guide)].

(** C4 fails as stated.  The guide file begins with the complete block of
    the rule, hence with any marker the block may carry.  The rule does not
    skip: it overwrites the file, the note is lost, and the fix is
    logged. *)
Lemma guide_rewritten_despite_block_present :
  let report := first_report "/srv/app" noted_project in
  let after := snd (run_once "/srv/app" report noted_project) in
  hardcoded_issues report = [noted_issue]
  /\ read_at ["DEPLOYMENT_NOTES.md"] noted_project = Some noted_guide
  /\ Str.starts_with (guide_content [noted_issue]) noted_guide = true
  /\ read_at ["DEPLOYMENT_NOTES.md"] (tree after) = Some (guide_content [noted_issue])
  /\ noted_guide <> guide_content [noted_issue]
  /\ In "Created deployment configuration guide" (fixes_applied after).
Proof.
  vm_compute. repeat split; try discriminate. right. left. reflexivity.
Qed.

(** A Flask project whose virtual environment lives in the directory
    [.env], with a password in its entry file. *)
Definition venv_project : node :=
  Dir [("requirements.txt", fresh_file "flask");
       ("app.py", fresh_file (Str.q
"from flask import Flask
app = Flask(__name__)
app.config[~password~] = ~hunter2~
app.run()
"));
       (".env", Dir [("pyvenv.cfg", fresh_file "home = /usr/bin")])].

(** C6: the code at the failing input.  The report lists no environment
    file and one hardcoded_config issue, and its primary stack is python.
    [open] raises on the directory [.env]; the exception leaves
    [_fix_environment_config], which has no handler of its own, and ends
    the call: [apply_fixes] returns [False], and neither the configuration
    guide nor the startup script is written.  [analyze] on a path that
    names a regular file raises to its caller. *)
Theorem environment_failure_aborts_remaining_rules :
  let report := first_report "/srv/app" venv_project in
  let result := run_once "/srv/app" report venv_project in
  report_environment_files report = []
  /\ List.length (hardcoded_issues report) = 1
  /\ report_primary report = "python"
  /\ fst result = false
  /\ exists_at ["DEPLOYMENT_NOTES.md"] (tree (snd result)) = false
  /\ exists_at ["start.sh"] (tree (snd result)) = false
  /\ fixes_applied (snd result)
     = ["Fixed Flask app.run() for deployment";
        "Added os import for PORT environment variable"]
  /\ fst (analyze "/srv/app/README.md" (Some (File "notes" 5)) None) = Raises.
Proof. vm_compute. repeat split. Qed.

(** C10 fails as stated.  The first call on the project with the [.env]
    directory adds two entries; the second call on the same engine finds
    the ledger non-empty, adds nothing, and returns [False], because the
    write of [.env] raises again. *)
Lemma later_call_returns_false_with_nonempty_ledger :
  let report := first_report "/srv/app" venv_project in
  let first := run_once "/srv/app" report venv_project in
  let second := apply_fixes "/srv/app" report (snd first) in
  get_fixes_applied (snd first)
  = ["Fixed Flask app.run() for deployment";
     "Added os import for PORT environment variable"]
  /\ get_fixes_applied (snd second) = get_fixes_applied (snd first)
  /\ fst second = false.
Proof. vm_compute. repeat split. Qed.

(** C7: the code at the failing input.  The assignment [host = "LOCALHOST"]
    is found by the case-insensitive search, and the substitution leaves it
    as it is, because [str.replace] compares case-sensitively; the same
    assignment in lower case is rewritten. *)
Theorem uppercase_loopback_not_rebound :
  Re.search (Re.host_context "host" "localhost" "0.0.0.0") (Str.q "host = ~LOCALHOST~")
  = true
  /\ fix_bindings (Str.q "host = ~LOCALHOST~") = Str.q "host = ~LOCALHOST~"
  /\ fix_bindings (Str.q "host = ~localhost~") = Str.q "host = ~0.0.0.0~"
  /\ fix_bindings "const url = 'http://localhost:3000';"
     = "const url = 'http://localhost:3000';".
Proof. vm_compute. repeat split. Qed.

(** ** Scanning up to a listen call

    A text that begins with [.l] stops every scanner of the listen pattern
    and of the host contexts: no match that starts before it reaches into
    it. *)

Section Barrier.

Definition keep_rest (X : string) (o : option string) : option string :=
  option_map (fun r => r ++ X) o.

Definition keep_rest2 (X : string) (o : option (string * string))
  : option (string * string) :=
  option_map (fun '(r, rest) => (r, rest ++ X)) o.

(** every non-empty tail of the literal fails on [X] *)
Fixpoint tails_fail (p X : string) : bool :=
  match p with
  | EmptyString => true
  | String _ p' =>
      match Re.lit p X with
      | None => tails_fail p' X
      | Some _ => false
      end
  end.

Fixpoint tails_fail_ci (p X : string) : bool :=
  match p with
  | EmptyString => true
  | String _ p' =>
      match Re.lit_ci p X with
      | None => tails_fail_ci p' X
      | Some _ => false
      end
  end.

Lemma lit_barrier (p X : string) :
  tails_fail p X = true ->
  forall b, Re.lit p (b ++ X) = keep_rest X (Re.lit p b).
Proof.
  induction p as [|a p IH]; intros Hp b; [reflexivity|].
  cbn [tails_fail] in Hp.
  destruct (Re.lit (String a p) X) eqn:E; [discriminate|].
  destruct b as [|c b]; [exact E|].
  cbn. destruct (Ascii.eqb a c); [now apply IH | reflexivity].
Qed.

Lemma lit_barrier_first (a : ascii) (p X : string) :
  tails_fail p X = true ->
  forall c b, Re.lit (String a p) (String c b ++ X)
              = keep_rest X (Re.lit (String a p) (String c b)).
Proof.
  intros Hp c b. cbn. destruct (Ascii.eqb a c); [now apply lit_barrier | reflexivity].
Qed.

Lemma lit_ci_barrier (p X : string) :
  tails_fail_ci p X = true ->
  forall b, Re.lit_ci p (b ++ X) = keep_rest X (Re.lit_ci p b).
Proof.
  induction p as [|a p IH]; intros Hp b; [reflexivity|].
  cbn [tails_fail_ci] in Hp.
  destruct (Re.lit_ci (String a p) X) eqn:E; [discriminate|].
  destruct b as [|c b]; [exact E|].
  cbn. destruct (Ascii.eqb _ _); [now apply IH | reflexivity].
Qed.

Lemma lit_ci_barrier_first (a : ascii) (p X : string) :
  tails_fail_ci p X = true ->
  forall c b, Re.lit_ci (String a p) (String c b ++ X)
              = keep_rest X (Re.lit_ci (String a p) (String c b)).
Proof.
  intros Hp c b. cbn.
  destruct (Ascii.eqb _ _); [now apply lit_ci_barrier | reflexivity].
Qed.

Variable cls : ascii -> bool.
Variable x : ascii.
Variable t : string.
Hypothesis cls_x : cls x = false.

Lemma star_barrier (b : string) :
  Re.star cls (b ++ String x t) = Re.star cls b ++ String x t.
Proof.
  induction b as [|c b IH]; cbn.
  - now rewrite cls_x.
  - destruct (cls c); [exact IH | reflexivity].
Qed.

Lemma run_barrier (b : string) :
  Re.run cls (b ++ String x t)
  = (fst (Re.run cls b), snd (Re.run cls b) ++ String x t).
Proof.
  induction b as [|c b IH]; cbn.
  - now rewrite cls_x.
  - destruct (cls c); [|reflexivity].
    rewrite IH. now destruct (Re.run cls b).
Qed.

Lemma plus_barrier (b : string) :
  Re.plus cls (b ++ String x t) = keep_rest2 (String x t) (Re.plus cls b).
Proof.
  unfold Re.plus. rewrite run_barrier.
  destruct (Re.run cls b) as [[|d ds] rest]; reflexivity.
Qed.

Lemma one_barrier (b : string) :
  Re.one cls (b ++ String x t) = keep_rest (String x t) (Re.one cls b).
Proof.
  destruct b as [|c b]; cbn.
  - now rewrite cls_x.
  - now destruct (cls c).
Qed.

Lemma opt_barrier (b : string) :
  Re.opt cls (b ++ String x t) = Re.opt cls b ++ String x t.
Proof.
  destruct b as [|c b]; cbn.
  - now rewrite cls_x.
  - now destruct (cls c).
Qed.

End Barrier.

Section SubstitutionAcrossBarrier.

(** A matcher stops at [X] when a match that starts before [X] is the
    match in the text without [X]. *)
Definition stops_at (m : string -> option (string * string)) (X : string) : Prop :=
  forall c b, m (String c b ++ X) = keep_rest2 X (m (String c b)).

Lemma sub_go_app (m : string -> option (string * string)) (X : string) :
  stops_at m X ->
  forall a k, k <= String.length a ->
    Re.sub_go m k (a ++ X) = Re.sub_go m k a ++ Re.sub_go m 0 X.
Proof.
  intros Hm. induction a as [|c a IH]; intros k Hk.
  - cbn in Hk. assert (k = 0) as -> by lia. reflexivity.
  - change (String c a ++ X) with (String c (a ++ X)).
    destruct k as [|k].
    + cbn [Re.sub_go]. change (String c (a ++ X)) with (String c a ++ X).
      rewrite Hm. destruct (m (String c a)) as [[r rest]|]; cbn [keep_rest2 option_map].
      * rewrite !length_append.
        replace (String.length a + String.length X
                 - (String.length rest + String.length X))
          with (String.length a - String.length rest) by lia.
        rewrite IH by lia. now rewrite append_assoc.
      * cbn. now rewrite IH by lia.
    + cbn [Re.sub_go]. apply IH. cbn in Hk. lia.
Qed.

Lemma sub_app (m : string -> option (string * string)) (a X : string) :
  stops_at m X -> Re.sub m (a ++ X) = Re.sub m a ++ Re.sub m X.
Proof. intros Hm. apply sub_go_app; [exact Hm | lia]. Qed.

Lemma search_at_match (m : string -> option (string * string)) (s : string)
    (x : string * string) :
  m s = Some x -> Re.search m s = true.
Proof. intros E. destruct s; cbn; now rewrite E. Qed.

Lemma search_app_r (m : string -> option (string * string)) (a X : string) :
  Re.search m X = true -> Re.search m (a ++ X) = true.
Proof.
  intros HX. induction a as [|c a IH]; [exact HX|].
  cbn. destruct (m (String c (a ++ X))); [reflexivity | exact IH].
Qed.

(** Past a match the scan resumes right behind it. *)
Lemma sub_go_skip (m : string -> option (string * string)) (w post : string) :
  Re.sub_go m (String.length w) (w ++ post) = Re.sub_go m 0 post.
Proof.
  induction w as [|c w IH]; cbn; [|exact IH].
  destruct post; reflexivity.
Qed.

Lemma sub_at_match (m : string -> option (string * string)) (c : ascii)
    (w post r : string) :
  m (String c (w ++ post)) = Some (r, post) ->
  Re.sub m (String c (w ++ post)) = r ++ Re.sub m post.
Proof.
  intros E. unfold Re.sub. cbn [Re.sub_go]. rewrite E, length_append.
  replace (String.length w + String.length post - String.length post)
    with (String.length w) by lia.
  now rewrite sub_go_skip.
Qed.

End SubstitutionAcrossBarrier.

(** ** The rewritten listen call survives the host rebinding *)

Section FixedCall.

Lemma space_dot : Re.is_space "." = false.
Proof. reflexivity. Qed.

Lemma digit_dot : Re.is_digit "." = false.
Proof. reflexivity. Qed.

Lemma quote_dot : Re.is_quote "." = false.
Proof. reflexivity. Qed.

Lemma assign_dot : Re.is_assign "." = false.
Proof. reflexivity. Qed.

Lemma listen_bare_stops (t : string) :
  stops_at Re.listen_bare (String "." (String "l" t)).
Proof.
  intros c b. unfold Re.listen_bare.
  rewrite lit_barrier_first by reflexivity.
  destruct (Re.lit ".listen(" (String c b)) as [r1|]; [|reflexivity].
  cbn [keep_rest option_map Re.and_then].
  rewrite (star_barrier _ _ _ space_dot), (plus_barrier _ _ _ digit_dot).
  destruct (Re.plus Re.is_digit (Re.star Re.is_space r1)) as [[d r2]|]; [|reflexivity].
  cbn [keep_rest2 option_map Re.and_then].
  rewrite (star_barrier _ _ _ space_dot), lit_barrier by reflexivity.
  destruct (Re.lit ")" (Re.star Re.is_space r2)); reflexivity.
Qed.

Lemma take_app (n : nat) (s X : string) :
  n <= String.length s -> Str.take n (s ++ X) = Str.take n s.
Proof.
  revert s. induction n as [|n IH]; intros s Hn.
  - destruct s; cbn; [destruct X|]; reflexivity.
  - destruct s as [|c s]; cbn in *; [lia|]. now rewrite IH by lia.
Qed.

Lemma matched_app (s rest X : string) :
  Re.matched (s ++ X) (rest ++ X) = Re.matched s rest.
Proof.
  unfold Re.matched. rewrite !length_append.
  replace (String.length s + String.length X
           - (String.length rest + String.length X))
    with (String.length s - String.length rest) by lia.
  apply take_app. lia.
Qed.

Lemma host_context_end_stops (k : ascii) (kw old t : string) :
  let X := String "." (String "l" t) in
  tails_fail_ci kw X = true -> tails_fail_ci old X = true ->
  forall c b,
    Re.host_context_end (String k kw) old (String c b ++ X)
    = keep_rest X (Re.host_context_end (String k kw) old (String c b)).
Proof.
  intros X Hkw Hold c b. unfold Re.host_context_end.
  rewrite (lit_ci_barrier_first _ _ _ Hkw).
  destruct (Re.lit_ci (String k kw) (String c b)) as [r1|]; [|reflexivity].
  cbn [keep_rest option_map Re.and_then]. subst X.
  rewrite (star_barrier _ _ _ space_dot), (one_barrier _ _ _ assign_dot).
  destruct (Re.one Re.is_assign (Re.star Re.is_space r1)) as [r2|]; [|reflexivity].
  cbn [keep_rest option_map Re.and_then].
  rewrite (star_barrier _ _ _ space_dot), (opt_barrier _ _ _ quote_dot),
    (lit_ci_barrier _ _ Hold).
  destruct (Re.lit_ci old _) as [r3|]; [|reflexivity].
  cbn [keep_rest option_map Re.and_then].
  now rewrite (opt_barrier _ _ _ quote_dot).
Qed.

Lemma host_context_stops (k : ascii) (kw old new t : string) :
  let X := String "." (String "l" t) in
  tails_fail_ci kw X = true -> tails_fail_ci old X = true ->
  stops_at (Re.host_context (String k kw) old new) X.
Proof.
  intros X Hkw Hold c b. unfold Re.host_context.
  rewrite (host_context_end_stops k kw old t Hkw Hold).
  destruct (Re.host_context_end (String k kw) old (String c b)) as [rest|];
    [|reflexivity].
  cbn [keep_rest keep_rest2 option_map Re.and_then].
  now rewrite matched_app.
Qed.

(** the call that the listen rewrite puts in place of [.listen(3000)] *)
Definition fixed_call : string := Re.listen_repl "3000".

Example fixed_call_text :
  fixed_call = Str.q ".listen(process.env.PORT || 3000, ~0.0.0.0~)".
Proof. reflexivity. Qed.

(** the call without its first two characters, [.l] *)
Definition fixed_call_tail : string :=
  match fixed_call with
  | String _ (String _ r) => r
  | _ => EmptyString
  end.

Definition has_fixed_call (content : string) : Prop :=
  exists a b, content = a ++ fixed_call ++ b.

(** the combinations of keyword and loopback literal of [_fix_file_bindings] *)
Definition binding_case (kw old new : string) : Prop :=
  In kw host_keywords /\ In (old, new) problematic_patterns.

Lemma host_context_stops_case (kw old new t : string) :
  binding_case kw old new ->
  stops_at (Re.host_context kw old new) (String "." (String "l" t)).
Proof.
  intros [Hkw Hold]. cbn in Hkw, Hold.
  destruct Hkw as [<-|[<-|[<-|[]]]];
    destruct Hold as [[= <- <-]|[[= <- <-]|[]]];
    apply host_context_stops; reflexivity.
Qed.

(** No host context starts inside the call. *)
Lemma sub_host_context_over_call (kw old new b : string) :
  binding_case kw old new ->
  Re.sub (Re.host_context kw old new) (fixed_call ++ b)
  = fixed_call ++ Re.sub (Re.host_context kw old new) b.
Proof.
  intros [Hkw Hold]. cbn in Hkw, Hold.
  destruct Hkw as [<-|[<-|[<-|[]]]];
    destruct Hold as [[= <- <-]|[[= <- <-]|[]]];
    reflexivity.
Qed.

Lemma rebind_keeps_call (kw old new content : string) :
  binding_case kw old new ->
  has_fixed_call content -> has_fixed_call (rebind old new content kw).
Proof.
  intros Hcase (a & b & ->). unfold rebind.
  destruct (Re.search _ _); [|now exists a, b].
  rewrite sub_app
    by exact (host_context_stops_case kw old new (fixed_call_tail ++ b) Hcase).
  rewrite sub_host_context_over_call by exact Hcase.
  now eexists _, _.
Qed.

Lemma fix_bindings_keeps_call (content : string) :
  has_fixed_call content -> has_fixed_call (fix_bindings content).
Proof.
  intros Hc. unfold fix_bindings. cbn [fold_left problematic_patterns host_keywords].
  repeat apply rebind_keeps_call; try exact Hc;
    (split; cbn; auto 6).
Qed.

(** The listen rewrite puts the call in place. *)
Lemma rewrite_listen_fixes_call (pre post : string) :
  rewrite_listen (pre ++ ".listen(3000)" ++ post)
  = Re.sub Re.listen_bare pre ++ fixed_call ++ Re.sub Re.listen_bare post.
Proof.
  unfold rewrite_listen.
  assert (Hm : Re.listen_bare (".listen(3000)" ++ post) = Some (fixed_call, post))
    by reflexivity.
  rewrite search_app_r by exact (search_at_match _ _ _ Hm).
  rewrite sub_app by exact (listen_bare_stops ("isten(3000)" ++ post)).
  f_equal. exact (sub_at_match Re.listen_bare "." "listen(3000)" post _ Hm).
Qed.

Lemma fixed_call_is_listen_call (a b : string) :
  Str.contains ".listen(" (a ++ fixed_call ++ b) = true.
Proof. apply contains_app_r, contains_app_l. reflexivity. Qed.

End FixedCall.

(** ** Scenario A: a manifest without start script and a bare listen call (C5) *)

Section ScenarioA.
Context `{Platform}.

(** the candidates of [_fix_nodejs_issues] for the main application file *)
Definition entry_points : list string := ["app.js"; "server.js"; "index.js"; "main.js"].

(** The manifest has no [scripts], or its [scripts] is an object without
    [start]. *)
Definition declares_no_start (members : list (string * json)) : Prop :=
  match Json.find "scripts" members with
  | None => True
  | Some (JObj scripts) => Json.find "start" scripts = None
  | Some _ => False
  end.

Definition declared_scripts (members : list (string * json)) : list (string * json) :=
  match Json.find "scripts" members with
  | Some (JObj scripts) => scripts
  | _ => []
  end.

(** the manifest with [scripts.start] set to [node entry] *)
Definition with_start (members : list (string * json)) (entry : string) : json :=
  JObj (store "scripts"
          (JObj (store "start" (JStr ("node " ++ entry)) (declared_scripts members)))
          members).

(** [package_data[scripts][start]], when there is one *)
Definition start_script (package_data : json) : option json :=
  match py_getitem "scripts" package_data with
  | Some scripts => py_getitem "start" scripts
  | None => None
  end.

Lemma find_store (k : string) (v : json) (ms : list (string * json)) :
  Json.find k (store k v ms) = Some v.
Proof.
  induction ms as [|[k' v'] ms IH]; cbn.
  - now rewrite String.eqb_refl.
  - destruct (String.eqb k' k) eqn:E; cbn; now rewrite E.
Qed.

Lemma start_script_with_start (members : list (string * json)) (entry : string) :
  start_script (with_start members entry) = Some (JStr ("node " ++ entry)).
Proof.
  unfold start_script, with_start. cbn [py_getitem].
  rewrite find_store. cbn [py_getitem]. apply find_store.
Qed.

Variable project_dir : string.
Variable es : list (string * node).
Variable entry : string.

Hypothesis entry_is_candidate : In entry entry_points.
Hypothesis entry_exists : exists_at [entry] (Dir es) = true.
Hypothesis entry_single :
  forall other, In other entry_points -> other <> entry -> lookup other es = None.

Ltac entry_cases :=
  destruct entry_is_candidate as [<-|[<-|[<-|[<-|[]]]]].

Lemma exists_candidate (n : string) :
  In n entry_points -> exists_at [n] (Dir es) = String.eqb n entry.
Proof.
  intros Hn. destruct (String.eqb_spec n entry) as [-> | Hne];
    [exact entry_exists|].
  unfold exists_at. cbn. now rewrite (entry_single n Hn Hne).
Qed.

Lemma exists_str_candidate (n : string) (t : node) :
  In n entry_points -> exists_str project_dir n t = exists_at [n] t.
Proof.
  intros Hn. cbn in Hn. unfold exists_str, exists_at.
  destruct Hn as [<-|[<-|[<-|[<-|[]]]]]; destruct t as [c sz|l]; cbn;
    try reflexivity; destruct (lookup _ l); reflexivity.
Qed.

(** With one entry point in the directory, the start script names it,
    whether the manifest has no [main] or names the entry point itself. *)
Lemma start_entry_single (main_file : string) :
  main_file = "index.js" \/ main_file = entry ->
  start_entry project_dir main_file (Dir es) = entry.
Proof.
  unfold start_entry, first_existing. intros [-> | ->].
  - rewrite exists_str_candidate by (cbn; tauto).
    rewrite !exists_candidate by (cbn; tauto).
    entry_cases; reflexivity.
  - rewrite exists_str_candidate by exact entry_is_candidate.
    now rewrite entry_exists.
Qed.

Lemma first_existing_single (t : node) :
  (forall n, In n entry_points -> node_at [n] t = node_at [n] (Dir es)) ->
  first_existing entry_points t = Some entry.
Proof.
  intros Ht. unfold entry_points, first_existing.
  assert (Hex : forall n, In n entry_points ->
                          exists_at [n] t = String.eqb n entry).
  { intros n Hn. rewrite <- exists_candidate by exact Hn.
    unfold exists_at. now rewrite Ht. }
  rewrite !Hex by (cbn; tauto).
  entry_cases; reflexivity.
Qed.

Lemma entry_not_manifest : entry <> "package.json".
Proof. entry_cases; discriminate. Qed.

Variable manifest_text : string.
Variable manifest_size : N.
Variable members : list (string * json).

Hypothesis manifest_file :
  lookup "package.json" es = Some (File manifest_text manifest_size).
Hypothesis manifest_parses : json_load manifest_text = Some (JObj members).
Hypothesis no_start : declares_no_start members.
Hypothesis main_default :
  Json.find "main" members = None \/ Json.find "main" members = Some (JStr entry).

Definition fixed_manifest : string := json_dump (with_start members entry).

Ltac step :=
  cbn -[write_at start_entry store Json.find String.append json_dump].

(** The [try] block over the manifest adds the start script, writes the
    manifest back and logs the fix. *)
Lemma fix_package_json_adds_start (ledger : list string) :
  exists t,
    write_at ["package.json"] fixed_manifest (Dir es) = Some t
    /\ fix_package_json project_dir {| tree := Dir es; fixes_applied := ledger |}
       = (Returns tt,
          {| tree := t;
             fixes_applied := (ledger ++ ["Added start script to package.json"])%list |}).
Proof.
  destruct (write_over_file "package.json" fixed_manifest manifest_text
              manifest_size (Dir es)) as (t & Hw & _).
  { cbn. now rewrite manifest_file. }
  exists t. split; [exact Hw|].
  unfold fix_package_json, bind, read, read_at, value_of, ret, log, write.
  step. rewrite manifest_file. step. rewrite manifest_parses. step.
  unfold declares_no_start in no_start. unfold fixed_manifest, with_start,
    declared_scripts in Hw.
  destruct (Json.find "scripts" members) as [scripts|] eqn:Es.
  - destruct scripts as [| | | | |scripts]; try contradiction.
    step. rewrite Es. step. rewrite no_start. step.
    destruct main_default as [Em | Em]; rewrite Em; step;
      rewrite start_entry_single by tauto; rewrite Hw; reflexivity.
  - step. rewrite find_store. step.
    change (Json.find "start" []) with (@None json).
    assert (Em' : forall v, Json.find "main" (store "scripts" v members)
                            = Json.find "main" members).
    { intros v. clear -Es. induction members as [|[k x] ms IH]; [reflexivity|].
      cbn in *. destruct (String.eqb k "scripts") eqn:Ek; [discriminate|].
      cbn. destruct (String.eqb k "main"); [reflexivity | now apply IH]. }
    rewrite Em'.
    assert (Ess : forall v w, store "scripts" w (store "scripts" v members)
                              = store "scripts" w members).
    { intros v w. clear. induction members as [|[k x] ms IH]; cbn.
      - reflexivity.
      - destruct (String.eqb k "scripts") eqn:Ek; cbn; rewrite Ek;
          [reflexivity | now rewrite IH]. }
    destruct main_default as [Em | Em]; rewrite Em; step;
      rewrite start_entry_single by tauto; rewrite Ess, Hw; reflexivity.
Qed.

Variable pre post : string.
Variable entry_size : N.

Hypothesis entry_file :
  lookup entry es = Some (File (pre ++ ".listen(3000)" ++ post) entry_size).

(** what the scenario promises about a state *)
Definition scenario_fixed (s : engine) : Prop :=
  node_at ["package.json"] (tree s) = Some (fresh_file fixed_manifest)
  /\ (exists content size,
        node_at [entry] (tree s) = Some (File content size)
        /\ has_fixed_call content)
  /\ In "Added start script to package.json" (fixes_applied s).

(** The main-file rule rewrites the listen call of a file that holds one. *)
Lemma fix_nodejs_main_file_rewrites (s : engine) :
  node_at [entry] (tree s)
  = Some (File (pre ++ ".listen(3000)" ++ post) entry_size) ->
  exists s',
    fix_nodejs_main_file project_dir entry s = (Returns tt, s')
    /\ (exists content size,
          node_at [entry] (tree s') = Some (File content size)
          /\ has_fixed_call content)
    /\ (forall n, n <> entry -> node_at [n] (tree s') = node_at [n] (tree s))
    /\ (forall msg, In msg (fixes_applied s) -> In msg (fixes_applied s')).
Proof.
  intros Hn. unfold fix_nodejs_main_file, attempt, bind, read, read_at.
  rewrite Hn, rewrite_listen_fixes_call.
  set (content := Re.sub Re.listen_bare pre ++ fixed_call ++ Re.sub Re.listen_bare post).
  assert (Hc : has_fixed_call content) by (now eexists _, _).
  unfold needs_listener. unfold content at 1.
  rewrite fixed_call_is_listen_call. cbn [negb andb ret].
  destruct (String.eqb_spec content (pre ++ ".listen(3000)" ++ post)) as [E | E];
    cbn [negb].
  - eexists. split; [reflexivity|]. cbn [snd ret fst].
    split; [|now split]. exists content, entry_size. split; [|exact Hc].
    now rewrite E.
  - destruct (write_over_file entry content _ _ _ Hn) as (t' & Hw & Hn').
    unfold write, log. rewrite Hw. cbn.
    eexists. split; [reflexivity|]. cbn [tree fixes_applied].
    split; [|split].
    + exists content, (Str.byte_length content). now split.
    + intros n Hne. apply (write_at_other n [entry] content _ _); [|exact Hw].
      intros rest [= <- _]. now apply Hne.
    + intros msg Hm. apply in_or_app. now left.
Qed.

(** The stack-specific fixes establish the scenario. *)
Lemma fix_nodejs_issues_establishes (ledger : list string) :
  exists s',
    fix_nodejs_issues project_dir {| tree := Dir es; fixes_applied := ledger |}
    = (Returns tt, s')
    /\ scenario_fixed s'.
Proof.
  destruct (fix_package_json_adds_start ledger) as (t & Hw & Hfix).
  unfold fix_nodejs_issues, bind, exists_, exists_at. cbn [tree node_at child].
  rewrite manifest_file. unfold attempt. rewrite Hfix. cbn [snd tree].
  assert (Hother : forall n, n <> "package.json" ->
                             node_at [n] t = node_at [n] (Dir es)).
  { intros n Hn. apply (write_at_other n ["package.json"] fixed_manifest _ _);
      [|exact Hw]. intros rest [= <- _]. now apply Hn. }
  rewrite first_existing_single.
  2:{ intros n Hn. apply Hother. cbn in Hn.
      destruct Hn as [<-|[<-|[<-|[<-|[]]]]]; discriminate. }
  destruct (fix_nodejs_main_file_rewrites
              {| tree := t;
                 fixes_applied := (ledger ++ ["Added start script to package.json"])%list |})
    as (s' & Hrun & Hcall & Hkeep & Hlog).
  { cbn [tree]. rewrite Hother by apply entry_not_manifest.
    cbn. now rewrite entry_file. }
  exists s'. split; [exact Hrun|]. split; [|split].
  - rewrite Hkeep by (intros E; symmetry in E; now apply entry_not_manifest).
    cbn [tree]. exact (write_at_same _ _ _ _ Hw).
  - exact Hcall.
  - apply Hlog. cbn. apply in_or_app. right. now left.
Qed.

(** A method body that keeps what the scenario promises. *)
Definition preserves {A} (m : M A) : Prop :=
  forall s, scenario_fixed s -> scenario_fixed (snd (m s)).

Lemma preserves_ret {A} (a : A) : preserves (ret a).
Proof. now intros s Hs. Qed.

Lemma preserves_bind {A B} (m : M A) (k : A -> M B) :
  preserves m -> (forall a, preserves (k a)) -> preserves (bind m k).
Proof.
  intros Hm Hk s Hs. unfold bind. specialize (Hm s Hs).
  destruct (m s) as [[a|] s1]; [now apply Hk | exact Hm].
Qed.

Lemma preserves_attempt (m : M unit) : preserves m -> preserves (attempt m).
Proof. intros Hm s Hs. exact (Hm s Hs). Qed.

Lemma preserves_log (msg : string) : preserves (log msg).
Proof.
  intros s (Hm & Hc & Hl). cbn. repeat split; try assumption.
  apply in_or_app. now left.
Qed.

Lemma preserves_for_each {A} (l : list A) (body : A -> M unit) :
  (forall x, preserves (body x)) -> preserves (for_each l body).
Proof.
  intros Hb. induction l as [|x l IH]; cbn.
  - apply preserves_ret.
  - apply preserves_bind; [apply Hb | intros _; exact IH].
Qed.

(** A write that succeeds leaves a regular file of the project directory
    as it is, unless it writes that very file. *)
Lemma write_keeps_file (n : string) (p : path) (content c : string) (sz : N)
    (t t' : node) :
  node_at [n] t = Some (File c sz) -> p <> [n] ->
  write_at p content t = Some t' ->
  node_at [n] t' = Some (File c sz).
Proof.
  intros Hn Hp Hw. rewrite <- Hn.
  apply (write_at_other n p content t t'); [|exact Hw].
  intros rest ->. destruct rest as [|d rest]; [now apply Hp|].
  rewrite (write_below_file n (d :: rest) content c sz t Hn) in Hw; discriminate.
Qed.

Lemma preserves_write (p : path) (content : string) :
  p <> ["package.json"] ->
  (p = [entry] -> has_fixed_call content) ->
  preserves (write p content).
Proof.
  intros Hp Hentry s (Hm & (c & sz & Hc & Hcall) & Hl). unfold write.
  destruct (write_at p content (tree s)) as [t'|] eqn:Hw; cbn [snd];
    [|now repeat split; try assumption; exists c, sz].
  cbn. split; [|split; [|exact Hl]].
  - exact (write_keeps_file _ _ _ _ _ _ _ Hm Hp Hw).
  - destruct (list_eq_dec string_dec p [entry]) as [-> | Hne].
    + exists content, (Str.byte_length content).
      split; [exact (write_at_same _ _ _ _ Hw) | now apply Hentry].
    + exists c, sz. split; [|exact Hcall].
      exact (write_keeps_file _ _ _ _ _ _ _ Hc Hne Hw).
Qed.

Lemma preserves_fix_file_bindings (p : path) :
  p <> ["package.json"] -> preserves (fix_file_bindings project_dir p).
Proof.
  intros Hp s Hs. unfold fix_file_bindings, attempt, bind, read. cbn [snd].
  destruct (read_at p (tree s)) as [c|] eqn:Hr; [|exact Hs].
  destruct (negb _); [|exact Hs].
  assert (Hw : preserves (write p (fix_bindings c))).
  { apply preserves_write; [exact Hp|]. intros ->.
    destruct Hs as (_ & (c' & sz & Hc & Hcall) & _).
    unfold read_at in Hr. rewrite Hc in Hr. injection Hr as <-.
    now apply fix_bindings_keeps_call. }
  specialize (Hw s Hs).
  destruct (write p (fix_bindings c) s) as [[[]|] s1]; cbn [snd] in *;
    [now apply preserves_log | exact Hw].
Qed.

Lemma preserves_fix_port_binding : preserves (fix_port_binding project_dir).
Proof.
  intros s. unfold fix_port_binding. apply preserves_for_each. intros [here file].
  destruct (Str.ends_with_any binding_extensions file) eqn:Ext;
    [|apply preserves_ret].
  apply preserves_attempt, preserves_fix_file_bindings.
  intros E. destruct here as [|d [|d' here]]; try discriminate.
  injection E as ->. discriminate.
Qed.

Lemma preserves_write_log (n content msg : string) :
  n <> "package.json" -> n <> entry ->
  preserves (write [n] content ;; log msg).
Proof.
  intros Hn He. apply preserves_bind; [|intros _; apply preserves_log].
  apply preserves_write; [now intros [= ->] | now intros [= ->]].
Qed.

Lemma preserves_overwrite_rules (analysis : option analysis) :
  preserves (fix_environment_config analysis)
  /\ preserves (fix_hardcoded_configs analysis)
  /\ preserves (create_startup_script analysis).
Proof.
  assert (He : ".env" <> entry /\ "DEPLOYMENT_NOTES.md" <> entry /\ "start.sh" <> entry)
    by (entry_cases; repeat split; discriminate).
  destruct He as (He1 & He2 & He3).
  unfold fix_environment_config, fix_hardcoded_configs, create_startup_script,
    create_nodejs_startup, create_python_startup.
  split; [|split].
  - destruct (report_environment_files analysis);
      [apply preserves_write_log; [discriminate | exact He1] | apply preserves_ret].
  - destruct (hardcoded_issues analysis);
      [apply preserves_ret | apply preserves_write_log; [discriminate | exact He2]].
  - destruct (String.eqb _ "nodejs");
      [apply preserves_write_log; [discriminate | exact He3]|].
    destruct (String.eqb _ "python");
      [apply preserves_write_log; [discriminate | exact He3] | apply preserves_ret].
Qed.


End ScenarioA.

(** An Express project: a manifest without scripts and one entry point. *)
Definition express_project : node :=
  Dir [("package.json", fresh_file (sample_dump manifest_plain));
       ("server.js", fresh_file
"const app = require('express')();
app.listen(3000);
")].


(** ** Instances of the theorems above on the concrete projects *)

Lemma second_call_on_flask_project :
  let analysis := first_report "/srv/app" flask_project in
  let s1 := snd (overwrite_rules analysis (init flask_project)) in
  overwrite_rules analysis s1
  = (Returns tt,
     {| tree := tree s1;
        fixes_applied := (fixes_applied s1 ++ repeated_entries analysis)%list |}).
Proof.
  exact (proj2 (second_call_repeats_overwrite_rules "/srv/app"
                  (first_report "/srv/app" flask_project))
               (init flask_project) _ eq_refl).
Defined.

Lemma guide_overwritten_on_noted_project :
  let analysis := first_report "/srv/app" noted_project in
  exists s',
    fix_hardcoded_configs analysis (init noted_project) = (Returns tt, s')
    /\ read_at ["DEPLOYMENT_NOTES.md"] (tree s')
       = Some (guide_content (hardcoded_issues analysis))
    /\ fixes_applied s' = ["Created deployment configuration guide"].
Proof.
  refine (proj1 (proj2 (proj2 (proj2
            (block_rules_gated_by_report_not_by_marker
               (first_report "/srv/app" noted_project)))))
            _ (init noted_project) noted_guide (Str.byte_length noted_guide) eq_refl).
  vm_compute. discriminate.
Defined.

Lemma later_call_value_on_venv_project :
  let analysis := first_report "/srv/app" venv_project in
  let s1 := snd (run_once "/srv/app" analysis venv_project) in
  fst (apply_fixes "/srv/app" analysis s1) = completes "/srv/app" analysis s1.
Proof.
  refine (proj1 (proj2 (proj2
            (ledger_accumulates_across_calls "/srv/app"
               (first_report "/srv/app" venv_project)
               (snd (run_once "/srv/app" (first_report "/srv/app" venv_project)
                       venv_project))))) _).
  vm_compute. discriminate.
Defined.

(** ** Scenario A outside its conditions (C5) *)

(** A manifest without scripts and without [main], the default entry file
    [index.js] with the listen call, and beside it [app.js]. *)
Definition two_entry_project : node :=
  Dir [("package.json", fresh_file (sample_dump manifest_plain));
       ("app.js", fresh_file "module.exports = {};");
       ("index.js", fresh_file "app.listen(3000);")].

(** [{"name": "demo", "main": "start.js"}] *)
Definition manifest_with_main : json :=
  JObj [("name", JStr "demo"); ("main", JStr "start.js")].

(** the platform of the examples, which also reads this manifest *)
Definition platform_with_main : Platform := {|
  json_load := fun text =>
    if String.eqb text (sample_dump manifest_with_main)
    then Some manifest_with_main
    else sample_load text;
  json_dump := sample_dump;
  outside_exists := fun _ _ => false;
  relpath_cwd := fun p => p
|}.

(** A manifest that names its entry file [start.js], which has the listen
    call. *)
Definition named_entry_project : node :=
  Dir [("package.json", fresh_file (sample_dump manifest_with_main));
       ("start.js", fresh_file "app.listen(3000);")].


(** * Further properties of the analyzer *)

Section FreshAnalyzer.
Context `{Platform}.

Lemma detect_project_type_dir (es : list (string * node)) :
  exists pt, detect_project_type (Dir es) = Some pt.
Proof.
  unfold detect_project_type.
  destruct (has_node (Dir es)), (has_python (Dir es)), (has_php es),
    (has_go (Dir es)), (has_ruby (Dir es)), (has_static es);
    eexists; reflexivity.
Qed.

Definition missing_env_issue : issue :=
  {| type := "missing_env";
     severity := "low";
     description := "No environment configuration files found" |}.

(** X1.  On a directory [analyze] returns and stores its report.  On a new
    analyzer the issue list is built while [self.analysis_result] is still
    empty: it always holds the missing_env issue, whether or not the tree
    has an environment file, and never a missing_file issue, whatever the
    stack. *)
Theorem fresh_analysis_reports_missing_env (project_dir : string)
    (es : list (string * node)) :
  exists a,
    analyze project_dir (Some (Dir es)) None = (Returns (Some a), Some a)
    /\ In missing_env_issue (potential_issues a)
    /\ Forall (fun i => type i <> "missing_file") (potential_issues a).
Proof.
  unfold analyze.
  destruct (detect_project_type_dir es) as [pt ->].
  eexists. split; [reflexivity|]. cbn [potential_issues].
  unfold identify_potential_issues. cbn [manifest_issues previous_primary app].
  split.
  - apply in_or_app. right. apply in_or_app. left. now left.
  - apply Forall_app. split.
    + apply Forall_flat_map, Forall_forall. intros [here f] _.
      unfold hardcoded_issue.
      destruct (Str.ends_with_any _ f); [|constructor].
      destruct (read_at _ _); [|constructor].
      destruct (first_hardcoded _ _); repeat constructor. discriminate.
    + apply Forall_app. split.
      * repeat constructor. discriminate.
      * unfold large_file_issues. destruct (filter _ _); repeat constructor.
        discriminate.
Qed.

(** X2.  The issue list depends on the report held from before only through its
    primary stack and its important files, and these are functions of the
    tree.  Hence, from its second run on an unchanged directory, an
    analyzer returns the same report again. *)
Theorem analysis_stable_from_second_run (project_dir : string)
    (es : list (string * node)) (previous : option analysis) :
  let first := analyze project_dir (Some (Dir es)) previous in
  let second := analyze project_dir (Some (Dir es)) (snd first) in
  (exists a, second = (Returns (Some a), Some a))
  /\ analyze project_dir (Some (Dir es)) (snd second) = second.
Proof.
  unfold analyze. destruct (detect_project_type_dir es) as [pt ->].
  cbn. split; [eexists|]; reflexivity.
Qed.

End FreshAnalyzer.

(** A directory that has an environment file: the first report of a new
    analyzer says it has none, the second one does not. *)
Definition entries_with_env : list (string * node) :=
  [("package.json", fresh_file (sample_dump manifest_started));
   (".env", fresh_file "PORT=8080")].

Definition project_with_env : node := Dir entries_with_env.

Example second_report_differs_from_first :
  let first := analyze "/srv/app" (Some project_with_env) None in
  let second := analyze "/srv/app" (Some project_with_env) (snd first) in
  option_map potential_issues (snd first) = Some [missing_env_issue]
  /\ option_map potential_issues (snd second) = Some [].
Proof. vm_compute. split; reflexivity. Qed.

Section PortProbeComplete.

(** a hint of the file [f]: a run of digits that one of the four patterns
    finds in the text of the file, read as a number *)
Definition hint_in_file (root : node) (f : string) (p : N) : Prop :=
  exists content kw digits,
    read_at [f] root = Some content
    /\ In kw ["port"; "PORT"; "listen"; "server"]
    /\ In digits (Re.findall (Re.port_hint kw) content)
    /\ Str.int digits = p.

Lemma ports_of_file_spec (root : node) (f : string) (p : N) :
  In p (ports_of_file root f)
  <-> hint_in_file root f p /\ (1000 <= p /\ p <= 65535)%N.
Proof.
  unfold ports_of_file, hint_in_file.
  destruct (read_at [f] root) as [content|] eqn:Er.
  - assert (Ex : exists_at [f] root = true).
    { unfold exists_at. unfold read_at in Er.
      now destruct (node_at [f] root). }
    rewrite Ex. unfold ports_of_content. rewrite in_flat_map. split.
    + intros (kw & Hkw & Hp). apply filter_In in Hp as [Hp Hv].
      apply in_map_iff in Hp as (digits & Hd & Hin).
      split; [|now apply valid_port_range].
      now exists content, kw, digits.
    + intros [(content' & kw & digits & [= <-] & Hkw & Hin & Hd) Hv].
      exists kw. split; [exact Hkw|]. apply filter_In.
      split; [|now apply valid_port_range].
      apply in_map_iff. now exists digits.
  - split.
    + destruct (exists_at [f] root); intros [].
    + intros [(content & _ & _ & [=] & _) _].
Qed.


End PortProbeComplete.

Section DatabaseProbe.
Import Probe.

Definition database_names : list string := map fst db_indicators.

(** what the probe has found: no name twice, and only names of the table *)
Definition well_detected (detected : list string) : Prop :=
  NoDup detected /\ incl detected database_names.

Lemma well_detected_add (detected : list string) (db : string) :
  well_detected detected -> In db database_names ->
  Str.mem db detected = false ->
  well_detected (detected ++ [db])%list.
Proof.
  intros [Hnd Hin] Hdb Hmem. split.
  - apply NoDup_app; [exact Hnd | repeat constructor; intros [] |].
    intros x Hx [<- | []]. apply mem_false_not_In in Hmem. contradiction.
  - apply incl_app; [exact Hin|]. intros x [<- | []]. exact Hdb.
Qed.

Lemma databases_in_well_detected (content : string) (detected : list string) :
  well_detected detected -> well_detected (databases_in content detected).
Proof.
  unfold databases_in.
  assert (Hsub : incl (map fst db_indicators) database_names)
    by apply incl_refl.
  revert detected Hsub.
  induction db_indicators as [|[db inds] l IH]; intros detected Hsub Hw;
    [exact Hw|].
  cbn [fold_left]. apply IH.
  - intros x Hx. apply Hsub. now right.
  - destruct (indicated content inds); [|exact Hw].
    destruct (Str.mem db detected) eqn:Hmem; cbn [negb]; [exact Hw|].
    apply well_detected_add; [exact Hw | apply Hsub; now left | exact Hmem].
Qed.

Lemma probe_file_well_detected (root : node) (detected : list string)
    (pf : path * string) :
  well_detected detected -> well_detected (probe_file root detected pf).
Proof.
  intros Hw. destruct pf as [here f]. unfold probe_file.
  destruct (Str.ends_with_any _ f); [|exact Hw].
  destruct (read_at _ root); [|exact Hw].
  now apply databases_in_well_detected.
Qed.

(** X5.  The database probe either reports nothing or a non-empty list, without
    repetition, of names among mongodb, postgresql, mysql, sqlite and
    redis. *)
Theorem database_hints_distinct_and_known (root : node) :
  match detect_database_config root with
  | Some dbs =>
      dbs <> [] /\ NoDup dbs
      /\ incl dbs ["mongodb"; "postgresql"; "mysql"; "sqlite"; "redis"]
  | None => True
  end.
Proof.
  unfold detect_database_config.
  assert (Hw : well_detected
                 (fold_left (probe_file root) (walk_files (fun _ => true) root) [])).
  { generalize (walk_files (fun _ => true) root).
    assert (H0 : well_detected []) by (split; [constructor | intros x []]).
    revert H0. generalize (@nil string).
    intros d Hd l. revert d Hd.
    induction l as [|pf l IH]; intros d Hd; [exact Hd|].
    cbn [fold_left]. apply IH. now apply probe_file_well_detected. }
  destruct (fold_left _ _ _) as [|d l]; [exact I|].
  destruct Hw as [Hnd Hin]. split; [discriminate|]. split; assumption.
Qed.

(** The indicators are looked for as substrings: a picture is taken for
    PostgreSQL. *)
Example picture_taken_for_postgresql :
  detect_database_config (Dir [("config.json", fresh_file "logo.JPG")])
  = Some ["postgresql"].
Proof. reflexivity. Qed.

(** a file that the probe opens and that mentions the database [db] *)
Definition mentions (root : node) (db : string) (pf : path * string) : Prop :=
  exists content indicators,
    Str.ends_with_any database_extensions (snd pf) = true
    /\ read_at (fst pf ++ [snd pf])%list root = Some content
    /\ In (db, indicators) db_indicators
    /\ indicated (Str.lower content) indicators = true.

Lemma databases_in_spec (content : string) (detected : list string) (db : string) :
  In db (databases_in content detected)
  <-> In db detected
      \/ exists indicators,
           In (db, indicators) db_indicators
           /\ indicated content indicators = true.
Proof.
  unfold databases_in. revert detected.
  induction db_indicators as [|[d inds] l IH]; intros detected; cbn [fold_left].
  - split; [now left | intros [H | (i & [] & _)]; exact H].
  - rewrite IH. clear IH. split.
    + intros [Hd | (i & Hi & Hc)].
      * destruct (indicated content inds) eqn:Ei; [|now left].
        destruct (Str.mem d detected) eqn:Em; cbn [negb] in Hd; [now left|].
        apply in_app_or in Hd as [Hd | [<- | []]]; [now left|].
        right. exists inds. split; [now left | exact Ei].
      * right. exists i. split; [now right | exact Hc].
    + intros [Hd | (i & [[= <- <-] | Hi] & Hc)].
      * left. destruct (indicated content inds); [|exact Hd].
        destruct (negb _); [apply in_or_app; now left | exact Hd].
      * left. rewrite Hc.
        destruct (Str.mem d detected) eqn:Em; cbn [negb].
        -- now apply mem_In.
        -- apply in_or_app. right. now left.
      * right. exists i. split; assumption.
Qed.

Lemma probe_files_spec (root : node) (files : list (path * string))
    (detected : list string) (db : string) :
  In db (fold_left (probe_file root) files detected)
  <-> In db detected \/ exists pf, In pf files /\ mentions root db pf.
Proof.
  revert detected. induction files as [|[here f] files IH]; intros detected;
    cbn [fold_left].
  - split; [now left | intros [Hd | (pf & [] & _)]; exact Hd].
  - rewrite IH. clear IH. unfold probe_file. split.
    + intros [Hd | (pf & Hpf & Hm)].
      * destruct (Str.ends_with_any database_extensions f) eqn:Ee; [|now left].
        destruct (read_at (here ++ [f])%list root) as [content|] eqn:Er; [|now left].
        apply databases_in_spec in Hd as [Hd | (i & Hi & Hc)]; [now left|].
        right. exists (here, f). split; [now left|].
        exists content, i. cbn [fst snd]. repeat split; assumption.
      * right. exists pf. split; [now right | exact Hm].
    + intros [Hd | (pf & [<- | Hpf] & Hm)].
      * left. destruct (Str.ends_with_any _ f); [|exact Hd].
        destruct (read_at _ root); [|exact Hd].
        apply databases_in_spec. now left.
      * left. destruct Hm as (content & i & Ee & Er & Hi & Hc).
        cbn [fst snd] in Ee, Er. rewrite Ee, Er.
        apply databases_in_spec. right. now exists i.
      * right. now exists pf.
Qed.

(** X6.  A database is reported if and only if some file of the tree with one
    of the six suffixes holds, in any letter case, one of the indicators of
    that database. *)
Theorem database_reported_iff_indicator_found (root : node) (db : string) :
  (exists dbs, detect_database_config root = Some dbs /\ In db dbs)
  <-> (exists pf, In pf (walk_files (fun _ => true) root) /\ mentions root db pf).
Proof.
  unfold detect_database_config.
  pose proof (probe_files_spec root (walk_files (fun _ => true) root) [] db) as Hs.
  destruct (fold_left _ _ _) as [|d l].
  - split; [intros (dbs & [=] & _)|].
    intros Hm. apply proj2 in Hs. destruct Hs as []. now right.
  - split.
    + intros (dbs & [= <-] & Hin). apply Hs in Hin as [[] | Hm]. exact Hm.
    + intros Hm. eexists. split; [reflexivity|]. apply Hs. now right.
Qed.

End DatabaseProbe.

Section SecondRun.
Context `{Platform}.

Lemma top_level_file_counted (n : string) (es : list (string * node))
    (c : string) (sz : N) :
  lookup n es = Some (File c sz) ->
  Str.mem n important_names = true -> hidden_file n = false ->
  In n (important_files (analyze_structure (Dir es))).
Proof.
  intros Hl Himp Hhid. unfold analyze_structure. cbn [important_files].
  apply in_map_iff. exists ([], n). split; [reflexivity|].
  apply filter_In. split; [|exact Himp].
  cbn [walk flat_map]. apply in_or_app. left.
  apply in_map. apply filter_In. split; [|now rewrite Hhid].
  clear - Hl. induction es as [|[m x] es IH]; cbn in *; [discriminate|].
  destruct (String.eqb_spec m n) as [-> | Hne].
  - injection Hl as ->. now left.
  - destruct x; [right|]; now apply IH.
Qed.

(** X3.  From its second run on, an analyzer sees a regular file [.env] of the
    project directory: the report has no missing_env issue, while the
    first report of a new analyzer has one for the same tree. *)
Theorem second_run_sees_env_file (project_dir : string)
    (es : list (string * node)) (previous : option analysis)
    (c : string) (sz : N) :
  lookup ".env" es = Some (File c sz) ->
  let first := analyze project_dir (Some (Dir es)) previous in
  let second := analyze project_dir (Some (Dir es)) (snd first) in
  exists a,
    second = (Returns (Some a), Some a)
    /\ Forall (fun i => type i <> "missing_env") (potential_issues a).
Proof.
  intros Hl. cbv zeta. unfold analyze.
  destruct (detect_project_type_dir es) as [pt ->]. cbn [snd].
  eexists. split; [reflexivity|]. cbn [potential_issues].
  unfold identify_potential_issues.
  apply Forall_app. split.
  { unfold manifest_issues.
    destruct (previous_primary _) as [p|]; [|constructor].
    destruct (String.eqb p "nodejs").
    - destruct (negb _); repeat constructor. discriminate.
    - destruct (String.eqb p "python"); [|constructor].
      destruct (_ && _); repeat constructor. discriminate. }
  apply Forall_app. split.
  { apply Forall_flat_map, Forall_forall. intros [here f] _.
    unfold hardcoded_issue.
    destruct (Str.ends_with_any _ f); [|constructor].
    destruct (read_at _ _); [|constructor].
    destruct (first_hardcoded _ _); repeat constructor. discriminate. }
  apply Forall_app. split.
  - unfold env_issues. cbn [previous_important_files structure_of].
    pose proof (top_level_file_counted ".env" es c sz Hl eq_refl eq_refl) as Hin.
    destruct (filter (Str.contains ".env") _) as [|x l] eqn:Ef; [|constructor].
    exfalso.
    assert (Hf : In ".env" (filter (Str.contains ".env")
                              (important_files (analyze_structure (Dir es)))))
      by (apply filter_In; split; [exact Hin | reflexivity]).
    rewrite Ef in Hf. destruct Hf.
  - unfold large_file_issues. destruct (filter _ _); repeat constructor.
    discriminate.
Qed.

End SecondRun.

Lemma second_run_on_project_with_env :
  let first := analyze "/srv/app" (Some (Dir entries_with_env)) None in
  let second := analyze "/srv/app" (Some (Dir entries_with_env)) (snd first) in
  exists a,
    second = (Returns (Some a), Some a)
    /\ Forall (fun i => type i <> "missing_env") (potential_issues a).
Proof.
  exact (second_run_sees_env_file "/srv/app" entries_with_env None
           "PORT=8080" 9 eq_refl).
Defined.

Section Recommendations.
Import Probe.

Example numeral_of_ports :
  map numeral [0; 80; 3000; 65535]%N = ["0"; "80"; "3000"; "65535"].
Proof. reflexivity. Qed.

Definition hardcoded_advice : string :=
  "Move hardcoded configurations to environment variables".

Lemma count_occ_absent (l : list string) (x : string) :
  ~ In x l -> count_occ string_dec l x = 0.
Proof. apply count_occ_not_In. Qed.

Example recommendations_name_every_database_and_port :
  database_recommendation (Some ["mongodb"; "redis"])
  = ["Ensure database services are available: mongodb, redis"]
  /\ database_recommendation (Some ["sqlite"])
     = ["Ensure database services are available: sqlite"]
  /\ port_recommendation (Some [3000; 8080]%N)
     = ["Configure port binding for detected ports: 3000, 8080"]
  /\ port_recommendation (Some [5000]%N)
     = ["Configure port binding for detected ports: 5000"].
Proof. repeat split. Qed.

(** X7.  The recommendations of a report end with the four general ones.
    The advice to move hardcoded configurations is given once for every
    hardcoded_config issue: the list is not deduplicated.  When databases
    or ports were detected, one recommendation names all of them,
    separated by a comma and a blank. *)
Theorem recommendations_repeat_per_issue (a : analysis)
    (database_config : option (list string)) :
  (exists specific,
     generate_recommendations a database_config
     = (specific ++ general_recommendations)%list)
  /\ count_occ string_dec (generate_recommendations a database_config)
       hardcoded_advice
     = List.length
         (filter (fun i => String.eqb (type i) "hardcoded_config")
                 (potential_issues a))
  /\ (forall dbs,
        database_config = Some dbs -> dbs <> [] ->
        In ("Ensure database services are available: " ++ Str.join ", " dbs)
           (generate_recommendations a database_config))
  /\ (forall ports,
        port_configuration (configuration_of a) = Some ports -> ports <> [] ->
        In ("Configure port binding for detected ports: "
            ++ Str.join ", " (map numeral ports))
           (generate_recommendations a database_config)).
Proof.
  unfold generate_recommendations. split; [|split; [|split]].
  - eexists. rewrite !app_assoc. reflexivity.
  - rewrite !count_occ_app.
    assert (Hstack : count_occ string_dec
                       (stack_recommendations (project_type_of a))
                       hardcoded_advice = 0).
    { apply count_occ_absent. unfold stack_recommendations.
      destruct (String.eqb _ "nodejs").
      - destruct (Str.mem "express" _); cbn; intros Hin;
          decompose [or] Hin; discriminate || contradiction.
      - destruct (String.eqb _ "python"); [|intros []].
        destruct (Str.mem "django" _); [|destruct (Str.mem "flask" _)];
          cbn; intros Hin; decompose [or] Hin; discriminate || contradiction. }
    assert (Hdb : count_occ string_dec (database_recommendation database_config)
                    hardcoded_advice = 0).
    { apply count_occ_absent. unfold database_recommendation.
      destruct database_config as [[|d l]|]; cbn; try tauto.
      intros [E | []]. discriminate. }
    assert (Hport : count_occ string_dec
                      (port_recommendation (port_configuration (configuration_of a)))
                      hardcoded_advice = 0).
    { apply count_occ_absent. unfold port_recommendation.
      destruct (port_configuration _) as [[|d l]|]; cbn; try tauto.
      intros [E | []]. discriminate. }
    assert (Hgen : count_occ string_dec general_recommendations hardcoded_advice = 0).
    { apply count_occ_absent. cbn. intros Hin.
      decompose [or] Hin; discriminate || contradiction. }
    rewrite Hstack, Hdb, Hport, Hgen, !Nat.add_0_r. cbn [Nat.add].
    induction (potential_issues a) as [|i l IH]; [reflexivity|].
    cbn [flat_map filter]. rewrite count_occ_app, IH.
    unfold issue_recommendation.
    destruct (String.eqb (type i) "hardcoded_config"); [reflexivity|].
    destruct (String.eqb (type i) "missing_env"); reflexivity.
  - intros dbs -> Hne. do 2 (apply in_or_app; right). apply in_or_app. left.
    destruct dbs as [|d l]; [contradiction|]. now left.
  - intros ports -> Hne. do 3 (apply in_or_app; right). apply in_or_app. left.
    destruct ports as [|d l]; [contradiction|]. now left.
Qed.

End Recommendations.

(** * What [apply_fixes] may write *)

(** ** One write and the rest of the tree *)

Section PathsUnderWrite.

(** regular file ([true]), directory ([false]) or nothing at a path *)
Definition kind_at (q : path) (t : node) : option bool :=
  option_map is_file (node_at q t).

(** A write changes what can be read at no other path. *)
Lemma write_at_read_other (p : path) (content : string) :
  forall (t t' : node) (q : path),
    write_at p content t = Some t' -> q <> p -> read_at q t' = read_at q t.
Proof.
  induction p as [|d p IH]; intros t t' q Hw Hq.
  - destruct t as [c sz|es]; [|discriminate]. injection Hw as <-.
    destruct q as [|d' q]; [contradiction | reflexivity].
  - destruct t as [c sz|es]; [discriminate|]. cbn [write_at] in Hw.
    destruct (update_entry d _ es) as [es'|] eqn:E; [|discriminate].
    injection Hw as <-.
    destruct q as [|d' q]; [reflexivity|].
    unfold read_at. cbn [node_at child].
    destruct (String.eqb_spec d' d) as [-> | Hne].
    + apply update_entry_some in E as (x' & Ef & ->).
      assert (Hq' : q <> p) by congruence.
      destruct (lookup d es) as [x|].
      * exact (IH x x' q Ef Hq').
      * destruct p as [|e p]; [|discriminate]. injection Ef as <-.
        destruct q as [|e q]; [contradiction | reflexivity].
    + now rewrite (update_entry_other d' d _ es es' Hne E).
Qed.

(** A write creates and removes nothing at any other path, and changes
    the kind of no other path. *)
Lemma write_at_kind_other (p : path) (content : string) :
  forall (t t' : node) (q : path),
    write_at p content t = Some t' -> q <> p -> kind_at q t' = kind_at q t.
Proof.
  induction p as [|d p IH]; intros t t' q Hw Hq.
  - destruct t as [c sz|es]; [|discriminate]. injection Hw as <-.
    destruct q as [|d' q]; [contradiction | reflexivity].
  - destruct t as [c sz|es]; [discriminate|]. cbn [write_at] in Hw.
    destruct (update_entry d _ es) as [es'|] eqn:E; [|discriminate].
    injection Hw as <-.
    destruct q as [|d' q]; [reflexivity|].
    unfold kind_at. cbn [node_at child].
    destruct (String.eqb_spec d' d) as [-> | Hne].
    + apply update_entry_some in E as (x' & Ef & ->).
      assert (Hq' : q <> p) by congruence.
      destruct (lookup d es) as [x|].
      * exact (IH x x' q Ef Hq').
      * destruct p as [|e p]; [|discriminate]. injection Ef as <-.
        destruct q as [|e q]; [contradiction | reflexivity].
    + now rewrite (update_entry_other d' d _ es es' Hne E).
Qed.

(** The written path holds a regular file afterwards. *)
Lemma write_at_kind_same (p : path) (content : string) :
  forall (t t' : node),
    write_at p content t = Some t' -> kind_at p t' = Some true.
Proof.
  induction p as [|d p IH]; intros t t' Hw.
  - destruct t as [c sz|es]; [|discriminate]. now injection Hw as <-.
  - destruct t as [c sz|es]; [discriminate|]. cbn [write_at] in Hw.
    destruct (update_entry d _ es) as [es'|] eqn:E; [|discriminate].
    injection Hw as <-. unfold kind_at. cbn [node_at child].
    apply update_entry_some in E as (x' & Ef & ->).
    destruct (lookup d es) as [x|].
    + exact (IH x x' Ef).
    + destruct p as [|e p]; [|discriminate]. now injection Ef as <-.
Qed.

(** Only a path that holds no directory can be written. *)
Lemma write_at_kind_before (p : path) (content : string) :
  forall (t t' : node),
    write_at p content t = Some t' -> kind_at p t <> Some false.
Proof.
  induction p as [|d p IH]; intros t t' Hw.
  - destruct t as [c sz|es]; [discriminate | discriminate].
  - destruct t as [c sz|es]; [discriminate|]. cbn [write_at] in Hw.
    destruct (update_entry d _ es) as [es'|] eqn:E; [|discriminate].
    unfold kind_at. cbn [node_at child].
    apply update_entry_some in E as (x' & Ef & _).
    destruct (lookup d es) as [x|]; [exact (IH x x' Ef) | discriminate].
Qed.

(** A write removes nothing and turns no directory into a file or a file
    into a directory. *)
Lemma write_at_kind (p : path) (content : string) (t t' : node) (q : path)
    (k : bool) :
  write_at p content t = Some t' -> kind_at q t = Some k -> kind_at q t' = Some k.
Proof.
  intros Hw Hk. destruct (list_eq_dec string_dec q p) as [-> | Hq].
  - rewrite (write_at_kind_same _ _ _ _ Hw).
    destruct k; [reflexivity|]. now apply write_at_kind_before in Hw.
  - now rewrite (write_at_kind_other _ _ _ _ _ Hw Hq).
Qed.

End PathsUnderWrite.

(** ** The directories of a walk *)

Section WalkPaths.

Fixpoint node_induction (P : node -> Prop)
    (HF : forall c sz, P (File c sz))
    (HD : forall es, Forall (fun e => P (snd e)) es -> P (Dir es))
    (n : node) : P n :=
  match n with
  | File c sz => HF c sz
  | Dir es =>
      HD es ((fix each (l : list (string * node)) : Forall (fun e => P (snd e)) l :=
                match l with
                | [] => Forall_nil _
                | (name, x) :: rest =>
                    Forall_cons (name, x) (node_induction P HF HD x) (each rest)
                end) es)
  end.

Variable keep : string -> bool.

(** A walk visits only directories below its top whose names, from the top
    down, all passed the filter. *)
Lemma walk_kept (n : node) :
  forall here visit,
    In visit (walk keep here n) ->
    exists below,
      fst (fst visit) = (here ++ below)%list /\ forallb keep below = true.
Proof.
  induction n as [c sz|es IH] using node_induction; intros here visit Hin.
  - destruct Hin.
  - cbn [walk] in Hin. destruct Hin as [<- | Hin].
    + exists []. split; [now rewrite app_nil_r | reflexivity].
    + induction IH as [|[name x] rest Hx _ IHrest]; [destruct Hin|].
      destruct x as [c sz|sub]; [now apply IHrest|].
      destruct (keep name) eqn:Hk; [|now apply IHrest].
      apply in_app_or in Hin as [Hin | Hin]; [|now apply IHrest].
      destruct (Hx _ _ Hin) as (below & E & Hb).
      exists (name :: below). split.
      * now rewrite E, <- app_assoc.
      * cbn. now rewrite Hk.
Qed.

Lemma walk_files_kept (n : node) (here : path) (f : string) :
  In (here, f) (walk_files keep n) -> forallb keep here = true.
Proof.
  unfold walk_files. intros Hin. apply in_flat_map in Hin as ([[h ds] fs] & Hv & Hf).
  apply in_map_iff in Hf as (f' & [= <- <-] & _).
  destruct (walk_kept n [] _ Hv) as (below & E & Hb). cbn in E. now subst.
Qed.

End WalkPaths.

(** ** The paths a method may write *)

Section Footprint.
Context `{Platform}.

(** Every write of the method goes to a path of [F]: whatever holds of the
    tree and survives the writes to the paths of [F] survives the
    method. *)
Definition touches_only (F : path -> Prop) {A} (m : M A) : Prop :=
  forall I : node -> Prop,
    (forall p c t t', F p -> write_at p c t = Some t' -> I t -> I t') ->
    forall s, I (tree s) -> I (tree (snd (m s))).

Lemma touches_weaken (F G : path -> Prop) {A} (m : M A) :
  (forall p, F p -> G p) -> touches_only F m -> touches_only G m.
Proof. intros Hsub Hm I HI. apply Hm. intros p c t t' Hp. now apply HI, Hsub. Qed.

(** Whatever a method writes, it removes nothing and changes no kind. *)
Lemma kinds_kept (F : path -> Prop) {A} (m : M A) (s : engine) (q : path)
    (k : bool) :
  touches_only F m ->
  kind_at q (tree s) = Some k -> kind_at q (tree (snd (m s))) = Some k.
Proof.
  intros Hm Hk. apply (Hm (fun t => kind_at q t = Some k)); [|exact Hk].
  intros p c t t' _ Hw Ht. exact (write_at_kind _ _ _ _ _ _ Hw Ht).
Qed.

(** Outside the paths it may write, a method changes no kind. *)
Lemma kinds_outside (F : path -> Prop) {A} (m : M A) (s : engine) (q : path) :
  touches_only F m -> ~ F q ->
  kind_at q (tree (snd (m s))) = kind_at q (tree s).
Proof.
  intros Hm Hq. apply (Hm (fun t => kind_at q t = kind_at q (tree s)));
    [|reflexivity].
  intros p c t t' Hp Hw <-. apply (write_at_kind_other _ _ _ _ _ Hw).
  now intros ->.
Qed.

Section Primitives.
Variable F : path -> Prop.

Lemma touches_ret {A} (a : A) : touches_only F (ret a).
Proof. now intros I _ s Hs. Qed.

Lemma touches_raise {A} : touches_only F (@raise A).
Proof. now intros I _ s Hs. Qed.

Lemma touches_value_of {A} (o : option A) : touches_only F (value_of o).
Proof. destruct o; [apply touches_ret | apply touches_raise]. Qed.

Lemma touches_log (msg : string) : touches_only F (log msg).
Proof. now intros I _ s Hs. Qed.

Lemma touches_exists (p : path) : touches_only F (exists_ p).
Proof. now intros I _ s Hs. Qed.

Lemma touches_read (p : path) : touches_only F (read p).
Proof. intros I _ s Hs. unfold read. now destruct (read_at p (tree s)). Qed.

Lemma touches_write (p : path) (content : string) :
  F p -> touches_only F (write p content).
Proof.
  intros Hp I HI s Hs. unfold write.
  destruct (write_at p content (tree s)) as [t'|] eqn:Hw; [|exact Hs].
  exact (HI _ _ _ _ Hp Hw Hs).
Qed.

Lemma touches_bind {A B} (m : M A) (k : A -> M B) :
  touches_only F m -> (forall a, touches_only F (k a)) ->
  touches_only F (bind m k).
Proof.
  intros Hm Hk I HI s Hs. unfold bind. specialize (Hm I HI s Hs).
  destruct (m s) as [[a|] s1]; [exact (Hk a I HI s1 Hm) | exact Hm].
Qed.

Lemma touches_attempt (m : M unit) : touches_only F m -> touches_only F (attempt m).
Proof. intros Hm I HI s Hs. exact (Hm I HI s Hs). Qed.

Lemma touches_for_each {A} (l : list A) (body : A -> M unit) :
  (forall x, In x l -> touches_only F (body x)) -> touches_only F (for_each l body).
Proof.
  induction l as [|x l IH]; intros Hb; cbn.
  - apply touches_ret.
  - apply touches_bind; [apply Hb; now left | intros _; apply IH].
    intros y Hy. apply Hb. now right.
Qed.

Lemma touches_write_log (p : path) (content msg : string) :
  F p -> touches_only F (write p content ;; log msg).
Proof.
  intros Hp. apply touches_bind; [now apply touches_write|].
  intros _. apply touches_log.
Qed.

End Primitives.

Create HintDb footprint.
#[local] Hint Resolve touches_ret touches_raise touches_attempt touches_value_of
  touches_log touches_exists touches_read touches_write touches_write_log : footprint.

Ltac footprint :=
  repeat
    (intros;
     first
       [ solve [auto with footprint]
       | match goal with
         | |- touches_only _ (bind _ _) => apply touches_bind
         | |- touches_only _ (attempt _) => apply touches_attempt
         | |- touches_only _ (if ?b then _ else _) => destruct b
         | |- touches_only _ (match ?x with _ => _ end) => destruct x
         end ]).

(** *** Method by method *)

Lemma first_existing_In (names : list string) (t : node) (n : string) :
  first_existing names t = Some n -> In n names.
Proof.
  induction names as [|m names IH]; cbn; [discriminate|].
  destruct (exists_at [m] t); [intros [= <-]; now left | right; now apply IH].
Qed.

Section Methods.
Variable F : path -> Prop.

Lemma touches_fix_nodejs_main_file (project_dir main_file : string) :
  F [main_file] -> touches_only F (fix_nodejs_main_file project_dir main_file).
Proof. intros Hf. unfold fix_nodejs_main_file. footprint. Qed.

Lemma touches_fix_package_json (project_dir : string) :
  F ["package.json"] -> touches_only F (fix_package_json project_dir).
Proof.
  intros Hf. unfold fix_package_json. footprint.
  now intros I _ s Hs.
Qed.

Lemma touches_fix_nodejs_issues (project_dir : string) :
  F ["package.json"] ->
  (forall n, In n ["app.js"; "server.js"; "index.js"; "main.js"] -> F [n]) ->
  touches_only F (fix_nodejs_issues project_dir).
Proof.
  intros Hm He. unfold fix_nodejs_issues. footprint.
  - now apply touches_fix_package_json.
  - intros _ I HI s Hs.
    destruct (first_existing _ (tree s)) as [main_file|] eqn:E; [|exact Hs].
    apply touches_fix_nodejs_main_file; [|exact HI | exact Hs].
    apply He. exact (first_existing_In _ _ _ E).
Qed.

Lemma touches_fix_django_settings :
  F ["settings.py"] -> touches_only F fix_django_settings.
Proof. intros Hf. unfold fix_django_settings. footprint. Qed.

Lemma touches_fix_python_main_file (main_file : string) (analysis : option analysis) :
  F [main_file] -> F ["settings.py"] ->
  touches_only F (fix_python_main_file main_file analysis).
Proof.
  intros Hf Hs. unfold fix_python_main_file. footprint.
  now apply touches_fix_django_settings.
Qed.

(** the loop of [_fix_python_issues] over the main files *)
Definition python_main_loop (analysis : option analysis) : M unit :=
  for_each python_main_files (fun main_file =>
    present <- exists_ [main_file] ;;
    if present then fix_python_main_file main_file analysis else ret tt).

Lemma touches_python_main_loop (analysis : option analysis) :
  (forall n, In n python_main_files -> F [n]) -> F ["settings.py"] ->
  touches_only F (python_main_loop analysis).
Proof.
  intros Hf Hs. apply touches_for_each. intros main_file Hin. footprint.
  apply touches_fix_python_main_file; [now apply Hf | exact Hs].
Qed.

Lemma touches_fix_python_issues (analysis : option analysis) :
  (forall n, In n python_main_files -> F [n]) -> F ["settings.py"] ->
  touches_only F (fix_python_issues analysis).
Proof.
  intros Hf Hs. unfold fix_python_issues. apply touches_bind.
  - now apply touches_python_main_loop.
  - intros _ I HI s Hi. destruct (negb _); [|exact Hi].
    unfold create_python_run_script.
    apply (touches_write_log F ["run.py"]); [|exact HI | exact Hi].
    apply Hf. cbn. tauto.
Qed.

Lemma touches_fix_php_issues :
  F [".htaccess"] -> touches_only F fix_php_issues.
Proof. intros Hf. unfold fix_php_issues. footprint. Qed.

Lemma touches_fix_file_bindings (project_dir : string) (p : path) :
  F p -> touches_only F (fix_file_bindings project_dir p).
Proof. intros Hf. unfold fix_file_bindings. footprint. Qed.

End Methods.

(** A file that the host rebinding may rewrite: its name has one of the
    five suffixes, and no directory on the way to it is [node_modules],
    [__pycache__] or [.git]. *)
Definition rewritable (p : path) : bool :=
  match rev p with
  | file :: dirs =>
      Str.ends_with_any binding_extensions file && forallb binding_keeps dirs
  | [] => false
  end.

Lemma forallb_rev {A} (f : A -> bool) (l : list A) :
  forallb f l = true -> forallb f (rev l) = true.
Proof.
  rewrite !forallb_forall. intros Hl x Hx. apply Hl. now apply in_rev.
Qed.

Lemma rewritable_file (here : path) (file : string) :
  Str.ends_with_any binding_extensions file = true ->
  forallb binding_keeps here = true ->
  rewritable (here ++ [file])%list = true.
Proof.
  intros Hext Hkeep. unfold rewritable. rewrite rev_app_distr. cbn [rev app].
  now rewrite Hext, (forallb_rev _ _ Hkeep).
Qed.

Lemma touches_fix_port_binding (project_dir : string) :
  touches_only (fun p => rewritable p = true) (fix_port_binding project_dir).
Proof.
  intros I HI s Hs. unfold fix_port_binding.
  refine (touches_for_each _ _ _ _ I HI s Hs).
  intros [here file] Hin.
  destruct (Str.ends_with_any binding_extensions file) eqn:Hext;
    [|apply touches_ret].
  apply touches_attempt, touches_fix_file_bindings.
  apply rewritable_file; [exact Hext|].
  exact (walk_files_kept _ _ _ _ Hin).
Qed.

(** *** The whole call *)

(** the files of the project directory that the stack rules of a call
    with this report may write, besides the entry files *)
Definition stack_targets (analysis : option analysis) : list string :=
  ((if String.eqb (report_primary analysis) "nodejs" then ["package.json"] else [])
   ++ (if String.eqb (report_primary analysis) "php" then [".htaccess"] else []))%list.

(** the files that the three overwriting rules of a call with this report
    write *)
Definition overwrite_targets (analysis : option analysis) : list string :=
  ((match report_environment_files analysis with
    | [] => [".env"]
    | _ :: _ => []
    end)
   ++ (match hardcoded_issues analysis with
       | [] => []
       | _ :: _ => ["DEPLOYMENT_NOTES.md"]
       end)
   ++ (if String.eqb (report_primary analysis) "nodejs"
          || String.eqb (report_primary analysis) "python"
       then ["start.sh"] else []))%list.

Definition rule_targets (analysis : option analysis) : list string :=
  (stack_targets analysis ++ overwrite_targets analysis)%list.

Definition footprint_of (targets : list string) (p : path) : bool :=
  rewritable p
  || match p with
     | [n] => Str.mem n targets
     | _ => false
     end.

Definition in_footprint (analysis : option analysis) (p : path) : bool :=
  footprint_of (rule_targets analysis) p.

Lemma footprint_rewritable (targets : list string) (p : path) :
  rewritable p = true -> footprint_of targets p = true.
Proof. unfold footprint_of. now intros ->. Qed.

Lemma footprint_target (targets : list string) (n : string) :
  In n targets -> footprint_of targets [n] = true.
Proof.
  intros Hin. unfold footprint_of. apply orb_true_iff. right. now apply mem_In.
Qed.

Lemma footprint_incl (small large : list string) (p : path) :
  incl small large -> footprint_of small p = true -> footprint_of large p = true.
Proof.
  intros Hincl. unfold footprint_of. rewrite !orb_true_iff.
  intros [Hr | Ht]; [now left | right].
  destruct p as [|n [|m p]]; try discriminate.
  apply mem_In. apply Hincl. now apply mem_In.
Qed.

Lemma touches_stack_fixes (project_dir : string) (analysis : option analysis) :
  touches_only (fun p => footprint_of (stack_targets analysis) p = true)
    (stack_fixes project_dir analysis).
Proof.
  unfold stack_fixes.
  destruct (String.eqb (report_primary analysis) "nodejs") eqn:Enode.
  - apply touches_fix_nodejs_issues.
    + apply footprint_target. unfold stack_targets. rewrite Enode. now left.
    + intros n Hn. apply footprint_rewritable.
      cbn in Hn. decompose [or] Hn; subst; try reflexivity. contradiction.
  - destruct (String.eqb (report_primary analysis) "python").
    + apply touches_fix_python_issues.
      * intros n Hn. apply footprint_rewritable.
        cbn in Hn. decompose [or] Hn; subst; try reflexivity. contradiction.
      * now apply footprint_rewritable.
    + destruct (String.eqb (report_primary analysis) "php") eqn:Ephp;
        [|apply touches_ret].
      apply touches_fix_php_issues, footprint_target.
      unfold stack_targets. rewrite Enode, Ephp. now left.
Qed.

(** the stack rules and the host rebinding *)
Definition repairs (project_dir : string) (analysis : option analysis) : M unit :=
  stack_fixes project_dir analysis ;; fix_port_binding project_dir.

Lemma touches_repairs (project_dir : string) (analysis : option analysis) :
  touches_only (fun p => footprint_of (stack_targets analysis) p = true)
    (repairs project_dir analysis).
Proof.
  apply touches_bind; [apply touches_stack_fixes | intros _].
  apply (touches_weaken _ _ _ (footprint_rewritable (stack_targets analysis))).
  apply touches_fix_port_binding.
Qed.

Lemma touches_fix_environment_config (analysis : option analysis) :
  touches_only (fun p => footprint_of (overwrite_targets analysis) p = true)
    (fix_environment_config analysis).
Proof.
  unfold fix_environment_config.
  destruct (report_environment_files analysis) eqn:E; [|apply touches_ret].
  apply touches_write_log, footprint_target. unfold overwrite_targets. rewrite E.
  now left.
Qed.

Lemma touches_fix_hardcoded_configs (analysis : option analysis) :
  touches_only (fun p => footprint_of (overwrite_targets analysis) p = true)
    (fix_hardcoded_configs analysis).
Proof.
  unfold fix_hardcoded_configs.
  destruct (hardcoded_issues analysis) eqn:E; [apply touches_ret|].
  apply touches_write_log, footprint_target. unfold overwrite_targets. rewrite E.
  apply in_or_app. right. now left.
Qed.

Lemma touches_create_startup_script (analysis : option analysis) :
  touches_only (fun p => footprint_of (overwrite_targets analysis) p = true)
    (create_startup_script analysis).
Proof.
  assert (Ht : String.eqb (report_primary analysis) "nodejs"
               || String.eqb (report_primary analysis) "python" = true ->
               footprint_of (overwrite_targets analysis) ["start.sh"] = true).
  { intros E. apply footprint_target. unfold overwrite_targets. rewrite E.
    do 2 (apply in_or_app; right). now left. }
  unfold create_startup_script, create_nodejs_startup, create_python_startup.
  destruct (String.eqb (report_primary analysis) "nodejs");
    [now apply touches_write_log, Ht|].
  destruct (String.eqb (report_primary analysis) "python");
    [now apply touches_write_log, Ht | apply touches_ret].
Qed.

Lemma apply_fixes_body_stages (project_dir : string) (analysis : option analysis) :
  apply_fixes_body project_dir analysis
  = (stack_fixes project_dir analysis ;;
     fix_port_binding project_dir ;;
     fix_environment_config analysis ;;
     fix_hardcoded_configs analysis ;;
     create_startup_script analysis ;;
     fun s => (Returns (Nat.ltb 0 (List.length (fixes_applied s))), s)).
Proof. reflexivity. Qed.

Lemma touches_apply_fixes_body (project_dir : string) (analysis : option analysis) :
  touches_only (fun p => in_footprint analysis p = true)
    (apply_fixes_body project_dir analysis).
Proof.
  assert (Hstack : forall p, footprint_of (stack_targets analysis) p = true ->
                             in_footprint analysis p = true).
  { intros p. apply footprint_incl. unfold rule_targets. now apply incl_appl. }
  assert (Hover : forall p, footprint_of (overwrite_targets analysis) p = true ->
                            in_footprint analysis p = true).
  { intros p. apply footprint_incl. unfold rule_targets. now apply incl_appr. }
  unfold apply_fixes_body.
  apply touches_bind;
    [apply (touches_weaken _ _ _ Hstack), touches_stack_fixes | intros _].
  apply touches_bind;
    [apply (touches_weaken _ _ _ (footprint_rewritable (rule_targets analysis))),
       touches_fix_port_binding | intros _].
  apply touches_bind;
    [apply (touches_weaken _ _ _ Hover), touches_fix_environment_config | intros _].
  apply touches_bind;
    [apply (touches_weaken _ _ _ Hover), touches_fix_hardcoded_configs | intros _].
  apply touches_bind;
    [apply (touches_weaken _ _ _ Hover), touches_create_startup_script | intros _].
  now intros I _ s Hs.
Qed.

Lemma tree_after_apply_fixes (project_dir : string) (analysis : option analysis)
    (s : engine) :
  tree (snd (apply_fixes project_dir analysis s))
  = tree (snd (apply_fixes_body project_dir analysis s)).
Proof.
  unfold apply_fixes.
  now destruct (apply_fixes_body project_dir analysis s) as [[b|] s'].
Qed.

(** X8.  Outside its footprint a call of [apply_fixes] changes nothing.  The
    footprint of a call is made of the files that the host rebinding may
    rewrite (a name ending in .py, .js, .php, .rb or .go, below no
    directory named node_modules, __pycache__ or .git) and of the targets
    of the rules that the report triggers: package.json, .htaccess, .env,
    DEPLOYMENT_NOTES.md and start.sh in the project directory.  At any
    other path, what can be read and what kind of entry there is are the
    same before and after the call, whatever the call returns. *)
Theorem apply_fixes_changes_nothing_outside_footprint (project_dir : string)
    (analysis : option analysis) (s : engine) (q : path) :
  in_footprint analysis q = false ->
  let after := tree (snd (apply_fixes project_dir analysis s)) in
  read_at q after = read_at q (tree s) /\ kind_at q after = kind_at q (tree s).
Proof.
  intros Hq after. subst after. rewrite tree_after_apply_fixes.
  apply (touches_apply_fixes_body project_dir analysis
           (fun t => read_at q t = read_at q (tree s)
                     /\ kind_at q t = kind_at q (tree s)));
    [|split; reflexivity].
  intros p c t t' Hp Hw [Hr Hk].
  assert (Hne : q <> p) by (intros ->; congruence).
  rewrite (write_at_read_other _ _ _ _ _ Hw Hne).
  rewrite (write_at_kind_other _ _ _ _ _ Hw Hne). now split.
Qed.

(** X9.  A call of [apply_fixes] removes nothing: every path that names a
    regular file before the call names a regular file after it, and every
    path that names a directory still names a directory. *)
Theorem apply_fixes_removes_nothing (project_dir : string)
    (analysis : option analysis) (s : engine) (q : path) (k : bool) :
  kind_at q (tree s) = Some k ->
  kind_at q (tree (snd (apply_fixes project_dir analysis s))) = Some k.
Proof.
  intros Hk. rewrite tree_after_apply_fixes.
  apply (touches_apply_fixes_body project_dir analysis
           (fun t => kind_at q t = Some k)); [|exact Hk].
  intros p c t t' _ Hw Ht. exact (write_at_kind _ _ _ _ _ _ Hw Ht).
Qed.

(** *** An environment file that is there *)

Lemma lookup_file_filenames (n : string) (es : list (string * node))
    (c : string) (sz : N) :
  lookup n es = Some (File c sz) -> In n (filenames es).
Proof.
  induction es as [|[m x] es IH]; cbn; [discriminate|].
  destruct (String.eqb_spec m n) as [-> | Hne].
  - intros [= ->]. now left.
  - intros Hl. destruct x; [right|]; now apply IH.
Qed.

Lemma top_level_file_walked (keep : string -> bool) (n : string)
    (es : list (string * node)) (c : string) (sz : N) :
  lookup n es = Some (File c sz) -> In ([], n) (walk_files keep (Dir es)).
Proof.
  intros Hl. unfold walk_files. cbn [walk flat_map]. apply in_or_app. left.
  apply in_map. exact (lookup_file_filenames _ _ _ _ Hl).
Qed.

(** X10.  An analyzer lists a regular file [.env] of the project directory among
    the environment files, and the fix engine that is given this report
    leaves the file as it is: the environment rule does not fire, and no
    other rule writes to [.env]. *)
Theorem existing_env_file_survives (project_dir : string)
    (es : list (string * node)) (previous : option analysis)
    (ledger : list string) (c : string) (sz : N) :
  lookup ".env" es = Some (File c sz) ->
  let report := snd (analyze project_dir (Some (Dir es)) previous) in
  let s := {| tree := Dir es; fixes_applied := ledger |} in
  In ".env" (report_environment_files report)
  /\ node_at [".env"] (tree (snd (apply_fixes project_dir report s)))
     = Some (File c sz).
Proof.
  intros Hl report s.
  assert (Hin : In ".env" (report_environment_files report)).
  { subst report. unfold analyze.
    destruct (detect_project_type_dir es) as [pt ->].
    cbn [snd report_environment_files configuration_of analyze_configuration
           environment_files].
    unfold find_environment_files.
    change ".env" with ((fun '(here, f) => rel (here ++ [f])%list) ([], ".env")).
    apply in_map. apply filter_In. split; [|reflexivity].
    exact (top_level_file_walked _ _ _ _ _ Hl). }
  split; [exact Hin|].
  rewrite tree_after_apply_fixes.
  apply (touches_apply_fixes_body project_dir report
           (fun t => node_at [".env"] t = Some (File c sz))).
  - intros p content t t' Hp Hw Ht.
    assert (Hne : p <> [".env"]).
    { intros ->. revert Hp. unfold in_footprint, footprint_of, rule_targets,
        stack_targets, overwrite_targets.
      destruct (report_environment_files report); [destruct Hin|].
      destruct (String.eqb (report_primary report) "nodejs"),
        (String.eqb (report_primary report) "python"),
        (String.eqb (report_primary report) "php"),
        (hardcoded_issues report); discriminate. }
    exact (write_keeps_file _ _ _ _ _ _ _ Ht Hne Hw).
  - cbn. now rewrite Hl.
Qed.

End Footprint.

(** A project whose dependency directory holds a loopback binding, as its
    entry file does. *)
Definition vendored_project : node :=
  Dir [("package.json", fresh_file (sample_dump manifest_started));
       ("app.js", fresh_file "const host = 'localhost';");
       ("node_modules",
        Dir [("dep.js", fresh_file "const host = 'localhost';")])].

Example entry_file_of_vendored_project_rebound :
  let report := first_report "/srv/app" vendored_project in
  read_at ["app.js"] (tree (snd (run_once "/srv/app" report vendored_project)))
  = Some "const host = '0.0.0.0';".
Proof. vm_compute. reflexivity. Qed.

Lemma dependency_of_vendored_project_unchanged :
  let report := first_report "/srv/app" vendored_project in
  let after := tree (snd (apply_fixes "/srv/app" report (init vendored_project))) in
  read_at ["node_modules"; "dep.js"] after
  = read_at ["node_modules"; "dep.js"] vendored_project
  /\ kind_at ["node_modules"; "dep.js"] after
     = kind_at ["node_modules"; "dep.js"] vendored_project.
Proof.
  exact (apply_fixes_changes_nothing_outside_footprint "/srv/app"
           (first_report "/srv/app" vendored_project) (init vendored_project)
           ["node_modules"; "dep.js"] eq_refl).
Defined.

Lemma entry_file_of_flask_project_remains :
  kind_at ["app.py"]
    (tree (snd (apply_fixes "/srv/app" (first_report "/srv/app" flask_project)
                  (init flask_project))))
  = Some true.
Proof.
  exact (apply_fixes_removes_nothing "/srv/app"
           (first_report "/srv/app" flask_project) (init flask_project)
           ["app.py"] true eq_refl).
Defined.

Lemma env_file_of_project_with_env_survives :
  let report := snd (analyze "/srv/app" (Some project_with_env) None) in
  In ".env" (report_environment_files report)
  /\ node_at [".env"]
       (tree (snd (apply_fixes "/srv/app" report (init project_with_env))))
     = Some (File "PORT=8080" 9).
Proof.
  exact (existing_env_file_survives "/srv/app" entries_with_env None []
           "PORT=8080" 9 eq_refl).
Defined.

(** * When [apply_fixes] runs to the end *)

Section Completion.
Context `{Platform}.

(** the project directory is a directory *)
Definition root_is_directory (t : node) : Prop := kind_at [] t = Some false.

(** a directory stands at the path *)
Definition directory_at (p : path) (t : node) : bool :=
  match kind_at p t with
  | Some false => true
  | _ => false
  end.

Lemma root_directory_entries (t : node) :
  root_is_directory t -> exists es, t = Dir es.
Proof. destruct t as [c sz|es]; [discriminate | now exists es]. Qed.

(** In a directory, [open(name, 'w')] raises exactly when the name is that
    of a sub-directory. *)
Lemma write_top_level (n content : string) (es : list (string * node)) :
  write_at [n] content (Dir es) = None <-> directory_at [n] (Dir es) = true.
Proof.
  unfold directory_at, kind_at. cbn [node_at child write_at].
  destruct (update_entry n _ es) as [es'|] eqn:E.
  - apply update_entry_some in E as (x & Ef & _).
    destruct (lookup n es) as [[c sz|sub]|]; cbn in *; split; discriminate.
  - destruct (lookup n es) as [[c sz|sub]|] eqn:El; cbn; split;
      try reflexivity; intros _; exfalso.
    + edestruct (update_entry_succeeds n) as [es' E']; [|rewrite E' in E; discriminate].
      rewrite El. reflexivity.
    + edestruct (update_entry_succeeds n) as [es' E']; [|rewrite E' in E; discriminate].
      rewrite El. reflexivity.
Qed.

Lemma missing_is_no_directory (p : path) (t : node) :
  exists_at p t = false -> directory_at p t = false.
Proof.
  unfold exists_at, directory_at, kind_at.
  destruct (node_at p t); [discriminate | reflexivity].
Qed.

(** A rule [write; log] in a directory: it raises exactly when its target
    is a sub-directory, and it changes the kind of no other path. *)
Lemma write_log_step (n content msg : string) (s : engine) :
  root_is_directory (tree s) ->
  exists s',
    (write [n] content ;; log msg) s
    = (if directory_at [n] (tree s) then Raises else Returns tt, s')
    /\ root_is_directory (tree s')
    /\ forall q, q <> [n] -> kind_at q (tree s') = kind_at q (tree s).
Proof.
  intros Hroot. destruct (root_directory_entries _ Hroot) as [es Et].
  unfold bind, write, log.
  destruct (write_at [n] content (tree s)) as [t'|] eqn:Ew.
  - eexists. split; [|cbn [tree]; split].
    + destruct (directory_at [n] (tree s)) eqn:Ed; [|reflexivity].
      rewrite Et in Ed, Ew. apply (proj2 (write_top_level n content es)) in Ed.
      congruence.
    + exact (write_at_kind _ _ _ _ _ _ Ew Hroot).
    + intros q Hq. exact (write_at_kind_other _ _ _ _ _ Ew Hq).
  - exists s. split; [|split; [exact Hroot | reflexivity]].
    rewrite Et in Ew. apply (proj1 (write_top_level n content es)) in Ew.
    rewrite <- Et in Ew.
    now rewrite Ew.
Qed.

(** *** The stack rules and the host rebinding return *)

Lemma for_each_returns {A} (l : list A) (body : A -> M unit) :
  (forall x s, fst (body x s) = Returns tt) ->
  forall s, fst (for_each l body s) = Returns tt.
Proof.
  intros Hb. induction l as [|x l IH]; intros s; cbn; [reflexivity|].
  unfold bind. specialize (Hb x s).
  destruct (body x s) as [[[]|] s1]; [apply IH | discriminate].
Qed.

Lemma fix_port_binding_returns (project_dir : string) (s : engine) :
  fst (fix_port_binding project_dir s) = Returns tt.
Proof.
  unfold fix_port_binding. apply for_each_returns. intros [here file] s'.
  now destruct (Str.ends_with_any binding_extensions file).
Qed.

Lemma fix_nodejs_issues_returns (project_dir : string) (s : engine) :
  fst (fix_nodejs_issues project_dir s) = Returns tt.
Proof.
  unfold fix_nodejs_issues, bind, exists_.
  destruct (exists_at ["package.json"] (tree s)); unfold attempt, ret;
    cbn [fst snd];
    match goal with
    | |- fst match first_existing ?l ?t with _ => _ end = _ =>
        destruct (first_existing l t)
    end; reflexivity.
Qed.

Lemma python_main_loop_returns (analysis : option analysis) (s : engine) :
  fst (python_main_loop analysis s) = Returns tt.
Proof.
  apply for_each_returns. intros f s'. unfold bind, exists_.
  now destruct (exists_at [f] (tree s')).
Qed.

Lemma fix_python_issues_returns (analysis : option analysis) (s : engine) :
  root_is_directory (tree s) ->
  fst (fix_python_issues analysis s) = Returns tt.
Proof.
  intros Hroot.
  change (fix_python_issues analysis)
    with (python_main_loop analysis ;;
          fun s =>
            if negb (existsb (fun f => exists_at [f] (tree s)) python_main_files)
            then create_python_run_script s
            else (Returns tt, s)).
  unfold bind.
  pose proof (python_main_loop_returns analysis s) as Hloop.
  pose proof (kinds_kept (fun _ => True) (python_main_loop analysis) s [] false
                (touches_python_main_loop _ analysis (fun _ _ => I) I) Hroot)
    as Hdir.
  destruct (python_main_loop analysis s) as [[[]|] s1]; [|discriminate].
  cbn [snd] in Hdir.
  destruct (existsb _ python_main_files) eqn:Ex; [reflexivity|].
  cbn [negb]. unfold create_python_run_script.
  destruct (write_log_step "run.py" Text.run_content "Created Python run script"
              s1 Hdir) as (s' & -> & _).
  cbn [fst]. rewrite missing_is_no_directory; [reflexivity|].
  cbn [existsb] in Ex. repeat (apply orb_false_iff in Ex as [? Ex]). assumption.
Qed.

Lemma fix_php_issues_returns (s : engine) :
  root_is_directory (tree s) -> fst (fix_php_issues s) = Returns tt.
Proof.
  intros Hroot. unfold fix_php_issues. unfold bind at 1. unfold exists_.
  destruct (exists_at [".htaccess"] (tree s)) eqn:Ex; [reflexivity|].
  cbn [negb].
  destruct (write_log_step ".htaccess" Text.htaccess_content
              "Created .htaccess file for PHP application" s Hroot)
    as (s' & -> & _).
  cbn [fst]. now rewrite missing_is_no_directory.
Qed.

Lemma stack_fixes_returns (project_dir : string) (analysis : option analysis)
    (s : engine) :
  root_is_directory (tree s) ->
  fst (stack_fixes project_dir analysis s) = Returns tt.
Proof.
  intros Hroot. unfold stack_fixes.
  destruct (String.eqb _ "nodejs"); [apply fix_nodejs_issues_returns|].
  destruct (String.eqb _ "python"); [now apply fix_python_issues_returns|].
  destruct (String.eqb _ "php"); [now apply fix_php_issues_returns | reflexivity].
Qed.

Lemma repairs_step (project_dir : string) (analysis : option analysis)
    (s : engine) :
  root_is_directory (tree s) ->
  exists s',
    repairs project_dir analysis s = (Returns tt, s')
    /\ root_is_directory (tree s')
    /\ forall n, In n [".env"; "DEPLOYMENT_NOTES.md"; "start.sh"] ->
                 kind_at [n] (tree s') = kind_at [n] (tree s).
Proof.
  intros Hroot.
  pose proof (kinds_kept _ (repairs project_dir analysis) s [] false
                (touches_repairs project_dir analysis) Hroot) as Hdir.
  assert (Hkinds : forall n, In n [".env"; "DEPLOYMENT_NOTES.md"; "start.sh"] ->
            kind_at [n] (tree (snd (repairs project_dir analysis s)))
            = kind_at [n] (tree s)).
  { intros n Hn.
    apply (kinds_outside _ _ _ _ (touches_repairs project_dir analysis)).
    unfold footprint_of, stack_targets.
    cbn in Hn. decompose [or] Hn; subst; try contradiction;
      destruct (String.eqb _ "nodejs"), (String.eqb _ "php"); discriminate. }
  assert (Hret : fst (repairs project_dir analysis s) = Returns tt).
  { unfold repairs, bind.
    pose proof (stack_fixes_returns project_dir analysis s Hroot) as Hs.
    destruct (stack_fixes project_dir analysis s) as [[[]|] s1]; [|discriminate].
    apply fix_port_binding_returns. }
  destruct (repairs project_dir analysis s) as [o s']. cbn [fst snd] in *.
  subst o. now exists s'.
Qed.

(** *** The three overwriting rules *)

(** Started in a directory, the method raises exactly when one of its
    targets is a sub-directory, and it changes the kind of no path but
    its targets. *)
Definition overwrites {A} (m : M A) (targets : list string) : Prop :=
  forall s,
    root_is_directory (tree s) ->
    exists a s',
      m s = (if existsb (fun n => directory_at [n] (tree s)) targets
             then Raises else Returns a, s')
      /\ root_is_directory (tree s')
      /\ forall n, ~ In n targets -> kind_at [n] (tree s') = kind_at [n] (tree s).

Lemma overwrites_skip {A} (a : A) : overwrites (ret a) [].
Proof. intros s Hroot. exists a, s. now repeat split. Qed.

Lemma overwrites_write_log (n content msg : string) :
  overwrites (write [n] content ;; log msg) [n].
Proof.
  intros s Hroot.
  destruct (write_log_step n content msg s Hroot) as (s' & E & Hroot' & Hk).
  exists tt, s'. split; [|split; [exact Hroot'|]].
  - rewrite E. cbn [existsb]. now rewrite orb_false_r.
  - intros m Hm. apply Hk. intros [= ->]. apply Hm. now left.
Qed.

Lemma existsb_same {A} (f g : A -> bool) (l : list A) :
  (forall x, In x l -> f x = g x) -> existsb f l = existsb g l.
Proof.
  induction l as [|x l IH]; intros Hfg; cbn; [reflexivity|].
  rewrite (Hfg x) by now left. rewrite IH; [reflexivity|].
  intros y Hy. apply Hfg. now right.
Qed.

Lemma overwrites_bind {A B} (m : M A) (k : A -> M B) (t1 t2 : list string) :
  overwrites m t1 -> (forall a, overwrites (k a) t2) ->
  (forall n, In n t2 -> ~ In n t1) ->
  overwrites (bind m k) (t1 ++ t2)%list.
Proof.
  intros Hm Hk Hdisjoint s Hroot. unfold bind.
  destruct (Hm s Hroot) as (a & s1 & -> & Hroot1 & Hk1).
  rewrite existsb_app.
  destruct (existsb _ t1).
  - (* the first method raises *)
    destruct (Hk a s Hroot) as (b & _ & _).
    exists b, s1. split; [reflexivity|]. split; [exact Hroot1|].
    intros n Hn. apply Hk1. intros Hin. apply Hn, in_or_app. now left.
  - destruct (Hk a s1 Hroot1) as (b & s2 & -> & Hroot2 & Hk2).
    exists b, s2. cbn [orb]. split; [|split; [exact Hroot2|]].
    + rewrite (existsb_same (fun n => directory_at [n] (tree s1))
                 (fun n => directory_at [n] (tree s)) t2); [reflexivity|].
      intros n Hn. unfold directory_at. now rewrite (Hk1 n (Hdisjoint n Hn)).
    + intros n Hn. rewrite Hk2, Hk1; [reflexivity | |];
        intros Hin; apply Hn, in_or_app; [now left | now right].
Qed.

Definition environment_targets (analysis : option analysis) : list string :=
  match report_environment_files analysis with
  | [] => [".env"]
  | _ :: _ => []
  end.

Definition guide_targets (analysis : option analysis) : list string :=
  match hardcoded_issues analysis with
  | [] => []
  | _ :: _ => ["DEPLOYMENT_NOTES.md"]
  end.

Definition startup_targets (analysis : option analysis) : list string :=
  if String.eqb (report_primary analysis) "nodejs"
     || String.eqb (report_primary analysis) "python"
  then ["start.sh"] else [].

Lemma overwrites_environment (analysis : option analysis) :
  overwrites (fix_environment_config analysis) (environment_targets analysis).
Proof.
  unfold fix_environment_config, environment_targets.
  destruct (report_environment_files analysis);
    [apply overwrites_write_log | apply overwrites_skip].
Qed.

Lemma overwrites_guide (analysis : option analysis) :
  overwrites (fix_hardcoded_configs analysis) (guide_targets analysis).
Proof.
  unfold fix_hardcoded_configs, guide_targets.
  destruct (hardcoded_issues analysis);
    [apply overwrites_skip | apply overwrites_write_log].
Qed.

Lemma overwrites_startup (analysis : option analysis) :
  overwrites (create_startup_script analysis) (startup_targets analysis).
Proof.
  unfold create_startup_script, startup_targets, create_nodejs_startup,
    create_python_startup.
  destruct (String.eqb _ "nodejs"); [apply overwrites_write_log|].
  destruct (String.eqb _ "python");
    [apply overwrites_write_log | apply overwrites_skip].
Qed.

(** the three rules and the returned value *)
Definition overwriting_rules (analysis : option analysis) : M bool :=
  fix_environment_config analysis ;;
  fix_hardcoded_configs analysis ;;
  create_startup_script analysis ;;
  fun s => (Returns (Nat.ltb 0 (List.length (fixes_applied s))), s).

Lemma overwrites_rules (analysis : option analysis) :
  overwrites (overwriting_rules analysis) (overwrite_targets analysis).
Proof.
  assert (Hfin : overwrites
                   (fun s => (Returns (Nat.ltb 0 (List.length (fixes_applied s))), s))
                   []).
  { intros s Hroot. eexists _, s. now repeat split. }
  replace (overwrite_targets analysis)
    with (environment_targets analysis
          ++ guide_targets analysis ++ startup_targets analysis ++ [])%list
    by (unfold overwrite_targets; now rewrite app_nil_r).
  unfold overwriting_rules.
  apply overwrites_bind; [apply overwrites_environment | intros _ |].
  - apply overwrites_bind; [apply overwrites_guide | intros _ |].
    + apply overwrites_bind; [apply overwrites_startup | intros _; exact Hfin |].
      intros n [].
    + unfold guide_targets, startup_targets. intros n Hn.
      rewrite app_nil_r in Hn.
      destruct (hardcoded_issues analysis); [intros []|].
      destruct (_ || _); [|destruct Hn].
      destruct Hn as [<- | []]. intros [[=] | []].
  - unfold environment_targets, guide_targets, startup_targets. intros n Hn.
    rewrite app_nil_r in Hn.
    destruct (report_environment_files analysis); [|intros []].
    intros [<- | []].
    destruct (hardcoded_issues analysis), (_ || _); cbn in Hn;
      decompose [or] Hn; try discriminate; contradiction.
Qed.

Lemma apply_fixes_body_after_repairs (project_dir : string)
    (analysis : option analysis) (s : engine) :
  apply_fixes_body project_dir analysis s
  = (repairs project_dir analysis ;; overwriting_rules analysis) s.
Proof.
  unfold apply_fixes_body, repairs, overwriting_rules, bind.
  destruct (stack_fixes project_dir analysis s) as [[[]|] s1]; [|reflexivity].
  now destruct (fix_port_binding project_dir s1) as [[[]|] s2].
Qed.

(** X11.  Started on a project directory, the [try] block of [apply_fixes] runs
    to its end unless one of the three overwriting rules that the report
    triggers finds a directory where it wants to write its file: [.env]
    when the report lists no environment file, [DEPLOYMENT_NOTES.md] when it
    has a hardcoded_config issue, [start.sh] when its primary stack is
    nodejs or python.  The stack rules and the host rebinding never end
    the call. *)
Theorem apply_fixes_ends_unless_target_is_directory (project_dir : string)
    (analysis : option analysis) (s : engine) :
  root_is_directory (tree s) ->
  completes project_dir analysis s
  = negb (existsb (fun n => directory_at [n] (tree s)) (overwrite_targets analysis)).
Proof.
  intros Hroot. unfold completes. rewrite apply_fixes_body_after_repairs.
  unfold bind at 1.
  destruct (repairs_step project_dir analysis s Hroot) as (s1 & -> & Hroot1 & Hk1).
  destruct (overwrites_rules analysis s1 Hroot1) as (b & s2 & -> & _).
  rewrite (existsb_same (fun n => directory_at [n] (tree s1))
             (fun n => directory_at [n] (tree s)) (overwrite_targets analysis)).
  - now destruct (existsb _ _).
  - intros n Hn. unfold directory_at. rewrite Hk1; [reflexivity|].
    revert Hn. unfold overwrite_targets.
    destruct (report_environment_files analysis), (hardcoded_issues analysis),
      (_ || _); cbn; tauto.
Qed.

End Completion.

Lemma flask_project_with_venv_does_not_end :
  completes "/srv/app" (first_report "/srv/app" venv_project) (init venv_project)
  = negb (existsb (fun n => directory_at [n] venv_project)
            (overwrite_targets (first_report "/srv/app" venv_project))).
Proof.
  exact (apply_fixes_ends_unless_target_is_directory "/srv/app"
           (first_report "/srv/app" venv_project) (init venv_project) eq_refl).
Defined.

(** * Substitutions that change nothing, and substitutions that keep the port *)

Section HostFrame.

Lemma starts_with_refl (p : string) : Str.starts_with p p = true.
Proof. induction p as [|c p IH]; cbn; [reflexivity|]. now rewrite Ascii.eqb_refl. Qed.

Lemma contains_refl (p : string) : Str.contains p p = true.
Proof. destruct p; cbn; [reflexivity|]. now rewrite Ascii.eqb_refl, starts_with_refl. Qed.


Lemma contains_tail (p : string) (c : ascii) (s : string) :
  Str.contains p (String c s) = false ->
  Str.starts_with p (String c s) = false /\ Str.contains p s = false.
Proof. cbn [Str.contains]. intros E. now apply orb_false_iff in E. Qed.

Lemma contains_app_none_l (p a b : string) :
  Str.contains p (a ++ b) = false -> Str.contains p a = false.
Proof.
  intros E. destruct (Str.contains p a) eqn:Ea; [|reflexivity].
  now rewrite (contains_app_l _ _ b Ea) in E.
Qed.

Lemma contains_app_none_r (p a b : string) :
  Str.contains p (a ++ b) = false -> Str.contains p b = false.
Proof.
  intros E. destruct (Str.contains p b) eqn:Eb; [|reflexivity].
  now rewrite (contains_app_r _ a _ Eb) in E.
Qed.

(** [s.replace(old, new)] is [s] when [old] does not occur in [s]. *)
Lemma replace_absent (old new s : string) :
  Str.contains old s = false -> Str.replace old new s = s.
Proof.
  unfold Str.replace. induction s as [|c s IH]; intros E; [reflexivity|].
  apply contains_tail in E as [Es Ec]. cbn [Str.replace_go].
  rewrite Es. now rewrite IH.
Qed.

(** What the scanners leave is a suffix of what they were given. *)
Lemma lit_ci_consumes (p s r : string) :
  Re.lit_ci p s = Some r ->
  exists w, s = w ++ r /\ String.length w = String.length p.
Proof.
  revert s. induction p as [|a p IH]; intros s; cbn.
  - intros [= ->]. now exists "".
  - destruct s as [|b s]; [discriminate|].
    destruct (Ascii.eqb _ _); [|discriminate].
    intros E. destruct (IH _ E) as (w & -> & Hw).
    exists (String b w). cbn. now rewrite Hw.
Qed.

Lemma star_consumes (cls : ascii -> bool) (s : string) :
  exists w, s = w ++ Re.star cls s.
Proof.
  induction s as [|c s [w IH]]; cbn; [now exists ""|].
  destruct (cls c); [|now exists ""].
  exists (String c w). cbn. now rewrite <- IH.
Qed.

Lemma one_consumes (cls : ascii -> bool) (s r : string) :
  Re.one cls s = Some r -> exists w, s = w ++ r.
Proof.
  destruct s as [|c s]; cbn; [discriminate|].
  destruct (cls c); [|discriminate]. intros [= ->].
  now exists (String c "").
Qed.

Lemma opt_consumes (cls : ascii -> bool) (s : string) :
  exists w, s = w ++ Re.opt cls s.
Proof.
  destruct s as [|c s]; cbn; [now exists ""|].
  destruct (cls c); [now exists (String c "") | now exists ""].
Qed.

Lemma host_context_end_consumes (kw old s rest : string) :
  Re.host_context_end kw old s = Some rest ->
  exists w, s = w ++ rest /\ String.length kw <= String.length w.
Proof.
  unfold Re.host_context_end, Re.and_then.
  destruct (Re.lit_ci kw s) as [r1|] eqn:E1; [|discriminate].
  destruct (Re.one Re.is_assign (Re.star Re.is_space r1)) as [r2|] eqn:E2;
    [|discriminate].
  destruct (Re.lit_ci old (Re.opt Re.is_quote (Re.star Re.is_space r2)))
    as [r3|] eqn:E3; [|discriminate].
  intros [= <-].
  apply lit_ci_consumes in E1 as (w1 & -> & H1).
  destruct (star_consumes Re.is_space r1) as [w2 H2].
  apply one_consumes in E2 as (w3 & H3).
  destruct (star_consumes Re.is_space r2) as [w4 H4].
  destruct (opt_consumes Re.is_quote (Re.star Re.is_space r2)) as [w5 H5].
  apply lit_ci_consumes in E3 as (w6 & H6 & _).
  destruct (opt_consumes Re.is_quote r3) as [w7 H7].
  exists (w1 ++ w2 ++ w3 ++ w4 ++ w5 ++ w6 ++ w7). split.
  - rewrite H2 at 1. rewrite H3 at 1. rewrite H4 at 1. rewrite H5 at 1.
    rewrite H6 at 1. rewrite H7 at 1. now rewrite !append_assoc.
  - rewrite length_append. lia.
Qed.

Lemma take_length_app (w rest : string) :
  Str.take (String.length w) (w ++ rest) = w.
Proof.
  induction w as [|c w IH]; cbn; [now destruct rest | now rewrite IH].
Qed.

Lemma matched_prefix (w rest : string) : Re.matched (w ++ rest) rest = w.
Proof.
  unfold Re.matched. rewrite length_append.
  replace (String.length w + String.length rest - String.length rest)
    with (String.length w) by lia.
  apply take_length_app.
Qed.

(** A substitution whose replacement is the matched text is the
    identity. *)
Lemma sub_identity (m : string -> option (string * string)) (good : string -> Prop) :
  (forall c s, good (String c s) -> good s) ->
  (forall s r rest,
     good s -> m s = Some (r, rest) ->
     exists c w, r = String c w /\ s = r ++ rest /\ good rest) ->
  forall s, good s -> Re.sub m s = s.
Proof.
  intros Htail Hm s. unfold Re.sub.
  remember (String.length s) as n eqn:Hn.
  assert (Hle : String.length s <= n) by lia. clear Hn.
  revert s Hle. induction n as [|n IH]; intros s Hle Hs.
  - destruct s; [reflexivity | cbn in Hle; lia].
  - destruct s as [|c s]; [reflexivity|]. cbn [Re.sub_go].
    destruct (m (String c s)) as [[r rest]|] eqn:E.
    + destruct (Hm _ _ _ Hs E) as (c' & w & -> & Hsplit & Hrest).
      cbn in Hsplit. injection Hsplit as -> ->.
      rewrite length_append.
      replace (String.length w + String.length rest - String.length rest)
        with (String.length w) by lia.
      rewrite sub_go_skip. cbn. rewrite IH; [reflexivity| |exact Hrest].
      cbn in Hle. rewrite length_append in Hle. lia.
    + rewrite IH; [reflexivity | cbn in Hle; lia | exact (Htail _ _ Hs)].
Qed.

Lemma rebind_without_literal (old new content kw : string) :
  kw <> "" -> Str.contains old content = false ->
  rebind old new content kw = content.
Proof.
  intros Hkw Hc. unfold rebind.
  destruct (Re.search _ content); [|reflexivity].
  apply (sub_identity _ (fun s => Str.contains old s = false)); [| |exact Hc].
  - intros c s E. now apply contains_tail in E.
  - intros s r rest Hs. unfold Re.host_context, Re.and_then.
    destruct (Re.host_context_end kw old s) as [rest'|] eqn:E; [|discriminate].
    intros [= <- <-].
    apply host_context_end_consumes in E as (w & -> & Hw).
    rewrite matched_prefix.
    rewrite replace_absent by exact (contains_app_none_l _ _ _ Hs).
    destruct w as [|c w].
    + destruct kw; [contradiction | cbn in Hw; lia].
    + exists c, w. repeat split. exact (contains_app_none_r _ _ _ Hs).
Qed.

(** X14.  The host rebinding changes no text that holds neither [localhost] nor
    [127.0.0.1] in exactly this spelling: whatever the search under
    [re.IGNORECASE] finds, [str.replace] puts back unchanged. *)
Theorem host_rebinding_needs_loopback_literal (content : string) :
  Str.contains "localhost" content = false ->
  Str.contains "127.0.0.1" content = false ->
  fix_bindings content = content.
Proof.
  intros Hl Hi.
  assert (Hpass : forall old new,
            Str.contains old content = false ->
            fold_left (rebind old new) host_keywords content = content).
  { intros old new Hc. unfold host_keywords. cbn [fold_left].
    rewrite (rebind_without_literal old new content "host")
      by (discriminate || exact Hc).
    rewrite (rebind_without_literal old new content "bind")
      by (discriminate || exact Hc).
    now rewrite (rebind_without_literal old new content "listen")
      by (discriminate || exact Hc). }
  unfold fix_bindings, problematic_patterns. cbn [fold_left].
  rewrite (Hpass "localhost" "0.0.0.0" Hl).
  exact (Hpass "127.0.0.1" "0.0.0.0" Hi).
Qed.

End HostFrame.

(** assignments whose loopback literals are spelled otherwise *)
Definition other_spellings : string :=
  Str.q "HOST = ~LocalHost~; bind: 127.000.0.1".

Lemma other_spellings_unchanged : fix_bindings other_spellings = other_spellings.
Proof.
  exact (host_rebinding_needs_loopback_literal other_spellings eq_refl eq_refl).
Defined.

(** ** A listen call with a port number *)

Section ListenLiteral.

(** every character of the text is in the class *)
Fixpoint every (cls : ascii -> bool) (s : string) : bool :=
  match s with
  | EmptyString => true
  | String c s' => cls c && every cls s'
  end.

(** the text does not go on with a character of the class *)
Definition starts_outside (cls : ascii -> bool) (s : string) : bool :=
  match s with
  | EmptyString => true
  | String c _ => negb (cls c)
  end.

Lemma star_over (cls : ascii -> bool) (ws rest : string) :
  every cls ws = true -> starts_outside cls rest = true ->
  Re.star cls (ws ++ rest) = rest.
Proof.
  intros Hws Hrest. induction ws as [|c ws IH]; cbn in *.
  - destruct rest as [|x rest]; [reflexivity|]. cbn in Hrest |- *.
    apply negb_true_iff in Hrest. now rewrite Hrest.
  - apply andb_true_iff in Hws as [-> Hws]. now apply IH.
Qed.

Lemma run_over (cls : ascii -> bool) (d rest : string) :
  every cls d = true -> starts_outside cls rest = true ->
  Re.run cls (d ++ rest) = (d, rest).
Proof.
  intros Hd Hrest. induction d as [|c d IH]; cbn in *.
  - destruct rest as [|x rest]; [reflexivity|]. cbn in Hrest |- *.
    apply negb_true_iff in Hrest. now rewrite Hrest.
  - apply andb_true_iff in Hd as [-> Hd]. now rewrite IH.
Qed.

Lemma digit_is_no_space (c : ascii) :
  Re.is_digit c = true -> Re.is_space c = false.
Proof.
  unfold Re.is_digit, Re.is_space, Str.in_range.
  generalize (Str.code c). intros n Hd.
  apply andb_true_iff in Hd as [H1 H2]. apply N.leb_le in H1, H2.
  destruct (N.leb_spec 9 n), (N.leb_spec n 13), (N.leb_spec 28 n),
    (N.leb_spec n 32), (N.eqb_spec n 133), (N.eqb_spec n 160);
    cbn; try reflexivity; lia.
Qed.

Lemma space_is_no_digit (c : ascii) :
  Re.is_space c = true -> Re.is_digit c = false.
Proof.
  intros Hs. destruct (Re.is_digit c) eqn:Hd; [|reflexivity].
  apply digit_is_no_space in Hd. congruence.
Qed.

(** a listen call whose argument is a port number, with white space
    around the number *)
Definition listen_call (before port after : string) : string :=
  ".listen(" ++ before ++ port ++ after ++ ")".

Variables before port after : string.
Hypothesis before_blank : every Re.is_space before = true.
Hypothesis port_digits : every Re.is_digit port = true.
Hypothesis port_given : port <> "".
Hypothesis after_blank : every Re.is_space after = true.

Lemma listen_bare_at_call (post : string) :
  Re.listen_bare (listen_call before port after ++ post)
  = Some (Re.listen_repl port, post).
Proof.
  unfold listen_call. rewrite !append_assoc.
  unfold Re.listen_bare.
  change (Re.lit ".listen(" (".listen(" ++ before ++ port ++ after ++ ")" ++ post))
    with (Some (before ++ port ++ after ++ ")" ++ post)).
  cbn [Re.and_then].
  rewrite star_over; [|exact before_blank|].
  - unfold Re.plus. rewrite run_over; [|exact port_digits|].
    + destruct port as [|c d] eqn:Ep; [contradiction|]. rewrite <- Ep.
      replace (match port with
               | "" => None
               | String _ _ => Some (port, after ++ ")" ++ post)
               end) with (Some (port, after ++ ")" ++ post))
        by now rewrite Ep.
      cbn [Re.and_then]. now rewrite star_over.
    + destruct after as [|c a]; [reflexivity|]. cbn in *.
      apply andb_true_iff in after_blank as [Hc _].
      now rewrite (space_is_no_digit _ Hc).
  - destruct port as [|c d]; [contradiction|]. cbn in *.
    apply andb_true_iff in port_digits as [Hc _].
    now rewrite (digit_is_no_space _ Hc).
Qed.

Lemma sub_at_head_match (m : string -> option (string * string))
    (w post r : string) :
  w <> "" -> m (w ++ post) = Some (r, post) ->
  Re.sub m (w ++ post) = r ++ Re.sub m post.
Proof.
  destruct w as [|c w]; [contradiction|]. intros _. apply sub_at_match.
Qed.

(** X15.  A listen call whose argument is a number is rewritten, wherever it
    stands in the file, into a call that reads the port from the
    environment, keeps the number as the fallback and binds to all
    interfaces.  The text before and the text behind the call are
    rewritten in the same way. *)
Theorem numeric_listen_call_keeps_port (pre post : string) :
  rewrite_listen (pre ++ listen_call before port after ++ post)
  = Re.sub Re.listen_bare pre
    ++ ".listen(process.env.PORT || " ++ port ++ Str.q ", ~0.0.0.0~)"
    ++ Re.sub Re.listen_bare post.
Proof.
  unfold rewrite_listen.
  pose proof (listen_bare_at_call post) as Hm.
  rewrite search_app_r by exact (search_at_match _ _ _ Hm).
  rewrite sub_app.
  - f_equal. rewrite sub_at_head_match with (r := Re.listen_repl port);
      [|discriminate | exact Hm].
    unfold Re.listen_repl. now rewrite !append_assoc.
  - unfold listen_call. rewrite !append_assoc.
    exact (listen_bare_stops ("isten(" ++ before ++ port ++ after ++ ")" ++ post)).
Qed.

End ListenLiteral.

Lemma listen_call_on_port_8080 :
  rewrite_listen ("server" ++ listen_call " " "8080" "" ++ ";")
  = Re.sub Re.listen_bare "server"
    ++ ".listen(process.env.PORT || " ++ "8080" ++ Str.q ", ~0.0.0.0~)"
    ++ Re.sub Re.listen_bare ";".
Proof.
  apply (numeric_listen_call_keeps_port " " "8080" "" eq_refl eq_refl);
    [discriminate | reflexivity].
Defined.

(** * The content that [_fix_python_main_file] leaves in a main file *)

Section PythonMainContent.

Definition newline : string := String "010" EmptyString.

(** the Flask branch: the loop over [run_patterns], then the import *)
Definition flask_content (content : string) : string :=
  let content := fst (rewrite_flask_run content) in
  if needs_os_import content then "import os" ++ newline ++ content else content.

(** the FastAPI branch *)
Definition fastapi_content (content : string) : string :=
  let content :=
    if Str.contains "uvicorn.run(" content && Re.search Re.uvicorn_run content
    then Re.sub Re.uvicorn_run content
    else content in
  if needs_os_import content then "import os" ++ newline ++ content else content.

Definition framework_content (frameworks : list string) (content : string)
  : string :=
  if Str.mem "flask" frameworks then flask_content content
  else if Str.mem "django" frameworks then content
  else if Str.mem "fastapi" frameworks then fastapi_content content
  else content.

(** the content at the comparison with [original_content] *)
Definition python_main_content (frameworks : list string) (content : string)
  : string :=
  let content := framework_content frameworks content in
  if needs_main_block content then content ++ Text.python_main_block else content.

(** *** The method writes this content *)

Lemma read_at_file (p : path) (t : node) (c : string) :
  read_at p t = Some c -> exists sz, node_at p t = Some (File c sz).
Proof.
  unfold read_at. destruct (node_at p t) as [[c' sz|es]|]; try discriminate.
  intros [= ->]. now exists sz.
Qed.

Lemma file_read (p : path) (t : node) (c : string) (sz : N) :
  node_at p t = Some (File c sz) -> read_at p t = Some c.
Proof. unfold read_at. now intros ->. Qed.

Variable main_file : string.
Hypothesis main_file_not_settings : main_file <> "settings.py".

Lemma django_settings_keep_main_file (s : engine) (c : string) (sz : N) :
  node_at [main_file] (tree s) = Some (File c sz) ->
  node_at [main_file] (tree (snd (fix_django_settings s))) = Some (File c sz).
Proof.
  intros Hn.
  apply (touches_fix_django_settings (fun p => p = ["settings.py"]) eq_refl
           (fun t => node_at [main_file] t = Some (File c sz))); [|exact Hn].
  intros p content t t' -> Hw Ht.
  refine (write_keeps_file _ _ _ _ _ _ _ Ht _ Hw).
  intros [= E]. now apply main_file_not_settings.
Qed.

Lemma fix_python_main_file_content (analysis : option analysis) (s : engine)
    (c : string) (sz : N) :
  node_at [main_file] (tree s) = Some (File c sz) ->
  read_at [main_file] (tree (snd (fix_python_main_file main_file analysis s)))
  = Some (python_main_content (report_frameworks analysis) c).
Proof.
  intros Hn. unfold fix_python_main_file, attempt. cbn [snd].
  unfold bind at 1. unfold read. rewrite (file_read _ _ _ _ Hn).
  unfold python_main_content, framework_content.
  set (fw := report_frameworks analysis).
  (* the branch of the framework *)
  unfold bind at 1.
  match goal with
  | |- context [match ?branch s with _ => _ end] =>
      assert (Hb : exists s1,
                branch s = (Returns (framework_content fw c), s1)
                /\ node_at [main_file] (tree s1) = Some (File c sz))
  end.
  { unfold framework_content. destruct (Str.mem "flask" fw).
    - unfold flask_content. destruct (rewrite_flask_run c) as [c1 found].
      cbn [fst]. unfold bind, log, ret.
      destruct found, (needs_os_import c1); eexists; split; try reflexivity;
        exact Hn.
    - destruct (Str.mem "django" fw).
      + unfold bind, exists_, ret.
        destruct (exists_at ["settings.py"] (tree s)).
        * pose proof (django_settings_keep_main_file s c sz Hn) as Hk.
          unfold fix_django_settings, attempt in *. cbn [snd] in Hk.
          eexists. split; [reflexivity | exact Hk].
        * eexists. split; [reflexivity | exact Hn].
      + destruct (Str.mem "fastapi" fw).
        * unfold fastapi_content, bind, log, ret.
          destruct (Str.contains "uvicorn.run(" c && Re.search Re.uvicorn_run c);
            eexists; split; try reflexivity; exact Hn.
        * unfold ret. eexists. split; [reflexivity | exact Hn]. }
  destruct Hb as (s1 & -> & Hn1).
  fold (framework_content fw c). set (c1 := framework_content fw c).
  unfold bind at 1.
  destruct (needs_main_block c1).
  - unfold bind at 1. unfold log at 1. unfold ret at 1.
    destruct (negb (String.eqb (c1 ++ Text.python_main_block) c)) eqn:Ene.
    + unfold write. cbn [tree].
      destruct (write_over_file main_file (c1 ++ Text.python_main_block) c sz
                  (tree s1) Hn1) as (t' & -> & Hn').
      cbn [snd tree]. exact (file_read _ _ _ _ Hn').
    + apply negb_false_iff, String.eqb_eq in Ene. rewrite Ene.
      unfold ret. cbn [snd tree]. exact (file_read _ _ _ _ Hn1).
  - unfold ret at 1.
    destruct (negb (String.eqb c1 c)) eqn:Ene.
    + unfold write.
      destruct (write_over_file main_file c1 c sz (tree s1) Hn1)
        as (t' & -> & Hn').
      cbn [snd tree]. exact (file_read _ _ _ _ Hn').
    + apply negb_false_iff, String.eqb_eq in Ene. rewrite Ene.
      unfold ret. cbn [snd]. exact (file_read _ _ _ _ Hn1).
Qed.

End PythonMainContent.

Section PythonMainProperties.

(** *** The import *)

Lemma import_prefixed (content : string) :
  needs_os_import ("import os" ++ newline ++ content) = false.
Proof.
  unfold needs_os_import.
  replace (Str.contains "import os" ("import os" ++ newline ++ content))
    with true; [apply andb_false_r|].
  symmetry. rewrite <- append_assoc. now apply contains_app_l.
Qed.

Lemma import_in_block (content : string) :
  needs_os_import (content ++ Text.python_main_block) = false.
Proof.
  unfold needs_os_import.
  replace (Str.contains "import os" (content ++ Text.python_main_block))
    with true; [apply andb_false_r|].
  symmetry. now apply contains_app_r.
Qed.

Lemma flask_content_imports (content : string) :
  needs_os_import (flask_content content) = false.
Proof.
  unfold flask_content.
  destruct (needs_os_import (fst (rewrite_flask_run content))) eqn:E;
    [apply import_prefixed | exact E].
Qed.

Lemma fastapi_content_imports (content : string) :
  needs_os_import (fastapi_content content) = false.
Proof.
  unfold fastapi_content.
  destruct (Str.contains "uvicorn.run(" content && Re.search Re.uvicorn_run content).
  - destruct (needs_os_import (Re.sub Re.uvicorn_run content)) eqn:E;
      [apply import_prefixed | exact E].
  - destruct (needs_os_import content) eqn:E; [apply import_prefixed | exact E].
Qed.

Lemma changed_content_imports (frameworks : list string) (content : string) :
  python_main_content frameworks content <> content ->
  needs_os_import (python_main_content frameworks content) = false.
Proof.
  unfold python_main_content.
  destruct (needs_main_block (framework_content frameworks content));
    [intros _; apply import_in_block|].
  unfold framework_content.
  destruct (Str.mem "flask" frameworks); [intros _; apply flask_content_imports|].
  destruct (Str.mem "django" frameworks); [congruence|].
  destruct (Str.mem "fastapi" frameworks);
    [intros _; apply fastapi_content_imports | congruence].
Qed.

(** *** The start-up block and its guard *)

(** the character occurs nowhere in the text *)
Definition lacks (x : ascii) (p : string) : bool :=
  every (fun c => negb (Ascii.eqb c x)) p.

Lemma starts_with_across (p a : string) (x : ascii) (b : string) :
  lacks x p = true -> Str.starts_with p a = false ->
  Str.starts_with p (a ++ String x b) = false.
Proof.
  revert a. induction p as [|y p IH]; intros a Hp Ha; [discriminate|].
  cbn in Hp. apply andb_true_iff in Hp as [Hy Hp].
  destruct a as [|c a]; cbn in *.
  - apply negb_true_iff in Hy. now rewrite Hy.
  - destruct (Ascii.eqb y c); [|reflexivity]. cbn in *. now apply IH.
Qed.

(** A text that occurs neither in [a] nor in [b] does not occur in
    [a ++ b] when [b] begins with a character that the text lacks. *)
Lemma contains_across (p a : string) (x : ascii) (b : string) :
  lacks x p = true ->
  Str.contains p a = false -> Str.contains p (String x b) = false ->
  Str.contains p (a ++ String x b) = false.
Proof.
  intros Hp Ha Hb. induction a as [|c a IH]; [exact Hb|].
  apply contains_tail in Ha as [Hs Ha].
  change ((String c a) ++ String x b) with (String c (a ++ String x b)).
  cbn [Str.contains]. rewrite (IH Ha), orb_false_r.
  exact (starts_with_across p (String c a) x b Hp Hs).
Qed.

Lemma block_keeps_guard (content : string) :
  needs_main_block content = true ->
  needs_main_block (content ++ Text.python_main_block) = true.
Proof.
  unfold needs_main_block. rewrite !andb_true_iff, !negb_true_iff.
  intros [[[Hname Hrun] Huvicorn] Hserve].
  repeat split.
  - now apply contains_app_l.
  - now apply contains_across.
  - now apply contains_across.
  - now apply contains_across.
Qed.

Lemma import_keeps_guard (content : string) :
  needs_main_block ("import os" ++ newline ++ content) = needs_main_block content.
Proof. reflexivity. Qed.

Lemma lit_starts_with (p s r : string) :
  Re.lit p s = Some r -> Str.starts_with p s = true.
Proof.
  revert s. induction p as [|a p IH]; intros s; cbn; [reflexivity|].
  destruct s as [|b s]; [discriminate|].
  destruct (Ascii.eqb a b); [apply IH | discriminate].
Qed.

Lemma starts_with_shorter (p q s : string) :
  Str.starts_with (p ++ q) s = true -> Str.starts_with p s = true.
Proof.
  revert s. induction p as [|a p IH]; intros s; cbn; [reflexivity|].
  destruct s as [|b s]; [discriminate|].
  destruct (Ascii.eqb a b); [apply IH | discriminate].
Qed.

(** A pattern that begins with a literal is found only where the literal
    occurs. *)
Lemma search_needs_literal (m : string -> option (string * string)) (p : string) :
  (forall t x, m t = Some x -> Str.starts_with p t = true) ->
  forall s, Str.contains p s = false -> Re.search m s = false.
Proof.
  intros Hm. induction s as [|c s IH]; intros Hc.
  - cbn. destruct (m "") as [x|] eqn:E; [|reflexivity].
    apply Hm in E. cbn in Hc. rewrite orb_false_r in Hc. congruence.
  - apply contains_tail in Hc as [Hs Hc]. cbn [Re.search].
    destruct (m (String c s)) as [x|] eqn:E; [|now apply IH].
    apply Hm in E. congruence.
Qed.

Lemma flask_patterns_need_call (content : string) :
  Str.contains "app.run(" content = false ->
  rewrite_flask_run content = (content, false).
Proof.
  intros Hc. unfold rewrite_flask_run.
  rewrite (search_needs_literal Re.flask_run "app.run(");
    [|intros t x | exact Hc].
  - rewrite (search_needs_literal Re.flask_debug "app.run(");
      [|intros t x | exact Hc].
    + rewrite (search_needs_literal Re.flask_localhost "app.run(");
        [reflexivity | intros t x | exact Hc].
      unfold Re.flask_localhost, Re.and_then.
      destruct (Re.lit "app.run(host=" t) eqn:E; [|discriminate]. intros _.
      exact (starts_with_shorter "app.run(" "host=" t (lit_starts_with _ _ _ E)).
    + unfold Re.flask_debug, Re.and_then.
      destruct (Re.lit "app.run(debug=True)" t) eqn:E; [|discriminate]. intros _.
      exact (starts_with_shorter "app.run(" "debug=True)" t (lit_starts_with _ _ _ E)).
  - unfold Re.flask_run, Re.and_then.
    destruct (Re.lit "app.run()" t) eqn:E; [|discriminate]. intros _.
    exact (starts_with_shorter "app.run(" ")" t (lit_starts_with _ _ _ E)).
Qed.

(** Under the guard of the block, the framework branch can only put the
    import in front. *)
Lemma framework_content_under_guard (frameworks : list string) (content : string) :
  needs_main_block content = true ->
  framework_content frameworks content = content
  \/ framework_content frameworks content = "import os" ++ newline ++ content.
Proof.
  intros Hg. unfold needs_main_block in Hg.
  rewrite !andb_true_iff, !negb_true_iff in Hg.
  destruct Hg as [[[_ Hrun] Huvicorn] _].
  unfold framework_content.
  destruct (Str.mem "flask" frameworks).
  - unfold flask_content. rewrite (flask_patterns_need_call _ Hrun). cbn [fst].
    destruct (needs_os_import content); [now right | now left].
  - destruct (Str.mem "django" frameworks); [now left|].
    destruct (Str.mem "fastapi" frameworks); [|now left].
    unfold fastapi_content. rewrite Huvicorn. cbn [andb].
    destruct (needs_os_import content); [now right | now left].
Qed.

Lemma framework_content_keeps_guard (frameworks : list string) (content : string) :
  needs_main_block content = true ->
  needs_main_block (framework_content frameworks content) = true.
Proof.
  intros Hg.
  destruct (framework_content_under_guard frameworks content Hg) as [-> | ->];
    [exact Hg | now rewrite import_keeps_guard].
Qed.

Lemma framework_content_after_block (frameworks : list string) (content : string) :
  needs_main_block content = true ->
  framework_content frameworks (content ++ Text.python_main_block)
  = content ++ Text.python_main_block.
Proof.
  intros Hg. apply block_keeps_guard in Hg.
  destruct (framework_content_under_guard frameworks _ Hg) as [E | E];
    [exact E|].
  revert E. unfold framework_content.
  pose proof Hg as Hg'. unfold needs_main_block in Hg'.
  rewrite !andb_true_iff, !negb_true_iff in Hg'.
  destruct Hg' as [[[_ Hrun] Huvicorn] _].
  destruct (Str.mem "flask" frameworks).
  - unfold flask_content. rewrite (flask_patterns_need_call _ Hrun). cbn [fst].
    now rewrite import_in_block.
  - destruct (Str.mem "django" frameworks); [reflexivity|].
    destruct (Str.mem "fastapi" frameworks); [|reflexivity].
    unfold fastapi_content. rewrite Huvicorn. cbn [andb].
    now rewrite import_in_block.
Qed.

Lemma block_appended_again (frameworks : list string) (content : string) :
  needs_main_block content = true ->
  exists once,
    python_main_content frameworks content = once ++ Text.python_main_block
    /\ python_main_content frameworks (once ++ Text.python_main_block)
       = (once ++ Text.python_main_block) ++ Text.python_main_block.
Proof.
  intros Hg. exists (framework_content frameworks content).
  pose proof (framework_content_keeps_guard frameworks content Hg) as Hg1.
  unfold python_main_content. rewrite Hg1. split; [reflexivity|].
  rewrite (framework_content_after_block frameworks _ Hg1).
  now rewrite (block_keeps_guard _ Hg1).
Qed.

Variable main_file : string.
Hypothesis main_file_not_settings : main_file <> "settings.py".

(** X17.  Whenever [_fix_python_main_file] changes a main file, the content it
    leaves does not read the port from [os.environ] without a line that
    imports [os]: the rule finds [import os] in the file or puts it in
    front, and the start-up block brings its own import. *)
Theorem python_fix_brings_os_import (analysis : option analysis) (s : engine)
    (c : string) (sz : N) :
  node_at [main_file] (tree s) = Some (File c sz) ->
  exists c',
    read_at [main_file] (tree (snd (fix_python_main_file main_file analysis s)))
    = Some c'
    /\ (c' <> c -> needs_os_import c' = false).
Proof.
  intros Hn. eexists.
  split; [exact (fix_python_main_file_content main_file main_file_not_settings
                   analysis s c sz Hn)|].
  apply changed_content_imports.
Qed.

(** X18.  The guard of the start-up block does not see the block: on a main
    file that has the line [__name__ == "__main__"] and none of the three
    server calls, every run of [_fix_python_main_file] appends the block
    once more. *)
Theorem python_startup_block_appended_on_every_run (analysis : option analysis)
    (s : engine) (c : string) (sz : N) :
  node_at [main_file] (tree s) = Some (File c sz) ->
  needs_main_block c = true ->
  let s1 := snd (fix_python_main_file main_file analysis s) in
  let s2 := snd (fix_python_main_file main_file analysis s1) in
  exists once,
    read_at [main_file] (tree s1) = Some (once ++ Text.python_main_block)
    /\ read_at [main_file] (tree s2)
       = Some ((once ++ Text.python_main_block) ++ Text.python_main_block).
Proof.
  intros Hn Hg s1 s2.
  destruct (block_appended_again (report_frameworks analysis) c Hg)
    as (once & E1 & E2).
  exists once.
  pose proof (fix_python_main_file_content main_file main_file_not_settings
                analysis s c sz Hn) as H1.
  fold s1 in H1. rewrite E1 in H1. split; [exact H1|].
  apply read_at_file in H1 as [sz1 Hn1].
  pose proof (fix_python_main_file_content main_file main_file_not_settings
                analysis s1 _ sz1 Hn1) as H2.
  fold s2 in H2. now rewrite E2 in H2.
Qed.

End PythonMainProperties.

(** A script with a main guard and no server call. *)
Definition script_text : string := Str.q
"def main():
    pass
if __name__ == ~__main__~:
    main()
".

Definition script_project : node :=
  Dir [("requirements.txt", fresh_file "requests");
       ("main.py", fresh_file script_text)].

Lemma import_on_script_project :
  exists c',
    read_at ["main.py"]
      (tree (snd (fix_python_main_file "main.py"
                    (first_report "/srv/app" script_project) (init script_project))))
    = Some c'
    /\ (c' <> script_text -> needs_os_import c' = false).
Proof.
  refine (python_fix_brings_os_import "main.py" _
            (first_report "/srv/app" script_project) (init script_project)
            script_text (Str.byte_length script_text) eq_refl).
  discriminate.
Defined.

Lemma block_twice_on_script_project :
  let analysis := first_report "/srv/app" script_project in
  let s1 := snd (fix_python_main_file "main.py" analysis (init script_project)) in
  let s2 := snd (fix_python_main_file "main.py" analysis s1) in
  exists once,
    read_at ["main.py"] (tree s1) = Some (once ++ Text.python_main_block)
    /\ read_at ["main.py"] (tree s2)
       = Some ((once ++ Text.python_main_block) ++ Text.python_main_block).
Proof.
  refine (python_startup_block_appended_on_every_run "main.py" _
            (first_report "/srv/app" script_project) (init script_project)
            script_text (Str.byte_length script_text) eq_refl eq_refl).
  discriminate.
Defined.

(** * The Django settings rule *)

Section ReplaceAll.

Lemma replace_go_skip (old new w rest : string) :
  Str.replace_go (String.length w) old new (w ++ rest)
  = Str.replace_go 0 old new rest.
Proof.
  induction w as [|c w IH]; cbn; [|exact IH].
  destruct rest; reflexivity.
Qed.

Lemma starts_with_split (p s : string) :
  Str.starts_with p s = true -> exists rest, s = p ++ rest.
Proof.
  revert s. induction p as [|a p IH]; intros s; cbn.
  - intros _. now exists s.
  - destruct s as [|b s]; [discriminate|].
    destruct (Ascii.eqb_spec a b) as [-> | Hne]; [|discriminate].
    cbn. intros E. destruct (IH _ E) as [rest ->]. now exists rest.
Qed.

(** the two texts differ at a position that both have *)
Fixpoint disagree (q t : string) : bool :=
  match q, t with
  | String a q', String b t' =>
      if Ascii.eqb a b then disagree q' t' else true
  | _, _ => false
  end.

Lemma disagree_starts (q t rest : string) :
  disagree q t = true -> Str.starts_with q (t ++ rest) = false.
Proof.
  revert t. induction q as [|a q IH]; intros t; [discriminate|].
  destruct t as [|b t]; [discriminate|]. cbn.
  destruct (Ascii.eqb a b); [apply IH | reflexivity].
Qed.

Variables old new : string.
Hypothesis old_given : old <> "".

Lemma replace_at_match (rest : string) :
  Str.replace old new (old ++ rest) = new ++ Str.replace old new rest.
Proof.
  unfold Str.replace. destruct old as [|x old'] eqn:Eo; [contradiction|].
  cbn [append Str.replace_go].
  change (String x (old' ++ rest)) with (String x old' ++ rest).
  rewrite starts_with_app by apply starts_with_refl.
  replace (String.length (String x old') - 1) with (String.length old')
    by (cbn; lia).
  now rewrite replace_go_skip.
Qed.

Lemma replace_no_match (c : ascii) (s : string) :
  Str.starts_with old (String c s) = false ->
  Str.replace old new (String c s) = String c (Str.replace old new s).
Proof. unfold Str.replace. cbn [Str.replace_go]. now intros ->. Qed.

(** no suffix of the text can begin where [old] or [new] begins *)
Fixpoint apart (p : string) : bool :=
  match p with
  | EmptyString => true
  | String _ p' => disagree p new && disagree p old && apart p'
  end.

(** Such a text begins the result of the replacement where it began the
    original. *)
Lemma starts_with_replace (p : string) :
  apart p = true ->
  forall s, Str.starts_with p (Str.replace old new s) = Str.starts_with p s.
Proof.
  induction p as [|y p IH]; intros Hp s; [reflexivity|].
  cbn [apart] in Hp. apply andb_true_iff in Hp as [Hp Hp'].
  apply andb_true_iff in Hp as [Hnew Hold].
  destruct s as [|c s]; [reflexivity|].
  destruct (Str.starts_with old (String c s)) eqn:Em.
  - apply starts_with_split in Em as [rest ->].
    rewrite replace_at_match.
    now rewrite (disagree_starts _ _ _ Hnew), (disagree_starts _ _ _ Hold).
  - rewrite (replace_no_match _ _ Em). cbn [Str.starts_with].
    now rewrite (IH Hp').
Qed.

Lemma by_length (P : string -> Prop) :
  (forall s, (forall t, String.length t < String.length s -> P t) -> P s) ->
  forall s, P s.
Proof.
  intros Hstep s. remember (String.length s) as n eqn:Hn.
  assert (Hle : String.length s <= n) by lia. clear Hn. revert s Hle.
  induction n as [|n IH]; intros s Hle; apply Hstep; intros t Ht;
    [lia | apply IH; lia].
Qed.

(** A text that does not occur before the replacement does not occur
    after it. *)
Lemma replace_brings_none (p : string) :
  apart p = true ->
  (forall rest, Str.contains p (new ++ rest) = Str.contains p rest) ->
  forall s, Str.contains p s = false ->
            Str.contains p (Str.replace old new s) = false.
Proof.
  intros Hp Hnew. apply (by_length (fun s => _ -> _)). intros s IH Hs.
  destruct s as [|c s]; [exact Hs|].
  destruct (Str.starts_with old (String c s)) eqn:Em.
  - apply starts_with_split in Em as [rest E]. rewrite E, replace_at_match, Hnew.
    apply IH.
    + rewrite E, length_append. destruct old; [contradiction | cbn; lia].
    + rewrite E in Hs. exact (contains_app_none_r _ _ _ Hs).
  - pose proof (starts_with_replace p Hp (String c s)) as Hsw.
    rewrite (replace_no_match _ _ Em) in *.
    apply contains_tail in Hs as [Hs Hc]. cbn [Str.contains].
    rewrite Hsw, Hs. cbn [orb]. apply IH; [cbn; lia | exact Hc].
Qed.

(** After the replacement [old] does not occur. *)
Lemma replace_leaves_none (x : ascii) (old' : string) :
  old = String x old' -> apart old' = true ->
  (forall rest, Str.contains old (new ++ rest) = Str.contains old rest) ->
  forall s, Str.contains old (Str.replace old new s) = false.
Proof.
  intros Eo Hp Hnew. apply by_length. intros s IH.
  destruct s as [|c s].
  - rewrite Eo. reflexivity.
  - destruct (Str.starts_with old (String c s)) eqn:Em.
    + apply starts_with_split in Em as [rest E]. rewrite E, replace_at_match, Hnew.
      apply IH. rewrite E, length_append. rewrite Eo. cbn. lia.
    + rewrite (replace_no_match _ _ Em). cbn [Str.contains].
      rewrite IH by (cbn; lia). rewrite orb_false_r.
      pose proof (starts_with_replace old' Hp s) as Hsw.
      set (r := Str.replace old new s) in *.
      rewrite Eo in Em |- *. cbn [Str.starts_with] in Em |- *.
      now rewrite Hsw.
Qed.

End ReplaceAll.

Section DjangoSettings.

Definition hosts_old : string := "ALLOWED_HOSTS = []".
Definition hosts_new : string :=
  Str.q "ALLOWED_HOSTS = [~*~]  # Fixed for deployment".
Definition debug_old : string := "DEBUG = True".
Definition debug_new : string :=
  Str.q "DEBUG = os.environ.get(~DEBUG~, ~False~).lower() == ~true~".

(** the first step of the rule *)
Definition hosts_content (content : string) : string :=
  if Str.contains hosts_old content
  then Str.replace hosts_old hosts_new content
  else content.

(** the second step *)
Definition debug_content (content : string) : string :=
  if Str.contains debug_old content
  then let content := Str.replace debug_old debug_new content in
       if negb (Str.contains "import os" content)
       then "import os" ++ String "010" content
       else content
  else content.

Definition django_settings_content (content : string) : string :=
  debug_content (hosts_content content).

(** the last step of a rule: write the content back if it changed *)
Lemma write_back (n c c2 : string) (sz : N) (s : engine) :
  node_at [n] (tree s) = Some (File c sz) ->
  read_at [n]
    (tree (snd ((if negb (String.eqb c2 c)
                 then write [n] c2
                 else fun s0 : engine => (Returns tt, s0)) s)))
  = Some c2.
Proof.
  intros Hn. destruct (negb (String.eqb c2 c)) eqn:Ene.
  - unfold write.
    destruct (write_over_file n c2 c sz (tree s) Hn) as (t' & -> & Hn').
    exact (file_read _ _ _ _ Hn').
  - apply negb_false_iff, String.eqb_eq in Ene. subst c2.
    exact (file_read _ _ _ _ Hn).
Qed.

Lemma fix_django_settings_run (s : engine) (c : string) (sz : N) :
  node_at ["settings.py"] (tree s) = Some (File c sz) ->
  exists s1,
    fix_django_settings s = (Returns tt, s1)
    /\ read_at ["settings.py"] (tree s1) = Some (django_settings_content c).
Proof.
  intros Hn. unfold fix_django_settings, attempt.
  eexists. split; [reflexivity|].
  unfold bind at 1. unfold read. rewrite (file_read _ _ _ _ Hn).
  unfold django_settings_content, hosts_content, debug_content.
  fold hosts_old hosts_new debug_old debug_new.
  unfold bind, log, ret.
  destruct (Str.contains hosts_old c); cbv beta iota;
    match goal with
    | |- context [Str.contains debug_old ?c1] =>
        destruct (Str.contains debug_old c1); cbv beta iota zeta
    end;
    apply write_back with (sz := sz); exact Hn.
Qed.

Lemma fix_django_settings_settled (s : engine) (c : string) :
  read_at ["settings.py"] (tree s) = Some c ->
  Str.contains hosts_old c = false -> Str.contains debug_old c = false ->
  fix_django_settings s = (Returns tt, s).
Proof.
  intros Hr Hh Hd. unfold fix_django_settings, attempt, bind, read.
  rewrite Hr. fold hosts_old debug_old. rewrite Hh. unfold ret at 1.
  cbv beta iota. rewrite Hd. unfold ret at 1. cbv beta iota.
  now rewrite String.eqb_refl.
Qed.

Lemma hosts_content_settled (c : string) :
  Str.contains hosts_old (hosts_content c) = false.
Proof.
  unfold hosts_content. destruct (Str.contains hosts_old c) eqn:E; [|exact E].
  now apply (replace_leaves_none hosts_old hosts_new
               ltac:(discriminate) "A" "LLOWED_HOSTS = []").
Qed.

Lemma debug_content_settled (c : string) :
  Str.contains hosts_old c = false ->
  Str.contains hosts_old (debug_content c) = false
  /\ Str.contains debug_old (debug_content c) = false.
Proof.
  intros Hh. unfold debug_content.
  destruct (Str.contains debug_old c) eqn:E; [|now split].
  assert (Ha : Str.contains hosts_old (Str.replace debug_old debug_new c) = false).
  { now apply (replace_brings_none debug_old debug_new ltac:(discriminate)
                 hosts_old). }
  assert (Hd : Str.contains debug_old (Str.replace debug_old debug_new c) = false).
  { now apply (replace_leaves_none debug_old debug_new
                 ltac:(discriminate) "D" "EBUG = True"). }
  destruct (negb _); split; assumption.
Qed.

(** X20.  The Django settings rule is idempotent.  The text it leaves in
    [settings.py] holds neither [ALLOWED_HOSTS = []] nor [DEBUG = True],
    and a second run on the state that the first run left changes no file
    and logs nothing. *)
Theorem django_settings_rule_idempotent (s : engine) :
  fix_django_settings (snd (fix_django_settings s)) = fix_django_settings s
  /\ forall c,
       read_at ["settings.py"] (tree s) = Some c ->
       exists c',
         read_at ["settings.py"] (tree (snd (fix_django_settings s))) = Some c'
         /\ Str.contains "ALLOWED_HOSTS = []" c' = false
         /\ Str.contains "DEBUG = True" c' = false.
Proof.
  destruct (read_at ["settings.py"] (tree s)) as [c|] eqn:Er.
  - destruct (read_at_file _ _ _ Er) as [sz Hn].
    destruct (fix_django_settings_run s c sz Hn) as (s1 & E1 & Hr1).
    destruct (debug_content_settled _ (hosts_content_settled c)) as [Hh Hd].
    rewrite E1. cbn [snd]. split.
    + exact (fix_django_settings_settled s1 _ Hr1 Hh Hd).
    + intros c0 [= <-]. now exists (django_settings_content c).
  - assert (E : fix_django_settings s = (Returns tt, s)).
    { unfold fix_django_settings, attempt, bind, read. now rewrite Er. }
    rewrite E. cbn [snd]. split; [exact E | discriminate].
Qed.

End DjangoSettings.

Example django_settings_fixed :
  django_settings_content
    ("DEBUG = True" ++ String "010" "ALLOWED_HOSTS = []" ++ String "010" "")
  = "import os" ++ String "010"
      (debug_new ++ String "010" hosts_new ++ String "010" "").
Proof. reflexivity. Qed.

(** * The Flask branch of [_fix_python_main_file] *)

Section FlaskRun.

Lemma lit_at_prefix (p rest : string) : Re.lit p (p ++ rest) = Some rest.
Proof.
  induction p as [|a p IH]; cbn; [reflexivity|].
  now rewrite Ascii.eqb_refl.
Qed.

(** Where a literal occurs, the pattern that is this literal is found. *)
Lemma search_finds_literal (p repl s : string) :
  Str.contains p s = true ->
  Re.search (fun t => Re.and_then (Re.lit p t) (fun r => Some (repl, r))) s = true.
Proof.
  induction s as [|c s IH]; cbn [Str.contains Re.search].
  - rewrite orb_false_r. intros E. apply starts_with_split in E as [rest E].
    destruct p; [reflexivity | discriminate].
  - intros E. apply orb_true_iff in E as [E | E].
    + apply starts_with_split in E as [rest ->]. now rewrite lit_at_prefix.
    + destruct (Re.and_then _ _); [reflexivity | now apply IH].
Qed.

Lemma flask_run_found (content : string) :
  Str.contains "app.run()" content = true ->
  rewrite_flask_run content = (Re.sub Re.flask_run content, true)
  /\ Str.contains Re.flask_run_repl (Re.sub Re.flask_run content) = true.
Proof.
  intros Hc.
  assert (Hs : Re.search Re.flask_run content = true)
    by exact (search_finds_literal "app.run()" Re.flask_run_repl content Hc).
  split.
  - unfold rewrite_flask_run. now rewrite Hs.
  - apply (sub_contains_replacement Re.flask_run Re.flask_run_repl eq_refl);
      [|exact Hs].
    intros t r rest. unfold Re.flask_run, Re.and_then.
    destruct (Re.lit "app.run()" t); [|discriminate].
    intros [= <- _]. apply contains_refl.
Qed.

Lemma flask_content_binds (content : string) :
  Str.contains "app.run()" content = true ->
  Str.contains Re.flask_run_repl (flask_content content) = true.
Proof.
  intros Hc. destruct (flask_run_found content Hc) as [Er Hrepl].
  unfold flask_content. rewrite Er. cbn [fst].
  destruct (needs_os_import _); [|exact Hrepl].
  rewrite <- append_assoc. now apply contains_app_r.
Qed.

Lemma contains_trans (a b s : string) :
  Str.contains a b = true -> Str.contains b s = true -> Str.contains a s = true.
Proof.
  intros Hab. induction s as [|c s IH]; intros Hbs.
  - cbn in Hbs. rewrite orb_false_r in Hbs.
    apply starts_with_split in Hbs as [rest E].
    destruct b; [exact Hab | discriminate].
  - destruct (Str.starts_with b (String c s)) eqn:Es.
    + apply starts_with_split in Es as [rest E]. rewrite E.
      now apply contains_app_l.
    + cbn [Str.contains] in Hbs. rewrite Es in Hbs.
      apply contains_cons, IH. exact Hbs.
Qed.

Lemma repl_reads_port (content : string) :
  Str.contains Re.flask_run_repl content = true ->
  Str.contains (Str.q "os.environ.get(~PORT~") content = true.
Proof. apply contains_trans. reflexivity. Qed.

Variable main_file : string.
Hypothesis main_file_not_settings : main_file <> "settings.py".

(** X16.  In a Flask project, a main file that calls [app.run()] holds after the
    rule a call that binds to all interfaces and reads the port from the
    environment, and a line that imports [os]. *)
Theorem flask_run_call_is_rebound (analysis : option analysis) (s : engine)
    (c : string) (sz : N) :
  node_at [main_file] (tree s) = Some (File c sz) ->
  Str.mem "flask" (report_frameworks analysis) = true ->
  Str.contains "app.run()" c = true ->
  exists c',
    read_at [main_file] (tree (snd (fix_python_main_file main_file analysis s)))
    = Some c'
    /\ Str.contains
         (Str.q "app.run(host=~0.0.0.0~, port=int(os.environ.get(~PORT~, 5000)))") c'
       = true
    /\ Str.contains "import os" c' = true.
Proof.
  intros Hn Hflask Hc. eexists.
  split; [exact (fix_python_main_file_content main_file main_file_not_settings
                   analysis s c sz Hn)|].
  unfold python_main_content, framework_content. rewrite Hflask.
  pose proof (flask_content_binds c Hc) as Hrepl.
  pose proof (flask_content_imports c) as Himp.
  unfold needs_os_import in Himp.
  rewrite (repl_reads_port _ Hrepl) in Himp. cbn [andb] in Himp.
  apply negb_false_iff in Himp.
  destruct (needs_main_block (flask_content c)).
  - split; now apply contains_app_l.
  - now split.
Qed.

End FlaskRun.

Lemma flask_project_is_rebound :
  exists c',
    read_at ["app.py"]
      (tree (snd (fix_python_main_file "app.py"
                    (first_report "/srv/app" flask_project) (init flask_project))))
    = Some c'
    /\ Str.contains
         (Str.q "app.run(host=~0.0.0.0~, port=int(os.environ.get(~PORT~, 5000)))") c'
       = true
    /\ Str.contains "import os" c' = true.
Proof.
  refine (flask_run_call_is_rebound "app.py" _
            (first_report "/srv/app" flask_project) (init flask_project)
            _ _ eq_refl eq_refl eq_refl).
  discriminate.
Defined.

(** * Further properties of single rules *)

Section ManifestRule.
Context `{Platform}.

Lemma write_where_read (n text content : string) (t : node) :
  read_at [n] t = Some text ->
  exists t', write_at [n] content t = Some t'
             /\ read_at [n] t' = Some content.
Proof.
  intros Hr. apply read_at_file in Hr as [sz Hn].
  destruct (write_over_file n content text sz t Hn) as (t' & Hw & Hn').
  exists t'. split; [exact Hw | exact (file_read _ _ _ _ Hn')].
Qed.

(** The body of the [try] block over [package.json] up to, and without,
    its last statement, which opens the file for writing: the value that
    the last statement dumps. *)
Definition manifest_update (project_dir : string) : M json :=
  text <- read ["package.json"] ;;
  package_data <- value_of (json_load text) ;;
  has_scripts <- value_of (py_in "scripts" package_data) ;;
  package_data <-
    (if has_scripts then ret package_data
     else value_of (py_setitem "scripts" (JObj []) package_data)) ;;
  scripts <- value_of (py_getitem "scripts" package_data) ;;
  has_start <- value_of (py_in "start" scripts) ;;
  if has_start then ret package_data
  else
    main <- value_of (py_get "main" (JStr "index.js") package_data) ;;
    main_file <- value_of (match main with JStr s => Some s | _ => None end) ;;
    main_file <-
      (fun s => (Returns (start_entry project_dir main_file (tree s)), s)) ;;
    scripts <- value_of (py_setitem "start" (JStr ("node " ++ main_file)) scripts) ;;
    package_data <- value_of (py_setitem "scripts" scripts package_data) ;;
    log "Added start script to package.json" ;;
    ret package_data.

(** one more case distinction in the run of a method *)
Ltac crack :=
  match goal with
  | |- context [match ?x with _ => _ end] =>
      lazymatch x with
      | context [match _ with _ => _ end] => fail
      | _ => destruct x eqn:?
      end
  end; cbv beta iota; cbn [fst snd tree fixes_applied].

(** X21.  The manifest rule prepares the new manifest and then writes it,
    and every failure before the write leaves no trace: when the
    preparation raises (the file cannot be read, it does not parse, it is
    no object, its [scripts] or its [main] has the wrong type), tree and
    ledger are as they were.  When the preparation returns, it has written
    nothing and has logged at most the one entry for the start script; the
    entry is in the ledger before the file is opened for writing. *)
Theorem manifest_failure_before_write_leaves_no_trace (project_dir : string)
    (s : engine) :
  fix_package_json project_dir s
  = (package_data <- manifest_update project_dir ;;
     write ["package.json"] (json_dump package_data)) s
  /\ match manifest_update project_dir s with
     | (Raises, s') => s' = s
     | (Returns _, s') =>
         tree s' = tree s
         /\ (fixes_applied s' = fixes_applied s
             \/ fixes_applied s'
                = (fixes_applied s ++ ["Added start script to package.json"])%list)
     end.
Proof.
  split.
  - unfold fix_package_json, manifest_update, bind, read, value_of, ret, raise, log.
    cbv beta iota. repeat crack; reflexivity.
  - unfold manifest_update, bind, read, value_of, ret, raise, log.
    cbv beta iota. repeat crack; try reflexivity; split; try reflexivity;
      (now left) || (now right).
Qed.

(** X22.  A manifest that declares a start script keeps it: the rule logs
    nothing, writes the dump of the manifest as it was loaded, and changes
    no other file. *)
Theorem declared_start_script_kept (project_dir : string) (s : engine)
    (text : string) (members : list (string * json)) (scripts : json) :
  read_at ["package.json"] (tree s) = Some text ->
  json_load text = Some (JObj members) ->
  Json.find "scripts" members = Some scripts ->
  py_in "start" scripts = Some true ->
  exists t',
    fix_package_json project_dir s
    = (Returns tt, {| tree := t'; fixes_applied := fixes_applied s |})
    /\ read_at ["package.json"] t' = Some (json_dump (JObj members))
    /\ forall q, q <> ["package.json"] -> read_at q t' = read_at q (tree s).
Proof.
  intros Er Hl Hf Hs.
  destruct (write_where_read _ _ (json_dump (JObj members)) _ Er)
    as (t' & Hw & Hr).
  exists t'. split; [|split; [exact Hr|]].
  - unfold fix_package_json, bind, read. rewrite Er.
    unfold value_of at 1. rewrite Hl. unfold ret at 1.
    cbn [py_in]. rewrite Hf. unfold value_of at 1. unfold ret at 1 2.
    cbn [py_getitem]. rewrite Hf. unfold value_of at 1. unfold ret at 1.
    rewrite Hs. unfold value_of at 1. unfold ret at 1 2.
    unfold write. now rewrite Hw.
  - intros q Hq. exact (write_at_read_other _ _ _ _ _ Hw Hq).
Qed.

End ManifestRule.

Example manifest_update_outcomes :
  manifest_update "/srv/app" (init (Dir [("package.json", fresh_file "{")]))
  = (Raises, init (Dir [("package.json", fresh_file "{")]))
  /\ fixes_applied (snd (manifest_update "/srv/app" (init express_project)))
     = ["Added start script to package.json"].
Proof. split; reflexivity. Qed.

Definition started_project : node :=
  Dir [("package.json", fresh_file (sample_dump manifest_started))].

Lemma start_script_of_started_project_kept :
  exists t',
    fix_package_json "/srv/app" (init started_project)
    = (Returns tt, {| tree := t'; fixes_applied := [] |})
    /\ read_at ["package.json"] t' = Some (json_dump manifest_started)
    /\ forall q, q <> ["package.json"] ->
                 read_at q t' = read_at q started_project.
Proof.
  exact (declared_start_script_kept "/srv/app" (init started_project)
           (sample_dump manifest_started)
           [("name", JStr "demo"); ("scripts", JObj [("start", JStr "node app.js")])]
           (JObj [("start", JStr "node app.js")])
           eq_refl eq_refl eq_refl eq_refl).
Defined.

Section HtaccessRule.

(** X23.  The [.htaccess] rule is idempotent, ledger included: run on the state
    it leaves, it gives the same outcome and leaves the same state.  An
    entry [.htaccess] that exists is never written. *)
Theorem htaccess_rule_idempotent (s : engine) :
  fix_php_issues (snd (fix_php_issues s)) = fix_php_issues s
  /\ (exists_at [".htaccess"] (tree s) = true ->
      fix_php_issues s = (Returns tt, s)).
Proof.
  unfold fix_php_issues, bind, exists_.
  destruct (exists_at [".htaccess"] (tree s)) eqn:Ex; cbn [negb ret fst snd].
  - split; [|reflexivity]. unfold ret. cbn [snd]. now rewrite Ex.
  - split; [|discriminate]. unfold write.
    destruct (write_at [".htaccess"] Text.htaccess_content (tree s))
      as [t'|] eqn:Ew.
    + unfold log, ret. cbn [snd tree].
      assert (Ex' : exists_at [".htaccess"] t' = true).
      { unfold exists_at. now rewrite (write_at_same _ _ _ _ Ew). }
      now rewrite Ex'.
    + cbn [snd]. rewrite Ex. cbn [negb]. cbv beta. now rewrite Ew.
Qed.

End HtaccessRule.

Section GuideRule.

Lemma concat_contains (x : string) (l : list string) :
  In x l -> Str.contains x (String.concat "" l) = true.
Proof.
  induction l as [|y l IH]; [intros []|].
  intros Hin. cbn [String.concat].
  destruct l as [|z l].
  - destruct Hin as [-> | []]. apply contains_refl.
  - destruct Hin as [-> | Hin].
    + apply contains_app_l, contains_refl.
    + apply contains_app_r. cbn [append]. now apply IH.
Qed.

(** the line of the guide for one issue *)
Definition guide_line (i : issue) : string :=
  "- " ++ description i ++ String "010" EmptyString.

Lemma guide_content_lists (issues : list issue) (i : issue) :
  In i issues -> Str.contains (guide_line i) (guide_content issues) = true.
Proof.
  intros Hin. unfold guide_content.
  apply contains_app_r, contains_app_l, concat_contains.
  now apply (in_map guide_line).
Qed.

(** X24.  In a project directory where [DEPLOYMENT_NOTES.md] is no directory,
    the guide rule leaves a guide that has a line for every
    hardcoded_config issue of the report. *)
Theorem guide_has_a_line_for_every_issue (analysis : option analysis)
    (s : engine) (i : issue) :
  root_is_directory (tree s) ->
  directory_at ["DEPLOYMENT_NOTES.md"] (tree s) = false ->
  In i (hardcoded_issues analysis) ->
  exists text,
    read_at ["DEPLOYMENT_NOTES.md"] (tree (snd (fix_hardcoded_configs analysis s)))
    = Some text
    /\ Str.contains (guide_line i) text = true.
Proof.
  intros Hroot Hdir Hin. unfold fix_hardcoded_configs.
  pose proof (guide_content_lists _ _ Hin) as Hline.
  destruct (hardcoded_issues analysis) as [|i0 l] eqn:E; [destruct Hin|].
  destruct (write_log_step "DEPLOYMENT_NOTES.md" (guide_content (i0 :: l))
              "Created deployment configuration guide" s Hroot)
    as (s' & Hrun & _).
  rewrite Hdir in Hrun. rewrite Hrun. cbn [snd].
  apply write_log_returns in Hrun as (Hn & _).
  exists (guide_content (i0 :: l)). split; [now apply node_at_read | exact Hline].
Qed.

End GuideRule.

Lemma guide_of_noted_project_names_the_issue :
  exists text,
    read_at ["DEPLOYMENT_NOTES.md"]
      (tree (snd (fix_hardcoded_configs (first_report "/srv/app" noted_project)
                    (init noted_project))))
    = Some text
    /\ Str.contains (guide_line noted_issue) text = true.
Proof.
  apply (guide_has_a_line_for_every_issue (first_report "/srv/app" noted_project)
           (init noted_project) noted_issue eq_refl eq_refl).
  vm_compute. now left.
Defined.

Section ReturnedValue.
Context `{Platform}.

Lemma apply_fixes_body_returns (project_dir : string)
    (analysis : option analysis) (s s' : engine) (b : bool) :
  apply_fixes_body project_dir analysis s = (Returns b, s') ->
  b = Nat.ltb 0 (List.length (fixes_applied s'))
  /\ exists earlier,
       fixes_applied s' = (earlier ++ repeated_entries analysis)%list.
Proof.
  intros E. unfold apply_fixes_body in E.
  apply bind_returns in E as ([] & sa & _ & E).
  apply bind_returns in E as ([] & sb & _ & E).
  apply bind_returns in E as ([] & s1 & E1 & E).
  apply bind_returns in E as ([] & s2 & E2 & E).
  apply bind_returns in E as ([] & s3 & E3 & E).
  injection E as <- <-. split; [reflexivity|].
  assert (Er : overwrite_rules analysis sb = (Returns tt, s3)).
  { unfold overwrite_rules, bind. now rewrite E1, E2. }
  apply overwrite_rules_returns in Er as [L _].
  exists (fixes_applied sb). exact L.
Qed.

(** X13.  A call that runs to the end of its [try] block returns [True] whenever
    the report triggers one of the three overwriting rules, whether or not
    anything in the project needed a fix: so for every report whose primary
    stack is nodejs or python, and for every report that lists no
    environment file. *)
Theorem completed_call_returns_true_when_a_rule_fires (project_dir : string)
    (analysis : option analysis) (s : engine) :
  completes project_dir analysis s = true ->
  repeated_entries analysis <> [] ->
  fst (apply_fixes project_dir analysis s) = true.
Proof.
  unfold completes, apply_fixes. intros Hc Hne.
  destruct (apply_fixes_body project_dir analysis s) as [[b|] s'] eqn:E;
    [|discriminate].
  apply apply_fixes_body_returns in E as (-> & earlier & L). cbn [fst].
  rewrite L, length_app.
  destruct (repeated_entries analysis); [congruence|].
  cbn [List.length]. apply Nat.ltb_lt. lia.
Qed.

End ReturnedValue.

Lemma call_on_started_project_returns_true :
  fst (apply_fixes "/srv/app" (first_report "/srv/app" started_project)
         (init started_project)) = true.
Proof.
  apply (completed_call_returns_true_when_a_rule_fires "/srv/app"
           (first_report "/srv/app" started_project) (init started_project)).
  - vm_compute. reflexivity.
  - vm_compute. discriminate.
Defined.

(** * What a completed call leaves *)

Section CompletedCall.
Context `{Platform}.

(** X12.  When the [try] block of [apply_fixes] runs to its end, every file
    that an overwriting rule of the report wrote holds the text of its
    rule: [.env] the environment template when the report lists no
    environment file, [DEPLOYMENT_NOTES.md] the guide for the
    hardcoded_config issues when there is one, [start.sh] the startup
    script of the stack when the primary stack is nodejs or python. *)
Theorem completed_call_leaves_its_files (project_dir : string)
    (analysis : option analysis) (s : engine) :
  completes project_dir analysis s = true ->
  let after := tree (snd (apply_fixes project_dir analysis s)) in
  (report_environment_files analysis = [] ->
   read_at [".env"] after = Some Text.env_content)
  /\ (hardcoded_issues analysis <> [] ->
      read_at ["DEPLOYMENT_NOTES.md"] after
      = Some (guide_content (hardcoded_issues analysis)))
  /\ (String.eqb (report_primary analysis) "nodejs"
      || String.eqb (report_primary analysis) "python" = true ->
      read_at ["start.sh"] after = Some (startup_content analysis)).
Proof.
  unfold completes, apply_fixes. intros Hc.
  destruct (apply_fixes_body project_dir analysis s) as [[b|] s'] eqn:E;
    [|discriminate].
  cbn [snd]. unfold apply_fixes_body in E.
  apply bind_returns in E as ([] & sa & _ & E).
  apply bind_returns in E as ([] & sb & _ & E).
  apply bind_returns in E as ([] & s1 & E1 & E).
  apply bind_returns in E as ([] & s2 & E2 & E).
  apply bind_returns in E as ([] & s3 & E3 & E).
  injection E as _ <-.
  apply (proj1 (settles_environment analysis)) in E1 as (_ & F1 & _).
  apply (proj1 (settles_guide analysis)) in E2 as (_ & F2 & O2).
  apply (proj1 (settles_startup analysis)) in E3 as (_ & F3 & O3).
  split; [|split].
  - intros Henv. apply node_at_read.
    rewrite O3, O2 by discriminate. apply F1.
    unfold env_entries. now rewrite Henv.
  - intros Hguide. apply node_at_read.
    rewrite O3 by discriminate. apply F2.
    unfold guide_entries. now destruct (hardcoded_issues analysis).
  - intros Hstack. apply node_at_read, F3. unfold startup_entries.
    destruct (String.eqb (report_primary analysis) "nodejs"); [discriminate|].
    destruct (String.eqb (report_primary analysis) "python"); discriminate.
Qed.

End CompletedCall.

Lemma completed_call_on_flask_project :
  let analysis := first_report "/srv/app" flask_project in
  let after := tree (snd (apply_fixes "/srv/app" analysis (init flask_project))) in
  (report_environment_files analysis = [] ->
   read_at [".env"] after = Some Text.env_content)
  /\ (hardcoded_issues analysis <> [] ->
      read_at ["DEPLOYMENT_NOTES.md"] after
      = Some (guide_content (hardcoded_issues analysis)))
  /\ (String.eqb (report_primary analysis) "nodejs"
      || String.eqb (report_primary analysis) "python" = true ->
      read_at ["start.sh"] after = Some (startup_content analysis)).
Proof.
  exact (completed_call_leaves_its_files "/srv/app"
           (first_report "/srv/app" flask_project) (init flask_project) eq_refl).
Defined.

(** * The run script of [_fix_python_issues] *)

Section RunScript.

Lemma for_each_skip {A} (x : A) (l : list A) (body : A -> M unit) (s : engine) :
  body x s = (Returns tt, s) -> for_each (x :: l) body s = for_each l body s.
Proof. intros E. cbn [for_each]. unfold bind. now rewrite E. Qed.

Lemma for_each_last {A} (x : A) (body : A -> M unit) (s s' : engine) :
  body x s = (Returns tt, s') -> for_each [x] body s = (Returns tt, s').
Proof. intros E. cbn [for_each]. unfold bind. now rewrite E. Qed.

Variable analysis : option analysis.

(** the body of the loop over the main files *)
Definition visit_main_file (main_file : string) : M unit :=
  present <- exists_ [main_file] ;;
  if present then fix_python_main_file main_file analysis else ret tt.

Lemma visit_absent (main_file : string) (s : engine) :
  exists_at [main_file] (tree s) = false ->
  visit_main_file main_file s = (Returns tt, s).
Proof. intros E. unfold visit_main_file, bind, exists_. now rewrite E. Qed.

Lemma visit_present (main_file : string) (s : engine) :
  exists_at [main_file] (tree s) = true ->
  visit_main_file main_file s = fix_python_main_file main_file analysis s.
Proof. intros E. unfold visit_main_file, bind, exists_. now rewrite E. Qed.

Lemma fix_python_issues_steps (s : engine) :
  fix_python_issues analysis s
  = (for_each python_main_files visit_main_file ;;
     fun s =>
       if negb (existsb (fun f => exists_at [f] (tree s)) python_main_files)
       then create_python_run_script s
       else (Returns tt, s)) s.
Proof. reflexivity. Qed.

Lemma node_exists (p : path) (t : node) (x : node) :
  node_at p t = Some x -> exists_at p t = true.
Proof. unfold exists_at. now intros ->. Qed.

Lemma node_missing (p : path) (t : node) :
  exists_at p t = false -> node_at p t = None.
Proof. unfold exists_at. now destruct (node_at p t). Qed.

(** X19.  In a Python project that has none of [app.py], [main.py], [server.py]
    and [run.py], the rule creates [run.py] and logs it.  The script has a
    main guard and none of the three server calls, and it is a main file
    itself: the next call of the rule appends the start-up block to it. *)
Theorem created_run_script_gets_block_on_next_call (s : engine) :
  root_is_directory (tree s) ->
  (forall f, In f python_main_files -> exists_at [f] (tree s) = false) ->
  let s1 := snd (fix_python_issues analysis s) in
  let s2 := snd (fix_python_issues analysis s1) in
  read_at ["run.py"] (tree s1) = Some Text.run_content
  /\ fixes_applied s1 = (fixes_applied s ++ ["Created Python run script"])%list
  /\ exists once,
       read_at ["run.py"] (tree s2) = Some (once ++ Text.python_main_block).
Proof.
  intros Hroot Hnone.
  assert (Habsent : forall f, In f python_main_files ->
                              visit_main_file f s = (Returns tt, s))
    by (intros f Hf; apply visit_absent, Hnone, Hf).
  (* the first call *)
  assert (E1 : exists s1,
             fix_python_issues analysis s = (Returns tt, s1)
             /\ node_at ["run.py"] (tree s1) = Some (fresh_file Text.run_content)
             /\ fixes_applied s1
                = (fixes_applied s ++ ["Created Python run script"])%list
             /\ forall m, m <> "run.py" ->
                          node_at [m] (tree s1) = node_at [m] (tree s)).
  { rewrite fix_python_issues_steps. unfold bind at 1.
    unfold python_main_files at 1.
    rewrite !for_each_skip by (apply Habsent; cbn; tauto).
    cbn [for_each]. unfold ret at 1.
    replace (existsb (fun f => exists_at [f] (tree s)) python_main_files)
      with false.
    2:{ symmetry. cbn [existsb python_main_files].
        rewrite !Hnone by (cbn; tauto). reflexivity. }
    cbn [negb]. unfold create_python_run_script.
    destruct (write_log_step "run.py" Text.run_content
                "Created Python run script" s Hroot) as (s1 & E & _).
    rewrite missing_is_no_directory in E by (apply Hnone; cbn; tauto).
    exists s1. split; [exact E|]. now apply write_log_returns in E. }
  destruct E1 as (s1 & E1 & Hn1 & Hl1 & Ho1).
  cbv zeta. rewrite E1. cbn [snd].
  split; [now apply node_at_read|]. split; [exact Hl1|].
  (* the second call *)
  assert (Hskip : forall f, In f ["app.py"; "main.py"; "server.py"] ->
                            visit_main_file f s1 = (Returns tt, s1)).
  { intros f Hf. apply visit_absent. unfold exists_at.
    rewrite Ho1 by (cbn in Hf; decompose [or] Hf; subst; try discriminate;
                    contradiction).
    rewrite node_missing; [reflexivity|]. apply Hnone.
    cbn in Hf |- *. tauto. }
  pose proof (fix_python_main_file_content "run.py" ltac:(discriminate)
                analysis s1 Text.run_content _ Hn1) as Hr2.
  destruct (block_appended_again (report_frameworks analysis) Text.run_content
              eq_refl) as (once & Eonce & _).
  exists once. rewrite <- Eonce.
  rewrite fix_python_issues_steps. unfold bind at 1.
  unfold python_main_files at 1.
  rewrite !for_each_skip by (apply Hskip; cbn; tauto).
  rewrite (for_each_last "run.py" visit_main_file s1
             (snd (fix_python_main_file "run.py" analysis s1))).
  2:{ rewrite visit_present by exact (node_exists _ _ _ Hn1).
      unfold fix_python_main_file, attempt. reflexivity. }
  set (s2 := snd (fix_python_main_file "run.py" analysis s1)) in *.
  replace (existsb (fun f => exists_at [f] (tree s2)) python_main_files)
    with true.
  - exact Hr2.
  - symmetry. cbn [existsb python_main_files].
    destruct (read_at_file _ _ _ Hr2) as [sz2 Hn2].
    rewrite (node_exists ["run.py"] _ _ Hn2). now rewrite !orb_true_r.
Qed.

End RunScript.

(** A Python project that has only its requirements. *)
Definition bare_python_project : node :=
  Dir [("requirements.txt", fresh_file "requests")].

Lemma run_script_of_bare_python_project :
  let analysis := first_report "/srv/app" bare_python_project in
  let s1 := snd (fix_python_issues analysis (init bare_python_project)) in
  let s2 := snd (fix_python_issues analysis s1) in
  read_at ["run.py"] (tree s1) = Some Text.run_content
  /\ fixes_applied s1 = ["Created Python run script"]
  /\ exists once,
       read_at ["run.py"] (tree s2) = Some (once ++ Text.python_main_block).
Proof.
  apply (created_run_script_gets_block_on_next_call
           (first_report "/srv/app" bare_python_project)
           (init bare_python_project) eq_refl).
  intros f Hf. cbn in Hf. decompose [or] Hf; subst; try reflexivity.
  contradiction.
Defined.
